(** * A file-backed job queue: storage, job model and queue manager

    Shallow embedding of [storage.py], [models.py], [config.py],
    [queue_manager.py] and the reporting part of [worker.py].  A job is a Python dict, modelled as a finite map from
    field names to values; the job table is the list held under ["jobs"] in
    the JSON file; every operation is a computation over the state of the
    file and may raise.  *)

From Stdlib Require Import ZArith QArith List Bool Lia Lqa.
From stdpp Require Import gmap strings list fin_maps pretty.

Local Open Scope Z_scope.

(** ** Python values held in job dicts *)

(** The JSON values this program stores in a job record: [None] (JSON null),
    integers and strings. *)
Inductive value :=
| VNone
| VInt (z : Z)
| VStr (s : string).

Global Instance value_eq_dec : EqDecision value.
Proof. solve_decision. Defined.

(** [d.get(k)] and [d.get(k, dflt)]. *)
Definition py_get (d : gmap string value) (k : string) : value :=
  default VNone (d !! k).

Definition py_get_default (d : gmap string value) (k : string) (dflt : value) : value :=
  default dflt (d !! k).

(** Truth value of a Python object in [if x:]. *)
Definition truthy (v : value) : bool :=
  match v with
  | VNone => false
  | VInt z => negb (z =? 0)
  | VStr s => negb (bool_decide (s = ""))
  end.

(** [l[:n]] for an integer [n]; a negative [n] counts from the end. *)
Definition py_slice_to {A} (l : list A) (n : Z) : list A :=
  if 0 <=? n then take (Z.to_nat n) l
  else take (Z.to_nat (Z.of_nat (length l) + n)) l.

(** ** Exceptions and results *)

Inductive exn :=
| KeyError (key : value)          (* KeyError(f"Job not found: {job_id}") *)
| ValueError (msg : string)
| RuntimeError (msg : string)
| TypeError (msg : string)
| OverflowError
| ZeroDivisionError
| OSError.                        (* a failed write of the table file *)

Inductive outcome (A : Type) :=
| Raised (e : exn)
| Returned (a : A).
Arguments Raised {A} e.
Arguments Returned {A} a.

(** ** Library functions on strings and instants

    Instants are seconds since the epoch, as rationals (Python floats).  The
    three library conversions the code calls are taken as an interface:
    - [int_of_str s] is [int(s)] for a string, [None] when it raises;
    - [fromisoformat_timestamp s] is
      [datetime.fromisoformat(s.replace("Z", "+00:00")).timestamp()],
      [None] when it raises;
    - [utc_isoformat t] is
      [datetime.fromtimestamp(t, tz=timezone.utc).isoformat()], [None] when
      the instant is outside the range of [datetime];
    - [fromtimestamp_error t] is the exception [datetime.fromtimestamp]
      raises on such an instant: [ValueError] for a year past 9999,
      [OverflowError] or [OSError] for an instant beyond the platform's
      [time_t]. *)
Class PyLib := {
  int_of_str : string -> option Z;
  fromisoformat_timestamp : string -> option Q;
  utc_isoformat : Q -> option string;
  fromtimestamp_error : Q -> exn
}.

(** [int(v)]. *)
Definition py_int `{PyLib} (v : value) : outcome Z :=
  match v with
  | VInt z => Returned z
  | VStr s =>
      match int_of_str s with
      | Some z => Returned z
      | None => Raised (ValueError "invalid literal for int()")
      end
  | VNone => Raised (TypeError "int() argument must be a string or a number")
  end.

(** [b ** e] on integers: an integer for [e >= 0], the float [1 / b ** -e]
    otherwise, and [ZeroDivisionError] for [0 ** e] with [e < 0]. *)
Definition py_pow (b e : Z) : outcome Q :=
  if 0 <=? e then Returned (inject_Z (b ^ e))
  else if b =? 0 then Raised ZeroDivisionError
  else Returned (Qinv (inject_Z (b ^ (- e)))).

(** [a > b] on instants. *)
Definition Qgtb (a b : Q) : bool := negb (Qle_bool a b).

(** ** The table file and the state of the world *)

(** Content of [jobs.json]: either text that [json.load] rejects with
    [JSONDecodeError], or the document [{"jobs": [...]}]. *)
Inductive file :=
| Malformed
| Table (jobs : list (gmap string value)).

(** The state every operation runs in: the file, and the outcome of the
    write attempts still to come ([true]: [_write_atomic] raises). *)
Record world := World {
  disk : file;
  faults : list bool
}.

(** The job list a read of the file yields. *)
Definition rows (d : file) : list (gmap string value) :=
  match d with
  | Malformed => []
  | Table jobs => jobs
  end.

Definition table (w : world) : list (gmap string value) := rows (disk w).

(** Computations over the world that return or raise. *)
Definition M (A : Type) : Type := world -> outcome A * world.

Global Instance M_ret : MRet M := fun A a w => (Returned a, w).

Global Instance M_bind : MBind M := fun A B f m w =>
  match m w with
  | (Raised e, w') => (Raised e, w')
  | (Returned a, w') => f a w'
  end.

Definition raise {A} (e : exn) : M A := fun w => (Raised e, w).

Definition lift {A} (o : outcome A) : M A := fun w => (o, w).

(** [try: body  except Exception: handler]. *)
Definition try_except {A} (body : M A) (handler : M A) : M A := fun w =>
  match body w with
  | (Raised _, w') => handler w'
  | (Returned a, w') => (Returned a, w')
  end.

(** ** storage.py *)

Module Storage.

(** [_read]: a file that does not parse reads as the empty table. *)
Definition _read : M (list (gmap string value)) := fun w =>
  (Returned (table w), w).

(** [_write_atomic]: the next write attempt either raises, leaving the file
    as it was, or replaces the file by the new document. *)
Definition _write_atomic (jobs : list (gmap string value)) : M unit := fun w =>
  match faults w with
  | true :: fs => (Raised OSError, World (disk w) fs)
  | false :: fs => (Returned tt, World (Table jobs) fs)
  | [] => (Returned tt, World (Table jobs) [])
  end.

Definition has_id (job_id : value) (j : gmap string value) : Prop :=
  py_get j "id" = job_id.

Global Instance has_id_dec job_id j : Decision (has_id job_id j).
Proof. unfold has_id. apply _. Defined.

Definition list_jobs (limit : option Z) (state : option string)
  : M (list (gmap string value)) :=
  jobs ← _read;
  let jobs :=
    match state with
    | Some s =>
        if truthy (VStr s)
        then filter (fun j => py_get j "state" = VStr s) jobs
        else jobs
    | None => jobs
    end in
  match limit with
  | Some n => if truthy (VInt n) then mret (py_slice_to jobs n) else mret jobs
  | None => mret jobs
  end.

Definition get_job (job_id : value) : M (option (gmap string value)) :=
  jobs ← _read;
  mret (snd <$> list_find (has_id job_id) jobs).

Fixpoint create_job_loop (n : nat) (job : gmap string value)
  : M (gmap string value) :=
  match n with
  | O => raise (RuntimeError "Failed to create job after retries")
  | S n' =>
      jobs ← _read;
      try_except (_write_atomic (jobs ++ [job]) ≫= fun _ => mret job)
                 (create_job_loop n' job)
  end.

Definition create_job (job : gmap string value) : M (gmap string value) :=
  create_job_loop 3 job.

(** [{**j, **updates}]: the keys of [updates] win. *)
Definition merge (j updates : gmap string value) : gmap string value :=
  updates ∪ j.

Fixpoint update_job_loop (n : nat) (job_id : value) (updates : gmap string value)
  : M (gmap string value) :=
  match n with
  | O => raise (RuntimeError "Failed to update job after retries")
  | S n' =>
      jobs ← _read;
      match list_find (has_id job_id) jobs with
      | None => raise (KeyError job_id)
      | Some (idx, j) =>
          let jobs' := <[idx := merge j updates]> jobs in
          try_except (_write_atomic jobs' ≫= fun _ => mret (merge j updates))
                     (update_job_loop n' job_id updates)
      end
  end.

Definition update_job (job_id : value) (updates : gmap string value)
  : M (gmap string value) :=
  update_job_loop 3 job_id updates.

(** [atomic_state_transition]; [stamp] is the reading
    [time.strftime("%Y-%m-%dT%H:%M:%SZ", time.gmtime())]. *)
Fixpoint atomic_state_transition_loop (n : nat) (stamp : string)
  (job_id from_state : value) (to_state : string) (extra : gmap string value)
  : M bool :=
  match n with
  | O => mret false
  | S n' =>
      jobs ← _read;
      match list_find (has_id job_id) jobs with
      | None => mret false
      | Some (idx, j) =>
          if bool_decide (py_get j "state" ≠ from_state) then mret false
          else
            let new_job :=
              <["updated_at" := VStr stamp]>
                (merge (<["state" := VStr to_state]> j) extra) in
            try_except (_write_atomic (<[idx := new_job]> jobs) ≫= fun _ => mret true)
                       (atomic_state_transition_loop n' stamp job_id from_state
                          to_state extra)
      end
  end.

Definition atomic_state_transition (stamp : string) (job_id from_state : value)
  (to_state : string) (extra : option (gmap string value)) : M bool :=
  (* extra = extra or {} *)
  let extra := default ∅ extra in
  atomic_state_transition_loop 5 stamp job_id from_state to_state extra.

(** [delete_job]: every record carrying the id is dropped. *)
Fixpoint delete_job_loop (n : nat) (job_id : value) : M unit :=
  match n with
  | O => raise (RuntimeError "Failed to delete job after retries")
  | S n' =>
      jobs ← _read;
      let new_jobs := filter (fun j => py_get j "id" ≠ job_id) jobs in
      if bool_decide (length new_jobs = length jobs) then raise (KeyError job_id)
      else try_except (_write_atomic new_jobs) (delete_job_loop n' job_id)
  end.

Definition delete_job (job_id : value) : M unit := delete_job_loop 3 job_id.

End Storage.

(** ** config.py *)

Module Config.

Definition DEFAULTS : gmap string value :=
  {[ "max_retries" := VInt 3; "backoff_base" := VInt 2 ]}.

(** [get_all], [file] being what [_read] returns: the parsed [config.json],
    or the defaults when the file cannot be read. *)
Definition get_all (file : gmap string value) : gmap string value :=
  file ∪ DEFAULTS.

Definition get (file : gmap string value) (key : string) (dflt : value) : value :=
  py_get_default (get_all file) key dflt.

(** [_read] on the content of [config.json]: [None] stands for a file that
    cannot be opened or parsed, which reads as the defaults. *)
Definition _read (content : option (gmap string value)) : gmap string value :=
  default DEFAULTS content.

(** [set]: the merged configuration with the key overwritten is written
    back; [written] tells whether [_write_atomic] succeeds (it is not
    retried, and its exception reaches the caller). *)
Definition set (content : option (gmap string value)) (key : string) (v : value)
  (written : bool) : outcome unit * option (gmap string value) :=
  let data := <[key := v]> (get_all (_read content)) in
  if written then (Returned tt, Some data) else (Raised OSError, content).

End Config.

(** ** models.py *)

Module Models.

(** The dataclass [Job]; fields are not type-checked at construction. *)
Record Job := mkJob {
  id : value;
  command : value;
  state : value;
  attempts : value;
  max_retries : value;
  created_at : value;
  updated_at : value;
  error_message : value;
  next_retry_at : value
}.

(** The keyword arguments the generated [__init__] accepts. *)
Definition fields : gset string :=
  {[ "id"; "command"; "state"; "attempts"; "max_retries"; "created_at";
     "updated_at"; "error_message"; "next_retry_at" ]}.

(** [__post_init__]; [now] is [datetime.utcnow().isoformat() + "Z"]. *)
Definition post_init (now : string) (j : Job) : Job :=
  mkJob (id j) (command j) (state j) (attempts j) (max_retries j)
        (if bool_decide (created_at j = VNone) then VStr now else created_at j)
        (if bool_decide (updated_at j = VNone) then VStr now else updated_at j)
        (error_message j) (next_retry_at j).

Definition to_dict (j : Job) : gmap string value :=
  {[ "id" := id j; "command" := command j; "state" := state j;
     "attempts" := attempts j; "max_retries" := max_retries j;
     "created_at" := created_at j; "updated_at" := updated_at j;
     "error_message" := error_message j; "next_retry_at" := next_retry_at j ]}.

Definition defaults : gmap string value :=
  {[ "state" := VStr "pending"; "attempts" := VInt 0; "max_retries" := VInt 3;
     "created_at" := VNone; "updated_at" := VNone; "error_message" := VNone;
     "next_retry_at" := VNone ]}.

(** [from_dict]: the constructor call on the merged dict raises [TypeError] on a key that is not a
    field and on a missing [id] or [command]. *)
Definition from_dict (now : string) (data : gmap string value) : outcome Job :=
  let merged := data ∪ defaults in
  if bool_decide (dom merged ⊆ fields) then
    match merged !! "id", merged !! "command" with
    | Some i, Some c =>
        Returned (post_init now
          (mkJob i c (py_get merged "state") (py_get merged "attempts")
                 (py_get merged "max_retries") (py_get merged "created_at")
                 (py_get merged "updated_at") (py_get merged "error_message")
                 (py_get merged "next_retry_at")))
    | _, _ => Raised (TypeError "__init__() missing required positional argument")
    end
  else Raised (TypeError "__init__() got an unexpected keyword argument").

End Models.

(** ** queue_manager.py *)

(** What the clock gives during one call.  [timestamp] is the reading the
    call takes with [.timestamp()]: [datetime.now(timezone.utc).timestamp()]
    in [claim_next_job], [datetime.utcnow().timestamp()] in [fail_job]. *)
Record clock := Clock {
  timestamp : Q;
  utcnow_iso : string;  (* [datetime.utcnow().isoformat() + "Z"] *)
  gmtime_iso : string   (* [time.strftime("%Y-%m-%dT%H:%M:%SZ", time.gmtime())] *)
}.

Module QueueManager.

Section WithConfig.

Context `{PyLib}.

(** What [ConfigManager._read] returns. *)
Variable config : gmap string value.

Definition from_dict_opt (clk : clock) (d : option (gmap string value))
  : M Models.Job :=
  match d with
  | Some d => lift (Models.from_dict (utcnow_iso clk) d)
  | None => raise (TypeError "argument after ** must be a mapping, not NoneType")
  end.

Definition enqueue (clk : clock) (job_id command : string)
  (max_retries : option Z) (run_at : option Q) : M Models.Job :=
  max_retries ←
    match max_retries with
    | None => lift (py_int (Config.get config "max_retries" (VInt 3)))
    | Some m => mret m
    end;
  let state := match run_at with None => "pending" | Some _ => "scheduled" end in
  let job :=
    Models.post_init (utcnow_iso clk)
      (Models.mkJob (VStr job_id) (VStr command) (VStr state) (VInt 0)
                    (VInt max_retries) VNone VNone VNone VNone) in
  job ←
    match run_at with
    | None => mret job
    | Some t =>
        match utc_isoformat t with
        | Some iso =>
            mret (Models.mkJob (Models.id job) (Models.command job)
                    (Models.state job) (Models.attempts job)
                    (Models.max_retries job) (Models.created_at job)
                    (Models.updated_at job) (Models.error_message job) (VStr iso))
        | None => raise (fromtimestamp_error t)
        end
    end;
  stored ← Storage.create_job (Models.to_dict job);
  lift (Models.from_dict (utcnow_iso clk) stored).

(** The instant of a [next_retry_at] that is set; [0] when it does not parse. *)
Definition retry_instant (next_retry : value) : Q :=
  match next_retry with
  | VStr s => default (inject_Z 0) (fromisoformat_timestamp s)
  | _ => inject_Z 0
  end.

(** The loop of [claim_next_job] over the listed candidates. *)
Fixpoint claim_loop (clk : clock) (candidates : list (gmap string value))
  : M (option Models.Job) :=
  match candidates with
  | [] => mret None
  | j :: rest =>
      let state := py_get j "state" in
      if negb (bool_decide (state = VStr "pending")
               || bool_decide (state = VStr "scheduled"))
      then claim_loop clk rest
      else
        let next_retry := py_get j "next_retry_at" in
        if truthy next_retry && Qgtb (retry_instant next_retry) (timestamp clk)
        then claim_loop clk rest
        else
          ok ← Storage.atomic_state_transition (gmtime_iso clk)
                 (py_get j "id") state "processing" (Some ∅);
          if ok : bool then
            updated ← Storage.get_job (py_get j "id");
            job ← from_dict_opt clk updated;
            mret (Some job)
          else claim_loop clk rest
  end.

Definition claim_next_job (clk : clock) : M (option Models.Job) :=
  candidates ← Storage.list_jobs None None;
  claim_loop clk candidates.

(** [not d] for an optional dict. *)
Definition falsy_dict (d : option (gmap string value)) : bool :=
  match d with
  | None => true
  | Some d => bool_decide (d = ∅)
  end.

Definition complete_job (clk : clock) (job_id : string) : M Models.Job :=
  updated ← Storage.get_job (VStr job_id);
  if falsy_dict updated then raise (KeyError (VStr job_id))
  else
    let data :=
      Storage.merge (default ∅ updated)
        {[ "state" := VStr "completed"; "updated_at" := VStr (utcnow_iso clk) ]} in
    updated ← Storage.update_job (VStr job_id) data;
    lift (Models.from_dict (utcnow_iso clk) updated).

(** [payload["stdout"] = stdout] when [stdout is not None]. *)
Definition set_if_given (key : string) (v : option string)
  (payload : gmap string value) : gmap string value :=
  match v with
  | Some s => <[key := VStr s]> payload
  | None => payload
  end.

Definition fail_job (clk : clock) (job_id : string)
  (error_message stdout stderr : option string) : M Models.Job :=
  job ← Storage.get_job (VStr job_id);
  if falsy_dict job then raise (KeyError (VStr job_id))
  else
    let job := default ∅ job in
    a ← lift (py_int (py_get_default job "attempts" (VInt 0)));
    let attempts := a + 1 in
    max_retries ←
      lift (py_int (py_get_default job "max_retries"
                      (Config.get config "max_retries" (VInt 3))));
    backoff_base ← lift (py_int (Config.get config "backoff_base" (VInt 2)));
    (* str(error_message or "") *)
    let msg := VStr (default "" error_message) in
    if max_retries <? attempts then
      let payload :=
        {[ "state" := VStr "dead"; "attempts" := VInt attempts;
           "error_message" := msg; "updated_at" := VStr (utcnow_iso clk) ]} in
      let payload := set_if_given "stdout" stdout payload in
      let payload := set_if_given "stderr" stderr payload in
      updated ← Storage.update_job (VStr job_id) payload;
      lift (Models.from_dict (utcnow_iso clk) updated)
    else
      delay ← lift (py_pow backoff_base (attempts - 1));
      let next_ts := Qplus (timestamp clk) delay in
      match utc_isoformat next_ts with
      | None => raise (fromtimestamp_error next_ts)
      | Some next_iso =>
          let payload :=
            {[ "state" := VStr "scheduled"; "attempts" := VInt attempts;
               "next_retry_at" := VStr next_iso; "error_message" := msg;
               "updated_at" := VStr (utcnow_iso clk) ]} in
          let payload := set_if_given "stdout" stdout payload in
          let payload := set_if_given "stderr" stderr payload in
          updated ← Storage.update_job (VStr job_id) payload;
          lift (Models.from_dict (utcnow_iso clk) updated)
      end.

(** [get_stats]: the tally over the listed jobs. *)
Definition tally (stats : gmap string Z) (j : gmap string value) : gmap string Z :=
  match py_get j "state" with
  | VStr s =>
      match stats !! s with
      | Some n => <[s := n + 1]> stats
      | None => <["failed" := default 0 (stats !! "failed") + 1]> stats
      end
  | _ => <["failed" := default 0 (stats !! "failed") + 1]> stats
  end.

Definition get_stats : M (gmap string Z) :=
  jobs ← Storage.list_jobs None None;
  let stats : gmap string Z :=
    {[ "pending" := 0; "processing" := 0; "completed" := 0; "failed" := 0;
       "dead" := 0; "total" := Z.of_nat (length jobs) ]} in
  mret (foldl tally stats jobs).

(** [[Job.from_dict(j) for j in jobs]]: the first failure raises. *)
Fixpoint from_dicts (clk : clock) (jobs : list (gmap string value))
  : outcome (list Models.Job) :=
  match jobs with
  | [] => Returned []
  | j :: rest =>
      match Models.from_dict (utcnow_iso clk) j with
      | Raised e => Raised e
      | Returned job =>
          match from_dicts clk rest with
          | Raised e => Raised e
          | Returned jobs' => Returned (job :: jobs')
          end
      end
  end.

(** [list_jobs(state=None, limit=20)]. *)
Definition list_jobs (clk : clock) (state : option string) (limit : Z)
  : M (list Models.Job) :=
  jobs ← Storage.list_jobs (Some limit) state;
  lift (from_dicts clk jobs).

Definition retry_dlq_job (clk : clock) (job_id : string) : M Models.Job :=
  job ← Storage.get_job (VStr job_id);
  if falsy_dict job then raise (ValueError "Job not found")
  else if bool_decide (py_get (default ∅ job) "state" ≠ VStr "dead")
  then raise (ValueError "Job is not in Dead Letter Queue")
  else
    updated ← Storage.update_job (VStr job_id)
      {[ "state" := VStr "pending"; "attempts" := VInt 0;
         "error_message" := VNone; "next_retry_at" := VNone;
         "updated_at" := VStr (utcnow_iso clk) ]};
    lift (Models.from_dict (utcnow_iso clk) updated).

Definition move_to_dead_letter (clk : clock) (job_id : string)
  (reason : option string) : M Models.Job :=
  updated ← Storage.update_job (VStr job_id)
    {[ "state" := VStr "dead"; "error_message" := VStr (default "" reason);
       "updated_at" := VStr (utcnow_iso clk) ]};
  lift (Models.from_dict (utcnow_iso clk) updated).

Definition list_dlq_jobs (clk : clock) (limit : Z) : M (list Models.Job) :=
  list_jobs clk (Some "dead") limit.

End WithConfig.

End QueueManager.

(** ** worker.py *)

Module Worker.

(** An entry of the worker registry, [{"pid": ..., "start_time": ...}]. *)
Record entry := Entry {
  pid : Z;
  start_time : Q
}.

(** [_read_registry] on the content of [workers.json]: [None] stands for a
    file that is missing or does not parse, which reads as no entry. *)
Definition _read_registry (content : option (list entry)) : list entry :=
  default [] content.

(** [_add_registry_entry] and [_remove_registry_entry]; [written] tells
    whether [_write_registry] succeeds. *)
Definition _add_registry_entry (content : option (list entry)) (p : Z)
  (started : Q) (written : bool) : outcome unit * option (list entry) :=
  let entries := _read_registry content in
  let entries := filter (fun e => pid e ≠ p) entries in
  let entries := entries ++ [Entry p started] in
  if written then (Returned tt, Some entries) else (Raised OSError, content).

Definition _remove_registry_entry (content : option (list entry)) (p : Z)
  (written : bool) : outcome unit * option (list entry) :=
  let entries := _read_registry content in
  let entries := filter (fun e => pid e ≠ p) entries in
  if written then (Returned tt, Some entries) else (Raised OSError, content).

(** What [subprocess.run(cmd, shell=True, capture_output=True, text=True)]
    gives: the finished process with its exit code and captured text, or the
    exception it raises. *)
Inductive run_outcome :=
| Finished (returncode : Z) (stdout stderr : string)
| RunRaised (e : exn).

(** [try: body  except Exception as e: handler(e)]. *)
Definition try_except_as {A} (body : M A) (handler : exn -> M A) : M A := fun w =>
  match body w with
  | (Raised e, w') => handler e w'
  | (Returned a, w') => (Returned a, w')
  end.

(** A call whose result is not used. *)
Definition call {A} (m : M A) : M unit := m ≫= fun _ => mret tt.

Section Report.

Context `{PyLib}.
Variable config : gmap string value.

(** [str(e)] of a caught exception. *)
Variable str_of_exn : exn -> string.

(** The part of the loop of [worker_main] that follows a claim: the job's
    command has been run, with outcome [res], and the result is reported to
    the queue.  [job_id] is [job.id] of the claimed job. *)
Definition report (clk : clock) (job_id : string) (res : run_outcome) : M unit :=
  try_except_as
    (match res with
     | RunRaised e => raise e
     | Finished returncode stdout stderr =>
         if returncode =? 0 then
           try_except
             (call (QueueManager.complete_job clk job_id) ≫= fun _ =>
              if truthy (VStr stdout) || truthy (VStr stderr)
              then call (Storage.update_job (VStr job_id)
                           {[ "stdout" := VStr stdout; "stderr" := VStr stderr ]})
              else mret tt)
             (call (Storage.update_job (VStr job_id)
                      {[ "state" := VStr "completed"; "stdout" := VStr stdout;
                         "stderr" := VStr stderr;
                         "updated_at" := VStr (utcnow_iso clk) ]}))
         else
           (* err = stderr or stdout or f"exit:{proc.returncode}" *)
           let err :=
             if truthy (VStr stderr) then stderr
             else if truthy (VStr stdout) then stdout
             else "exit:" +:+ pretty returncode in
           try_except
             (call (QueueManager.fail_job config clk job_id (Some err)
                      (Some stdout) (Some stderr)))
             (call (Storage.update_job (VStr job_id)
                      {[ "state" := VStr "scheduled"; "error_message" := VStr err;
                         "stdout" := VStr stdout; "stderr" := VStr stderr;
                         "updated_at" := VStr (utcnow_iso clk) ]}))
     end)
    (fun e =>
       try_except
         (call (QueueManager.fail_job config clk job_id (Some (str_of_exn e))
                  None None))
         (call (Storage.update_job (VStr job_id)
                  {[ "state" := VStr "scheduled";
                     "error_message" := VStr (str_of_exn e);
                     "updated_at" := VStr (utcnow_iso clk) ]}))).

End Report.

End Worker.

(** ** Write attempts *)

(** [attempt_writes n fs]: whether one of the next [n] write attempts
    succeeds, and the outcomes left for later attempts. *)
Fixpoint attempt_writes (n : nat) (fs : list bool) : bool * list bool :=
  match n with
  | O => (false, fs)
  | S n' =>
      match fs with
      | true :: fs' => attempt_writes n' fs'
      | false :: fs' => (true, fs')
      | [] => (true, [])
      end
  end.

Definition write_succeeds (n : nat) (fs : list bool) : bool :=
  fst (attempt_writes n fs).

(** The record a successful transition writes. *)
Definition transitioned (stamp to_state : string) (extra j : gmap string value)
  : gmap string value :=
  <["updated_at" := VStr stamp]> (Storage.merge (<["state" := VStr to_state]> j) extra).

(** A job with this id is in the store. *)
Definition stored (job_id : string) (w : world) : Prop :=
  ∃ j, j ∈ table w ∧ py_get j "id" = VStr job_id.

(** The payloads [fail_job] and [retry_dlq_job] hand to [update_job]. *)
Definition dead_payload (clk : clock) (attempts : Z)
  (error_message stdout stderr : option string) : gmap string value :=
  QueueManager.set_if_given "stderr" stderr
    (QueueManager.set_if_given "stdout" stdout
       {[ "state" := VStr "dead"; "attempts" := VInt attempts;
          "error_message" := VStr (default "" error_message);
          "updated_at" := VStr (utcnow_iso clk) ]}).

Definition retry_payload (clk : clock) (attempts : Z) (next_iso : string)
  (error_message stdout stderr : option string) : gmap string value :=
  QueueManager.set_if_given "stderr" stderr
    (QueueManager.set_if_given "stdout" stdout
       {[ "state" := VStr "scheduled"; "attempts" := VInt attempts;
          "next_retry_at" := VStr next_iso;
          "error_message" := VStr (default "" error_message);
          "updated_at" := VStr (utcnow_iso clk) ]}).

Definition replay_payload (clk : clock) : gmap string value :=
  {[ "state" := VStr "pending"; "attempts" := VInt 0;
     "error_message" := VNone; "next_retry_at" := VNone;
     "updated_at" := VStr (utcnow_iso clk) ]}.

(** [update_job] followed by [Job.from_dict], as every mutating operation of
    the queue manager ends. *)
Definition update_then_load (clk : clock) (d : file) (fs : list bool)
  (idx : nat) (j payload : gmap string value) : outcome Models.Job * world :=
  match attempt_writes 3 fs with
  | (true, fs') =>
      (Models.from_dict (utcnow_iso clk) (Storage.merge j payload),
       World (Table (<[idx := Storage.merge j payload]> (rows d))) fs')
  | (false, fs') =>
      (Raised (RuntimeError "Failed to update job after retries"), World d fs')
  end.

(** A library that answers on the few strings and instants the examples
    below use, as Python does there, and raises elsewhere. *)
Definition sample_lib : PyLib := {|
  int_of_str := fun s => if bool_decide (s = "3") then Some 3 else None;
  fromisoformat_timestamp := fun s =>
    if bool_decide (s = "1970-01-01T00:00:10+00:00") then Some (inject_Z 10)
    else None;
  utc_isoformat := fun t =>
    if Qeq_bool t (inject_Z 10) then Some "1970-01-01T00:00:10+00:00" else None;
  fromtimestamp_error := fun _ => ValueError "year is out of range"
|}.

(** Example data: clock readings and the run of scenario 2 with captured
    output handed to [fail_job]. *)
Definition clock_9 : clock := Clock (inject_Z 9) "1970-01-01T00:00:09Z" "1970-01-01T00:00:09Z".
Definition clock_11 : clock := Clock (inject_Z 11) "1970-01-01T00:00:11Z" "1970-01-01T00:00:11Z".

Definition fresh_store : world := World (Table []) [].

Definition claimed_t2 : world :=
  snd ((@QueueManager.enqueue sample_lib ∅ clock_9 "t2" "false" (Some 1) None
          ≫= fun _ => @QueueManager.claim_next_job sample_lib clock_9) fresh_store).

Definition failed_t2 : outcome Models.Job * world :=
  @QueueManager.fail_job sample_lib ∅ clock_9 "t2" (Some "err1") (Some "out")
    (Some "err") claimed_t2.

(** The statistics dict of [get_stats]. *)
Definition stats_dict (pending processing completed failed dead total : Z)
  : gmap string Z :=
  {[ "pending" := pending; "processing" := processing; "completed" := completed;
     "failed" := failed; "dead" := dead; "total" := total ]}.

Definition job_in_state (job_id state : string) : gmap string value :=
  {[ "id" := VStr job_id; "command" := VStr "true"; "state" := VStr state ]}.

(** The keys of the statistics dict, and the key [get_stats] increments for
    a job: its state when that is one of the keys, ["failed"] otherwise. *)
Definition stat_keys : list string :=
  ["pending"; "processing"; "completed"; "failed"; "dead"; "total"].

Definition bucket (j : gmap string value) : string :=
  match py_get j "state" with
  | VStr s => if bool_decide (s ∈ stat_keys) then s else "failed"
  | _ => "failed"
  end.

(** The jobs a state filter selects: every job when the filter is absent or
    the empty string. *)
Definition matching (state : option string) (jobs : list (gmap string value))
  : list (gmap string value) :=
  match state with
  | None => jobs
  | Some s =>
      if bool_decide (s = "") then jobs
      else filter (fun j => py_get j "state" = VStr s) jobs
  end.

(** ** Claiming: the candidate test, and the loop over the candidates alone *)

Global Instance Qlt_dec (x y : Q) : Decision (x < y)%Q.
Proof.
  refine (match Qlt_le_dec x y with left H => left H | right H => right _ end).
  by apply Qle_not_lt.
Defined.

Section ClaimSpec.

Context `{PyLib}.

(** [next_retry_at] is set and strictly later than [now]; a value that is
    set but is not a timestamp counts as the epoch. *)
Definition retry_pending (now : Q) (j : gmap string value) : Prop :=
  truthy (py_get j "next_retry_at") = true ∧
  (now < QueueManager.retry_instant (py_get j "next_retry_at"))%Q.

(** A candidate: pending or scheduled, and not held back by [next_retry_at]. *)
Definition claimable (now : Q) (j : gmap string value) : Prop :=
  (py_get j "state" = VStr "pending" ∨ py_get j "state" = VStr "scheduled") ∧
  ¬ retry_pending now j.

Global Instance claimable_dec now j : Decision (claimable now j).
Proof. unfold claimable, retry_pending. apply _. Defined.

(** Try the transition to [processing] on each candidate in turn; the first
    success returns the job read back from the store. *)
Fixpoint claim_first (clk : clock) (candidates : list (gmap string value))
  : M (option Models.Job) :=
  match candidates with
  | [] => mret None
  | j :: rest =>
      ok ← Storage.atomic_state_transition (gmtime_iso clk) (py_get j "id")
             (py_get j "state") "processing" (Some ∅);
      if ok : bool then
        updated ← Storage.get_job (py_get j "id");
        job ← QueueManager.from_dict_opt clk updated;
        mret (Some job)
      else claim_first clk rest
  end.

(** [next_retry_at] holds a timestamp strictly later than [now]. *)
Definition retry_in_future (now : Q) (j : gmap string value) : Prop :=
  ∃ s t, j !! "next_retry_at" = Some (VStr s) ∧ s ≠ "" ∧
         fromisoformat_timestamp s = Some t ∧ (now < t)%Q.

End ClaimSpec.

(** ** Sequences of queue operations *)

Inductive op :=
| Enqueue (job_id command : string) (max_retries : option Z) (run_at : option Q)
| ClaimNext
| Complete (job_id : string)
| Fail (job_id : string) (error_message stdout stderr : option string)
| RetryFromDlq (job_id : string).

Section Runs.

Context `{PyLib}.
Variable config : gmap string value.

(** The world after one call, made at clock readings [c.1]; what the call
    returns or raises is dropped. *)
Definition exec (c : clock * op) (w : world) : world :=
  match c.2 with
  | Enqueue job_id command max_retries run_at =>
      snd (QueueManager.enqueue config c.1 job_id command max_retries run_at w)
  | ClaimNext => snd (QueueManager.claim_next_job c.1 w)
  | Complete job_id => snd (QueueManager.complete_job c.1 job_id w)
  | Fail job_id error_message stdout stderr =>
      snd (QueueManager.fail_job config c.1 job_id error_message stdout stderr w)
  | RetryFromDlq job_id => snd (QueueManager.retry_dlq_job c.1 job_id w)
  end.

Definition run_ops (ops : list (clock * op)) (w : world) : world :=
  foldl (fun w c => exec c w) w ops.

(** [attempts <= max_retries] on a record. *)
Definition within_budget (j : gmap string value) : Prop :=
  ∃ a m, j !! "attempts" = Some (VInt a) ∧ j !! "max_retries" = Some (VInt m) ∧ a ≤ m.

(** The invariant of the stored records: integer [attempts] and
    [max_retries], the latter not negative, and [attempts <= max_retries]
    unless the job is dead or completed. *)
Definition budget_ok (j : gmap string value) : Prop :=
  ∃ a m, j !! "attempts" = Some (VInt a) ∧ j !! "max_retries" = Some (VInt m) ∧
         0 ≤ m ∧
         (py_get j "state" = VStr "dead" ∨ py_get j "state" = VStr "completed" ∨ a ≤ m).

(** The [max_retries] an [enqueue] call stores is not negative. *)
Definition enqueues_nonneg (c : clock * op) : Prop :=
  match c.2 with
  | Enqueue _ _ (Some m) _ => 0 ≤ m
  | Enqueue _ _ None _ =>
      ∀ m, py_int (Config.get config "max_retries" (VInt 3)) = Returned m → 0 ≤ m
  | _ => True
  end.

(** The call [c] is a [fail_job] on the job held at index [i], it gets as
    far as its update, which is written, and the incremented attempts exceed
    [max_retries]. *)
Definition fail_exceeds (c : clock * op) (w : world) (i : nat)
  (j : gmap string value) : Prop :=
  ∃ job_id error_message stdout stderr a m b,
    c.2 = Fail job_id error_message stdout stderr ∧
    list_find (Storage.has_id (VStr job_id)) (table w) = Some (i, j) ∧
    j !! "attempts" = Some (VInt a) ∧
    j !! "max_retries" = Some (VInt m) ∧
    m < a + 1 ∧
    py_int (Config.get config "backoff_base" (VInt 2)) = Returned b ∧
    write_succeeds 3 (faults w) = true.

(** What a call can do to the record it rewrites. *)
Inductive rewrites (c : clock * op) (w : world) (i : nat)
  (j : gmap string value) : gmap string value → Prop :=
| rewrites_claim :
    c.2 = ClaimNext →
    py_get j "state" = VStr "pending" ∨ py_get j "state" = VStr "scheduled" →
    rewrites c w i j (transitioned (gmtime_iso c.1) "processing" ∅ j)
| rewrites_complete job_id :
    c.2 = Complete job_id →
    rewrites c w i j
      (Storage.merge j {[ "state" := VStr "completed";
                          "updated_at" := VStr (utcnow_iso c.1) ]})
| rewrites_fail_dead job_id error_message stdout stderr a m b :
    c.2 = Fail job_id error_message stdout stderr →
    list_find (Storage.has_id (VStr job_id)) (table w) = Some (i, j) →
    py_int (py_get_default j "attempts" (VInt 0)) = Returned a →
    py_int (py_get_default j "max_retries" (Config.get config "max_retries" (VInt 3)))
      = Returned m →
    py_int (Config.get config "backoff_base" (VInt 2)) = Returned b →
    m < a + 1 →
    write_succeeds 3 (faults w) = true →
    rewrites c w i j
      (Storage.merge j (dead_payload c.1 (a + 1) error_message stdout stderr))
| rewrites_fail_retry job_id error_message stdout stderr a m iso :
    c.2 = Fail job_id error_message stdout stderr →
    py_int (py_get_default j "attempts" (VInt 0)) = Returned a →
    py_int (py_get_default j "max_retries" (Config.get config "max_retries" (VInt 3)))
      = Returned m →
    a + 1 ≤ m →
    rewrites c w i j
      (Storage.merge j (retry_payload c.1 (a + 1) iso error_message stdout stderr))
| rewrites_replay job_id :
    c.2 = RetryFromDlq job_id →
    py_get j "state" = VStr "dead" →
    rewrites c w i j (Storage.merge j (replay_payload c.1)).

(** What a call can do to the file: nothing, append the record of a new job,
    or rewrite one record. *)
Inductive effect (c : clock * op) (w w' : world) : Prop :=
| effect_none : disk w' = disk w → effect c w w'
| effect_append job_id command max_retries run_at m job :
    c.2 = Enqueue job_id command max_retries run_at →
    (max_retries = Some m ∨
     max_retries = None ∧
     py_int (Config.get config "max_retries" (VInt 3)) = Returned m) →
    job !! "attempts" = Some (VInt 0) →
    job !! "max_retries" = Some (VInt m) →
    py_get job "state" = VStr "pending" ∨ py_get job "state" = VStr "scheduled" →
    disk w' = Table (table w ++ [job]) →
    effect c w w'
| effect_rewrite i j j' :
    table w !! i = Some j →
    rewrites c w i j j' →
    disk w' = Table (<[i := j']> (table w)) →
    effect c w w'.

End Runs.

(** A run in which a dead job is completed. *)
Definition completed_after_dead : world :=
  @run_ops sample_lib ∅
    [ (clock_9, Enqueue "t1" "false" (Some 0) None);
      (clock_9, ClaimNext);
      (clock_9, Fail "t1" (Some "err") None None);
      (clock_11, Complete "t1") ]
    fresh_store.

(** A claimed job of scenario 2 before its first failure. *)
Definition processing_t2 : gmap string value :=
  <["attempts" := VInt 0]> (<["max_retries" := VInt 1]> (job_in_state "t2" "processing")).

Definition one_job (j : gmap string value) : world := World (Table [j]) [].

(** ** Notions used by the further properties *)

(** The key is not set by the configuration file, or the file cannot be read. *)
Definition unset (content : option (gmap string value)) (key : string) : Prop :=
  ∀ file, content = Some file → file !! key = None.

(** The job [enqueue] builds: state [pending], or [scheduled] with
    [next_retry_at] when a [run_at] instant is given. *)
Definition enqueued_job (clk : clock) (job_id command : string) (max_retries : Z)
  (run_iso : option string) : Models.Job :=
  Models.mkJob (VStr job_id) (VStr command)
    (VStr (match run_iso with None => "pending" | Some _ => "scheduled" end))
    (VInt 0) (VInt max_retries)
    (VStr (utcnow_iso clk)) (VStr (utcnow_iso clk)) VNone
    (match run_iso with None => VNone | Some iso => VStr iso end).

(** The rendering [enqueue] needs of its [run_at] argument. *)
Definition rendered `{PyLib} (run_at : option Q) (run_iso : option string) : Prop :=
  match run_at with
  | None => run_iso = None
  | Some t => is_Some run_iso ∧ utc_isoformat t = run_iso
  end.

(** What [claim_next_job] returns for the record it read back. *)
Definition claimed (clk : clock) (j : gmap string value) : outcome (option Models.Job) :=
  match Models.from_dict (utcnow_iso clk) j with
  | Raised e => Raised e
  | Returned job => Returned (Some job)
  end.

(** [n] successive [fail_job] calls on one job, made at the given clock
    readings, without captured output. *)
Definition failures (job_id : string) (error_message : option string)
  (clks : list clock) : list (clock * op) :=
  (fun clk => (clk, Fail job_id error_message None None)) <$> clks.

(** The ids of the stored jobs. *)
Definition ids (jobs : list (gmap string value)) : list value :=
  (fun j => py_get j "id") <$> jobs.

(** [datetime.utcnow().timestamp()], the reading [fail_job] takes, at the
    instant [now] in a process whose local zone is [utcoffset] seconds east
    of UTC: [utcnow()] is the naive UTC wall-clock time, and [timestamp()]
    reads a naive datetime as local time. *)
Definition utcnow_timestamp (now utcoffset : Q) : Q := (now - utcoffset)%Q.

(** The job [claim_next_job] returns for a stored job it claims at [stamp]. *)
Definition claimed_job (job : Models.Job) (stamp : string) : Models.Job :=
  Models.mkJob (Models.id job) (Models.command job) (VStr "processing")
    (Models.attempts job) (Models.max_retries job) (Models.created_at job)
    (VStr stamp) (Models.error_message job) (Models.next_retry_at job).

(** Scenario 2 run by the worker: the claimed job's command exits with code
    1 and the text [out] on stdout, and the worker reports it. *)
Definition reported_t2 : world :=
  snd (@Worker.report sample_lib ∅ (fun _ => "error") clock_9 "t2"
         (Worker.Finished 1 "out" "") claimed_t2).

(** A job of scenario 2 that has failed once, with [max_retries] 2. *)
Definition failed_once_t2 : gmap string value :=
  <["attempts" := VInt 1]> (<["max_retries" := VInt 2]> (job_in_state "t2" "processing")).

(** * Proof tools *)

(** * Storage: what each operation does to the file *)

Arguments Storage.create_job : simpl never.
Arguments Storage.update_job : simpl never.
Arguments Storage.atomic_state_transition : simpl never.
Arguments Models.from_dict : simpl never.
Arguments attempt_writes : simpl never.

(** Lookup of a key in a dict literal. *)
Ltac lookup_literal :=
  repeat (rewrite lookup_insert_ne by done);
  first [apply lookup_insert_eq | apply lookup_singleton_eq
        | by apply lookup_singleton_ne | apply lookup_empty].

Ltac unfold_M :=
  unfold mbind, M_bind, mret, M_ret, raise, lift, try_except,
    Storage._read, Storage._write_atomic; cbn [faults disk fst snd].

Section StorageFacts.

Implicit Types (w : world) (j : gmap string value) (d : file).

Lemma world_eta w : World (disk w) (faults w) = w.
Proof. by destruct w. Qed.

Lemma bind_returned {A B} (m : M A) (f : A → M B) w a w' :
  m w = (Returned a, w') → (m ≫= f) w = f a w'.
Proof. intros Hm. unfold mbind, M_bind. by rewrite Hm. Qed.

Lemma bind_raised {A B} (m : M A) (f : A → M B) w e w' :
  m w = (Raised e, w') → (m ≫= f) w = (Raised e, w').
Proof. intros Hm. unfold mbind, M_bind. by rewrite Hm. Qed.

Lemma bind_ret {A B} (a : A) (f : A → M B) w : (mret a ≫= f) w = f a w.
Proof. reflexivity. Qed.

Lemma bind_raise {A B} (e : exn) (f : A → M B) w :
  (raise e ≫= f) w = (Raised e, w).
Proof. reflexivity. Qed.

Lemma snd_bind_lift {A B} (m : M A) (g : A → outcome B) w :
  snd ((m ≫= fun a => lift (g a)) w) = snd (m w).
Proof. unfold mbind, M_bind, lift. by destruct (m w) as [[e|a] w']. Qed.

Lemma bind_lift {A B} (o : outcome A) (f : A → M B) w :
  (lift o ≫= f) w =
  match o with Raised e => (Raised e, w) | Returned a => f a w end.
Proof. by destruct o. Qed.

Lemma create_job_loop_run n job d fs :
  Storage.create_job_loop (S n) job (World d fs) =
  match attempt_writes (S n) fs with
  | (true, fs') => (Returned job, World (Table (rows d ++ [job])) fs')
  | (false, fs') =>
      (Raised (RuntimeError "Failed to create job after retries"), World d fs')
  end.
Proof.
  revert fs. induction n as [|n IH]; intros fs.
  - destruct fs as [|[] fs]; reflexivity.
  - destruct fs as [|[] fs]; try reflexivity.
    change (attempt_writes (S (S n)) (true :: fs)) with (attempt_writes (S n) fs).
    rewrite <- IH. reflexivity.
Qed.

Lemma update_job_loop_S n job_id updates :
  Storage.update_job_loop (S n) job_id updates =
  (jobs ← Storage._read;
   match list_find (Storage.has_id job_id) jobs with
   | None => raise (KeyError job_id)
   | Some (idx, j) =>
       try_except
         (Storage._write_atomic (<[idx := Storage.merge j updates]> jobs)
            ≫= fun _ => mret (Storage.merge j updates))
         (Storage.update_job_loop n job_id updates)
   end).
Proof. reflexivity. Qed.

Lemma update_job_loop_run n job_id updates d fs :
  Storage.update_job_loop (S n) job_id updates (World d fs) =
  match list_find (Storage.has_id job_id) (rows d) with
  | None => (Raised (KeyError job_id), World d fs)
  | Some (idx, j) =>
      match attempt_writes (S n) fs with
      | (true, fs') =>
          (Returned (Storage.merge j updates),
           World (Table (<[idx := Storage.merge j updates]> (rows d))) fs')
      | (false, fs') =>
          (Raised (RuntimeError "Failed to update job after retries"), World d fs')
      end
  end.
Proof.
  revert fs. induction n as [|n IH]; intros fs;
    rewrite update_job_loop_S; unfold_M; unfold table; cbn [disk];
    destruct (list_find _ _) as [[idx j]|] eqn:Hfind; try reflexivity;
    unfold_M; destruct fs as [|[] fs]; try reflexivity.
  apply IH.
Qed.

Lemma update_job_run job_id updates d fs :
  Storage.update_job job_id updates (World d fs) =
  match list_find (Storage.has_id job_id) (rows d) with
  | None => (Raised (KeyError job_id), World d fs)
  | Some (idx, j) =>
      match attempt_writes 3 fs with
      | (true, fs') =>
          (Returned (Storage.merge j updates),
           World (Table (<[idx := Storage.merge j updates]> (rows d))) fs')
      | (false, fs') =>
          (Raised (RuntimeError "Failed to update job after retries"), World d fs')
      end
  end.
Proof. apply update_job_loop_run. Qed.

Lemma atomic_state_transition_loop_S n stamp job_id from_state to_state extra :
  Storage.atomic_state_transition_loop (S n) stamp job_id from_state to_state extra =
  (jobs ← Storage._read;
   match list_find (Storage.has_id job_id) jobs with
   | None => mret false
   | Some (idx, j) =>
       if bool_decide (py_get j "state" ≠ from_state) then mret false
       else
         try_except
           (Storage._write_atomic
              (<[idx := <["updated_at" := VStr stamp]>
                          (Storage.merge (<["state" := VStr to_state]> j) extra)]> jobs)
              ≫= fun _ => mret true)
           (Storage.atomic_state_transition_loop n stamp job_id from_state
              to_state extra)
   end).
Proof. reflexivity. Qed.

Lemma atomic_state_transition_loop_run n stamp job_id from_state to_state extra d fs :
  Storage.atomic_state_transition_loop (S n) stamp job_id from_state to_state extra
    (World d fs) =
  match list_find (Storage.has_id job_id) (rows d) with
  | None => (Returned false, World d fs)
  | Some (idx, j) =>
      if bool_decide (py_get j "state" ≠ from_state) then (Returned false, World d fs)
      else
        match attempt_writes (S n) fs with
        | (true, fs') =>
            (Returned true,
             World (Table (<[idx := transitioned stamp to_state extra j]> (rows d))) fs')
        | (false, fs') => (Returned false, World d fs')
        end
  end.
Proof.
  revert fs. induction n as [|n IH]; intros fs;
    rewrite atomic_state_transition_loop_S; unfold_M; unfold table; cbn [disk];
    destruct (list_find _ _) as [[idx j]|] eqn:Hfind; try reflexivity;
    destruct (bool_decide _) eqn:Hst; try reflexivity;
    unfold_M; destruct fs as [|[] fs]; try reflexivity.
  apply IH.
Qed.

Lemma get_job_run job_id w :
  Storage.get_job job_id w =
  (Returned (snd <$> list_find (Storage.has_id job_id) (table w)), w).
Proof. reflexivity. Qed.

End StorageFacts.

(** * compare-and-transition *)

Section Transition.

Implicit Types (j extra : gmap string value).

Lemma transitioned_updated_at stamp to_state extra j :
  transitioned stamp to_state extra j !! "updated_at" = Some (VStr stamp).
Proof. unfold transitioned. apply lookup_insert_eq. Qed.

Lemma transitioned_extra stamp to_state extra j k v :
  k ≠ "updated_at" → extra !! k = Some v →
  transitioned stamp to_state extra j !! k = Some v.
Proof.
  intros Hk Hv. unfold transitioned, Storage.merge.
  rewrite lookup_insert_ne by done. by apply lookup_union_Some_l.
Qed.

Lemma transitioned_state stamp to_state extra j :
  extra !! "state" = None →
  transitioned stamp to_state extra j !! "state" = Some (VStr to_state).
Proof.
  intros Hv. unfold transitioned, Storage.merge.
  rewrite lookup_insert_ne by done. rewrite lookup_union_r by done.
  apply lookup_insert_eq.
Qed.

Lemma transitioned_other stamp to_state extra j k :
  k ≠ "updated_at" → k ≠ "state" → extra !! k = None →
  transitioned stamp to_state extra j !! k = j !! k.
Proof.
  intros Hk1 Hk2 Hv. unfold transitioned, Storage.merge.
  rewrite lookup_insert_ne by done. rewrite lookup_union_r by done.
  by rewrite lookup_insert_ne.
Qed.

Lemma atomic_state_transition_run stamp job_id from_state to_state
  (extra : option (gmap string value)) d fs :
  Storage.atomic_state_transition stamp job_id from_state to_state extra (World d fs) =
  match list_find (Storage.has_id job_id) (rows d) with
  | None => (Returned false, World d fs)
  | Some (idx, j) =>
      if bool_decide (py_get j "state" ≠ from_state) then (Returned false, World d fs)
      else
        match attempt_writes 5 fs with
        | (true, fs') =>
            (Returned true,
             World (Table (<[idx := transitioned stamp to_state (default ∅ extra) j]>
                             (rows d))) fs')
        | (false, fs') => (Returned false, World d fs')
        end
  end.
Proof. apply atomic_state_transition_loop_run. Qed.

(** C4.  When the first record carrying the id is not in the expected state,
    the transition returns [False] and nothing changes.  When it is, the
    call returns [True] exactly when one of its write attempts succeeds; the
    file then holds the table with that record replaced by one whose [state]
    is the new state, merged with the extra fields (which win over the
    record), and with [updated_at] refreshed; when every attempt fails the
    file is as before. *)
Theorem atomic_state_transition_correct
  (stamp : string) (job_id from_state : value) (to_state : string)
  (extra : option (gmap string value)) (w : world)
  (idx : nat) (j : gmap string value) :
  list_find (Storage.has_id job_id) (table w) = Some (idx, j) →
  let r := Storage.atomic_state_transition stamp job_id from_state to_state extra w in
  (py_get j "state" ≠ from_state → r = (Returned false, w)) ∧
  (py_get j "state" = from_state →
   fst r = Returned (write_succeeds 5 (faults w)) ∧
   (write_succeeds 5 (faults w) = false → disk (snd r) = disk w) ∧
   (write_succeeds 5 (faults w) = true →
    ∃ j', disk (snd r) = Table (<[idx := j']> (table w)) ∧
      j' !! "updated_at" = Some (VStr stamp) ∧
      (∀ k v, k ≠ "updated_at" → default ∅ extra !! k = Some v → j' !! k = Some v) ∧
      (default ∅ extra !! "state" = None → j' !! "state" = Some (VStr to_state)) ∧
      (∀ k, k ≠ "updated_at" → k ≠ "state" → default ∅ extra !! k = None →
            j' !! k = j !! k))).
Proof.
  destruct w as [d fs]. unfold table; cbn [disk faults]. intros Hfind.
  rewrite atomic_state_transition_run, Hfind.
  split; intros Hst.
  - by rewrite bool_decide_eq_true_2.
  - case_bool_decide; [contradiction|].
    unfold write_succeeds. destruct (attempt_writes 5 fs) as [[] fs']; cbn.
    + split; [done|]. split; [done|]. intros _.
      eexists. split; [reflexivity|].
      split; [apply transitioned_updated_at|].
      split; [intros k v; apply transitioned_extra|].
      split; [apply transitioned_state|].
      intros k; apply transitioned_other.
    + split; [done|]. split; [done|]. done.
Qed.

End Transition.

(** * complete_job *)

Section Complete.

Implicit Types (j : gmap string value) (w : world).

Lemma has_id_nonempty (s : string) j : Storage.has_id (VStr s) j → j ≠ ∅.
Proof. intros Hid ->. discriminate Hid. Qed.

Lemma list_find_has_id job_id (l : list (gmap string value)) idx j :
  list_find (Storage.has_id job_id) l = Some (idx, j) →
  l !! idx = Some j ∧ py_get j "id" = job_id.
Proof. intros Hf. apply list_find_Some in Hf. tauto. Qed.

Lemma list_find_stored (s : string) w :
  list_find (Storage.has_id (VStr s)) (table w) = None ↔ ¬ stored s w.
Proof.
  rewrite list_find_None, Forall_forall. unfold stored, Storage.has_id.
  split.
  - intros Hall (j & Hin & Hid). by apply (Hall j).
  - intros Hno j Hin Hid. apply Hno. eauto.
Qed.

Lemma merge_merge j u : Storage.merge j (Storage.merge j u) = Storage.merge j u.
Proof.
  unfold Storage.merge. by rewrite <- (assoc_L (∪)), (idemp_L (∪)).
Qed.

Lemma from_dict_raises now data e :
  Models.from_dict now data = Raised e → ∃ msg, e = TypeError msg.
Proof.
  unfold Models.from_dict. intros He.
  repeat case_match; simplify_eq; eauto.
Qed.

Lemma complete_job_run clk job_id d fs :
  QueueManager.complete_job clk job_id (World d fs) =
  match list_find (Storage.has_id (VStr job_id)) (rows d) with
  | None => (Raised (KeyError (VStr job_id)), World d fs)
  | Some (idx, j) =>
      let j' := Storage.merge j
                  {[ "state" := VStr "completed";
                     "updated_at" := VStr (utcnow_iso clk) ]} in
      match attempt_writes 3 fs with
      | (true, fs') =>
          (Models.from_dict (utcnow_iso clk) j',
           World (Table (<[idx := j']> (rows d))) fs')
      | (false, fs') =>
          (Raised (RuntimeError "Failed to update job after retries"), World d fs')
      end
  end.
Proof.
  unfold QueueManager.complete_job, Storage.get_job. unfold_M.
  unfold table; cbn [disk].
  destruct (list_find _ _) as [[idx j]|] eqn:Hfind; cbn; [|reflexivity].
  pose proof (list_find_has_id _ _ _ _ Hfind) as [_ Hid].
  rewrite bool_decide_eq_false_2 by (by apply (has_id_nonempty job_id)).
  rewrite update_job_run, Hfind, merge_merge.
  destruct (attempt_writes 3 fs) as [[] fs']; reflexivity.
Qed.

(** C5.  [complete_job] raises the not-found [KeyError] exactly when no
    stored record carries the id.  Otherwise, whatever the state of the
    record, once a write attempt succeeds the first record carrying the id
    has state [completed] and a refreshed [updated_at], its other fields
    being kept. *)
Theorem complete_job_correct (clk : clock) (job_id : string) (w : world) :
  (fst (QueueManager.complete_job clk job_id w) = Raised (KeyError (VStr job_id))
   ↔ ¬ stored job_id w) ∧
  (∀ idx j,
     list_find (Storage.has_id (VStr job_id)) (table w) = Some (idx, j) →
     write_succeeds 3 (faults w) = true →
     ∃ j', disk (snd (QueueManager.complete_job clk job_id w))
             = Table (<[idx := j']> (table w)) ∧
       j' !! "state" = Some (VStr "completed") ∧
       j' !! "updated_at" = Some (VStr (utcnow_iso clk)) ∧
       ∀ k, k ≠ "state" → k ≠ "updated_at" → j' !! k = j !! k).
Proof.
  destruct w as [d fs]. rewrite <- list_find_stored.
  unfold table, write_succeeds; cbn [disk faults].
  rewrite complete_job_run. split.
  - destruct (list_find _ _) as [[idx j]|]; [|done].
    split; [|done]. cbn zeta.
    destruct (attempt_writes 3 fs) as [[] fs']; cbn [fst]; [|done].
    intros He. apply from_dict_raises in He as [msg Hmsg]. discriminate.
  - intros idx j Hfind Hok. rewrite Hfind. cbn zeta.
    destruct (attempt_writes 3 fs) as [[] fs']; [|done]. cbn [snd disk].
    eexists. split; [reflexivity|]. unfold Storage.merge.
    split; [|split].
    + by apply lookup_union_Some_l.
    + by apply lookup_union_Some_l.
    + intros k Hk1 Hk2. apply lookup_union_r.
      rewrite lookup_insert_ne by done. by rewrite lookup_singleton_ne.
Qed.

End Complete.

(** * retry_dlq_job and fail_job *)

Section FailAndReplay.

Context `{PyLib}.
Variable config : gmap string value.

Implicit Types (j : gmap string value) (w : world).

Lemma update_then_load_run clk job_id d fs idx j payload :
  list_find (Storage.has_id job_id) (rows d) = Some (idx, j) →
  (Storage.update_job job_id payload
     ≫= fun updated => lift (Models.from_dict (utcnow_iso clk) updated)) (World d fs)
  = update_then_load clk d fs idx j payload.
Proof.
  intros Hfind. unfold_M. rewrite update_job_run, Hfind. unfold update_then_load.
  destruct (attempt_writes 3 fs) as [[] fs']; reflexivity.
Qed.

Lemma retry_dlq_job_run clk job_id d fs :
  QueueManager.retry_dlq_job clk job_id (World d fs) =
  match list_find (Storage.has_id (VStr job_id)) (rows d) with
  | None => (Raised (ValueError "Job not found"), World d fs)
  | Some (idx, j) =>
      if bool_decide (py_get j "state" ≠ VStr "dead")
      then (Raised (ValueError "Job is not in Dead Letter Queue"), World d fs)
      else update_then_load clk d fs idx j (replay_payload clk)
  end.
Proof.
  unfold QueueManager.retry_dlq_job, Storage.get_job.
  unfold mbind at 1, M_bind at 1, mbind at 1, M_bind at 1.
  unfold Storage._read at 1, mret at 1, M_ret at 1.
  unfold table; cbn [disk].
  destruct (list_find _ _) as [[idx j]|] eqn:Hfind; cbn [fmap option_fmap option_map snd];
    [|reflexivity].
  pose proof (list_find_has_id _ _ _ _ Hfind) as [_ Hid].
  cbn [QueueManager.falsy_dict default].
  rewrite bool_decide_eq_false_2 by (by apply (has_id_nonempty job_id)).
  destruct (bool_decide _); [reflexivity|].
  by apply update_then_load_run.
Qed.

(** C6.  On a stored job that is not dead, [retry_dlq_job] raises the
    invalid-state [ValueError] and the world is untouched.  On a dead job,
    once a write attempt succeeds, the record has [attempts] 0,
    [error_message] and [next_retry_at] reset to [None] and state [pending];
    its other fields, [updated_at] apart, are kept. *)
Theorem retry_dlq_job_correct (clk : clock) (job_id : string) (w : world)
  (idx : nat) (j : gmap string value) :
  list_find (Storage.has_id (VStr job_id)) (table w) = Some (idx, j) →
  (py_get j "state" ≠ VStr "dead" →
   QueueManager.retry_dlq_job clk job_id w
   = (Raised (ValueError "Job is not in Dead Letter Queue"), w)) ∧
  (py_get j "state" = VStr "dead" →
   write_succeeds 3 (faults w) = true →
   ∃ j', disk (snd (QueueManager.retry_dlq_job clk job_id w))
           = Table (<[idx := j']> (table w)) ∧
     j' !! "attempts" = Some (VInt 0) ∧
     j' !! "error_message" = Some VNone ∧
     j' !! "next_retry_at" = Some VNone ∧
     j' !! "state" = Some (VStr "pending") ∧
     ∀ k, k ∉ ["state"; "attempts"; "error_message"; "next_retry_at"; "updated_at"] →
          j' !! k = j !! k).
Proof.
  destruct w as [d fs]. unfold table, write_succeeds; cbn [disk faults].
  intros Hfind. rewrite retry_dlq_job_run, Hfind. split; intros Hst.
  - by rewrite bool_decide_eq_true_2.
  - intros Hok. case_bool_decide; [contradiction|].
    unfold update_then_load.
    destruct (attempt_writes 3 fs) as [[] fs']; [|done]. cbn [snd disk].
    eexists. split; [reflexivity|]. unfold Storage.merge, replay_payload.
    repeat split; try (by apply lookup_union_Some_l).
    intros k Hk. apply lookup_union_r.
    repeat (rewrite lookup_insert_ne; [|set_solver]).
    apply lookup_singleton_ne. set_solver.
Qed.

Lemma get_job_found job_id d fs idx j :
  list_find (Storage.has_id job_id) (rows d) = Some (idx, j) →
  Storage.get_job job_id (World d fs) = (Returned (Some j), World d fs).
Proof. intros Hfind. rewrite get_job_run. unfold table; cbn [disk]. by rewrite Hfind. Qed.

Lemma fail_job_run clk job_id em out err d fs idx j a m b :
  list_find (Storage.has_id (VStr job_id)) (rows d) = Some (idx, j) →
  py_int (py_get_default j "attempts" (VInt 0)) = Returned a →
  py_int (py_get_default j "max_retries" (Config.get config "max_retries" (VInt 3)))
    = Returned m →
  py_int (Config.get config "backoff_base" (VInt 2)) = Returned b →
  QueueManager.fail_job config clk job_id em out err (World d fs) =
  if m <? a + 1
  then update_then_load clk d fs idx j (dead_payload clk (a + 1) em out err)
  else
    match py_pow b (a + 1 - 1) with
    | Raised e => (Raised e, World d fs)
    | Returned delay =>
        match utc_isoformat (Qplus (timestamp clk) delay) with
        | None => (Raised (fromtimestamp_error (Qplus (timestamp clk) delay)), World d fs)
        | Some iso =>
            update_then_load clk d fs idx j (retry_payload clk (a + 1) iso em out err)
        end
    end.
Proof.
  intros Hfind Ha Hm Hb. unfold QueueManager.fail_job.
  rewrite (bind_returned _ _ _ _ _ (get_job_found _ d fs _ _ Hfind)).
  pose proof (list_find_has_id _ _ _ _ Hfind) as [_ Hid].
  cbn [QueueManager.falsy_dict default from_option id].
  rewrite bool_decide_eq_false_2 by (by apply (has_id_nonempty job_id)).
  rewrite bind_lift, Ha, bind_lift, Hm, bind_lift, Hb.
  destruct (m <? a + 1).
  - by apply update_then_load_run.
  - rewrite bind_lift. destruct (py_pow _ _) as [e|delay]; [reflexivity|].
    destruct (utc_isoformat _) as [iso|]; [|reflexivity].
    by apply update_then_load_run.
Qed.

Lemma lookup_set_if_given key v (payload : gmap string value) k :
  k ≠ key → QueueManager.set_if_given key v payload !! k = payload !! k.
Proof. intros Hk. destruct v; cbn; [by rewrite lookup_insert_ne|done]. Qed.

(** The retry branch in terms of the reading [fail_job] takes of the clock.
    When the incremented attempts value [k] is at least 1 and within
    [max_retries], and the retry instant can be rendered, [fail_job], once a
    write attempt succeeds, leaves the record [scheduled] with [attempts = k]
    and [next_retry_at] the rendering of the clock reading plus
    [backoff_base ^ (k - 1)] seconds, an integer power.  The base is read
    from the configuration and is 2 when the configuration does not set it;
    for [k = 1] the delay is one second whatever the base. *)
Theorem fail_job_backoff (clk : clock) (job_id : string)
  (error_message stdout stderr : option string) (w : world)
  (idx : nat) (j : gmap string value) (a m b : Z) (iso : string) :
  list_find (Storage.has_id (VStr job_id)) (table w) = Some (idx, j) →
  py_int (py_get_default j "attempts" (VInt 0)) = Returned a →
  py_int (py_get_default j "max_retries" (Config.get config "max_retries" (VInt 3)))
    = Returned m →
  py_int (Config.get config "backoff_base" (VInt 2)) = Returned b →
  1 ≤ a + 1 ≤ m →
  utc_isoformat (Qplus (timestamp clk) (inject_Z (b ^ (a + 1 - 1)))) = Some iso →
  write_succeeds 3 (faults w) = true →
  (∃ j', disk (snd (QueueManager.fail_job config clk job_id error_message stdout
                      stderr w))
           = Table (<[idx := j']> (table w)) ∧
     j' !! "state" = Some (VStr "scheduled") ∧
     j' !! "attempts" = Some (VInt (a + 1)) ∧
     j' !! "next_retry_at" = Some (VStr iso)) ∧
  (config !! "backoff_base" = None → b = 2) ∧
  (a + 1 = 1 → utc_isoformat (Qplus (timestamp clk) (inject_Z 1)) = Some iso).
Proof.
  destruct w as [d fs]. unfold table, write_succeeds; cbn [disk faults].
  intros Hfind Ha Hm Hb Hk Hiso Hok. split; [|split].
  - rewrite (fail_job_run _ _ _ _ _ _ _ _ _ _ _ _ Hfind Ha Hm Hb).
    destruct (Z.ltb_spec m (a + 1)) as [Hlt|_]; [lia|].
    unfold py_pow. destruct (Z.leb_spec 0 (a + 1 - 1)) as [_|Hneg]; [|lia].
    rewrite Hiso. unfold update_then_load.
    destruct (attempt_writes 3 fs) as [[] fs']; [|done]. cbn [snd disk].
    eexists. split; [reflexivity|]. unfold Storage.merge, retry_payload.
    repeat split; apply lookup_union_Some_l;
      (rewrite !lookup_set_if_given by done); lookup_literal.
  - intros Hcfg. unfold Config.get, Config.get_all, py_get_default in Hb.
    rewrite lookup_union_r in Hb by done.
    change (Config.DEFAULTS !! "backoff_base") with (Some (VInt 2)) in Hb.
    cbn in Hb. by simplify_eq.
  - intros Ha1. rewrite Ha1 in Hiso. exact Hiso.
Qed.

End FailAndReplay.

(** * Reading: list_jobs, get_job, get_stats *)

Section Reading.

Implicit Types (w : world) (j : gmap string value).

Lemma py_slice_to_nil {A} n : py_slice_to (@nil A) n = [].
Proof. unfold py_slice_to. destruct (0 <=? n); apply take_nil. Qed.

Lemma list_jobs_run limit state w :
  Storage.list_jobs limit state w =
  (Returned
     (match limit with
      | Some n => if n =? 0 then matching state (table w)
                  else py_slice_to (matching state (table w)) n
      | None => matching state (table w)
      end), w).
Proof.
  unfold Storage.list_jobs. unfold_M. unfold matching.
  destruct state as [s|]; cbn [truthy]; [case_bool_decide|];
    destruct limit as [n|]; cbn [truthy negb]; try destruct (n =? 0); reflexivity.
Qed.

(** C10.  When the table file holds text that is not JSON, the read paths
    behave as on an empty table: [list_jobs] returns the empty list,
    [get_job] returns [None] and [get_stats] returns zero for every count
    and for the total; none of them raises or touches the file. *)
Theorem malformed_file_reads_as_empty
  (fs : list bool) (limit : option Z) (state : option string) (job_id : value) :
  Storage.list_jobs limit state (World Malformed fs)
    = (Returned [], World Malformed fs) ∧
  Storage.get_job job_id (World Malformed fs)
    = (Returned None, World Malformed fs) ∧
  QueueManager.get_stats (World Malformed fs)
    = (Returned (stats_dict 0 0 0 0 0 0), World Malformed fs).
Proof.
  split; [|split]; [|reflexivity..].
  rewrite list_jobs_run. unfold matching, table; cbn [disk rows].
  destruct state as [s|]; [case_bool_decide|];
    destruct limit as [n|]; try destruct (n =? 0);
    rewrite ?filter_nil, ?py_slice_to_nil; reflexivity.
Qed.

(** C9, as the code has it.  [list_jobs] returns the jobs the filter selects,
    in storage order, cut to the first [n] for a limit [n > 0]; a limit of 0
    is no limit, like an absent one, and an empty filter string selects every
    job, like an absent one.  The world is left as it was. *)
Theorem list_jobs_correct (w : world) (state : option string) (limit : option Z) :
  (∀ n, limit = Some n → 0 < n →
        Storage.list_jobs limit state w
        = (Returned (take (Z.to_nat n) (matching state (table w))), w)) ∧
  (limit = Some 0 ∨ limit = None →
   Storage.list_jobs limit state w = (Returned (matching state (table w)), w)).
Proof.
  rewrite list_jobs_run. split.
  - intros n -> Hn. destruct (Z.eqb_spec n 0) as [->|_]; [lia|].
    unfold py_slice_to. destruct (Z.leb_spec 0 n); [done|lia].
  - by intros [->| ->].
Qed.

(** C9, counterexample: on a table of one job, a supplied limit of 0 returns
    that job, which is more than 0 entries. *)
Lemma list_jobs_limit_zero_returns_all :
  ¬ (∃ jobs, fst (Storage.list_jobs (Some 0) None
                    (World (Table [job_in_state "j1" "pending"]) []))
             = Returned jobs ∧ (length jobs ≤ 0)%nat).
Proof.
  intros (jobs & Hrun & Hlen). rewrite list_jobs_run in Hrun.
  cbn in Hrun. injection Hrun as <-. cbn in Hlen. lia.
Qed.

(** C8, at the failing input: a job whose state string is ["total"] is not
    counted as failed; it is added to the total, which becomes 2 on a table
    of one record. *)
Theorem get_stats_counts_state_total_in_total :
  fst (QueueManager.get_stats (World (Table [job_in_state "j1" "total"]) []))
  = Returned (stats_dict 0 0 0 0 0 2).
Proof. vm_compute. exact eq_refl. Qed.

(** Scenario 3 of the specification. *)
Lemma get_stats_scenario_3 :
  fst (QueueManager.get_stats
         (World (Table [job_in_state "a" "pending"; job_in_state "b" "processing";
                        job_in_state "c" "pending"; job_in_state "d" "dead"]) []))
  = Returned (stats_dict 2 1 0 0 1 4).
Proof. vm_compute. exact eq_refl. Qed.

(** A dict with a key that is not a field of [Job] cannot be loaded. *)
Lemma from_dict_unexpected_key now (data : gmap string value) k :
  is_Some (data !! k) → k ∉ Models.fields →
  Models.from_dict now data
  = Raised (TypeError "__init__() got an unexpected keyword argument").
Proof.
  intros Hk Hnot. unfold Models.from_dict.
  rewrite bool_decide_eq_false_2; [done|].
  intros Hsub. apply Hnot, Hsub. apply elem_of_dom.
  destruct Hk as [v Hv]. exists v. by apply lookup_union_Some_l.
Qed.

(** C7, at the failing input: scenario 2 with the captured output handed to
    [fail_job].  The call persists [stdout] and [stderr] and then raises
    [TypeError], because [Job] has no such fields; from then on claiming,
    completing and listing that job raise the same error. *)
Theorem fail_job_with_output_raises :
  fst failed_t2 = Raised (TypeError "__init__() got an unexpected keyword argument") ∧
  (fun j => (j !! "stdout", j !! "stderr")) <$> table (snd failed_t2)
    = [(Some (VStr "out"), Some (VStr "err"))] ∧
  fst (@QueueManager.claim_next_job sample_lib clock_11 (snd failed_t2))
    = Raised (TypeError "__init__() got an unexpected keyword argument") ∧
  fst (QueueManager.complete_job clock_11 "t2" (snd failed_t2))
    = Raised (TypeError "__init__() got an unexpected keyword argument") ∧
  fst (QueueManager.list_jobs clock_11 None 20 (snd failed_t2))
    = Raised (TypeError "__init__() got an unexpected keyword argument").
Proof. repeat split; vm_compute; exact eq_refl. Qed.

(** ** get_stats on every table *)

Lemma bucket_key j : bucket j ∈ stat_keys.
Proof.
  unfold bucket. destruct (py_get j "state") as [| |s]; [set_solver..|].
  case_bool_decide; [done|set_solver].
Qed.

Lemma tally_bucket (stats : gmap string Z) j :
  (∀ k, k ∈ stat_keys ↔ is_Some (stats !! k)) →
  QueueManager.tally stats j
  = <[bucket j := default 0 (stats !! bucket j) + 1]> stats.
Proof.
  intros Hkeys. unfold QueueManager.tally, bucket.
  destruct (py_get j "state") as [| |s]; try reflexivity.
  case_bool_decide as Hs.
  - apply Hkeys in Hs as [n Hn]. by rewrite Hn.
  - destruct (stats !! s) as [n|] eqn:Hn; [|reflexivity].
    exfalso. apply Hs, Hkeys. by exists n.
Qed.

Lemma foldl_tally jobs (stats : gmap string Z) k :
  (∀ k, k ∈ stat_keys ↔ is_Some (stats !! k)) →
  foldl QueueManager.tally stats jobs !! k
  = (fun n => n + Z.of_nat (length (filter (fun j => bucket j = k) jobs)))
      <$> stats !! k.
Proof.
  revert stats. induction jobs as [|j jobs IH]; intros stats Hkeys.
  - cbn. destruct (stats !! k); cbn; [f_equal; lia|done].
  - cbn [foldl]. rewrite (tally_bucket _ _ Hkeys).
    destruct (proj1 (Hkeys (bucket j)) (bucket_key j)) as [v Hv].
    rewrite IH.
    2:{ intros k'. rewrite Hkeys. destruct (decide (bucket j = k')) as [<-|Hne].
        - rewrite lookup_insert_eq. split; eauto.
        - by rewrite lookup_insert_ne. }
    rewrite Hv. cbn [default from_option id].
    destruct (decide (bucket j = k)) as [<-|Hne].
    + rewrite lookup_insert_eq, Hv, filter_cons_True by done. cbn. f_equal. lia.
    + rewrite lookup_insert_ne, filter_cons_False by done. reflexivity.
Qed.

(** X16.  Every count [get_stats] returns: a state key counts the jobs in that
    state, ["failed"] also the jobs whose state is not a key, and ["total"]
    is the number of records plus the number of jobs whose state is the
    string ["total"]. *)
Lemma get_stats_counts jobs fs k :
  k ∈ stat_keys →
  ∃ stats,
    QueueManager.get_stats (World (Table jobs) fs)
    = (Returned stats, World (Table jobs) fs) ∧
    stats !! k
    = Some ((if bool_decide (k = "total") then Z.of_nat (length jobs) else 0)
            + Z.of_nat (length (filter (fun j => bucket j = k) jobs))).
Proof.
  intros Hk. eexists. split; [reflexivity|].
  cbn [matching table disk rows]. rewrite foldl_tally.
  - unfold stat_keys in Hk.
    repeat (apply elem_of_cons in Hk as [->|Hk]); [..|by apply elem_of_nil in Hk];
      (rewrite bool_decide_eq_false_2 by done) || (rewrite bool_decide_eq_true_2 by done);
      match goal with |- _ <$> ?m !! ?k = _ =>
        replace (m !! k) with (Some (if bool_decide (k = "total")
                                     then Z.of_nat (length jobs) else 0))
          by (symmetry; lookup_literal)
      end; reflexivity.
  - intros k'. unfold stat_keys. split.
    + intros Hin.
      repeat (apply elem_of_cons in Hin as [->|Hin]); [..|by apply elem_of_nil in Hin];
        eexists; lookup_literal.
    + intros [v Hv]. destruct (decide (k' ∈ stat_keys)) as [Hin|Hout]; [done|].
      exfalso. unfold stat_keys in Hout.
      repeat (apply not_elem_of_cons in Hout as [? Hout]).
      rewrite !lookup_insert_ne, lookup_singleton_ne in Hv by done. discriminate.
Qed.

End Reading.

(** * claim_next_job *)

Section Claim.

Context `{PyLib}.

Implicit Types (w : world) (j : gmap string value).

Lemma Qgtb_lt (a b : Q) : Qgtb a b = true ↔ (b < a)%Q.
Proof.
  unfold Qgtb. rewrite negb_true_iff. split.
  - intros Hle. apply Qnot_le_lt. intros Hab.
    apply Qle_bool_iff in Hab. congruence.
  - intros Hlt. destruct (Qle_bool a b) eqn:Hle; [|done].
    apply Qle_bool_iff in Hle. by apply Qle_not_lt in Hle.
Qed.

Lemma retry_pending_test now j :
  truthy (py_get j "next_retry_at")
    && Qgtb (QueueManager.retry_instant (py_get j "next_retry_at")) now = true
  ↔ retry_pending now j.
Proof. unfold retry_pending. by rewrite andb_true_iff, Qgtb_lt. Qed.

Lemma claim_loop_first clk candidates w :
  QueueManager.claim_loop clk candidates w
  = claim_first clk (filter (claimable (timestamp clk)) candidates) w.
Proof.
  revert w. induction candidates as [|j rest IH]; intros w; [reflexivity|].
  cbn [QueueManager.claim_loop].
  destruct (decide (py_get j "state" = VStr "pending"
                    ∨ py_get j "state" = VStr "scheduled")) as [Hst|Hst].
  - replace (bool_decide (py_get j "state" = VStr "pending")
             || bool_decide (py_get j "state" = VStr "scheduled")) with true
      by (symmetry; apply orb_true_iff;
          destruct Hst; [left|right]; by apply bool_decide_eq_true_2).
    cbn [negb].
    destruct (truthy _ && Qgtb _ _) eqn:Hheld.
    + rewrite filter_cons_False; [apply IH|].
      apply retry_pending_test in Hheld. unfold claimable. tauto.
    + rewrite filter_cons_True.
      2:{ split; [done|]. intros Hp. apply retry_pending_test in Hp. congruence. }
      cbn [claim_first].
      destruct (Storage.atomic_state_transition (gmtime_iso clk) (py_get j "id")
                  (py_get j "state") "processing" (Some ∅) w)
        as [[e|ok] w'] eqn:Hcas.
      * by rewrite !(bind_raised _ _ _ _ _ Hcas).
      * rewrite !(bind_returned _ _ _ _ _ Hcas).
        destruct ok; [reflexivity|apply IH].
  - replace (bool_decide (py_get j "state" = VStr "pending")
             || bool_decide (py_get j "state" = VStr "scheduled")) with false
      by (symmetry; apply orb_false_iff; split; apply bool_decide_eq_false_2; tauto).
    cbn [negb]. rewrite filter_cons_False; [apply IH|].
    unfold claimable. tauto.
Qed.

(** For a clock that is not before the epoch, a job is held back exactly when
    its [next_retry_at] is a timestamp in the future. *)
Lemma retry_pending_in_future now j :
  (0 <= now)%Q → retry_pending now j ↔ retry_in_future now j.
Proof.
  intros Hnow. unfold retry_pending, retry_in_future, py_get. split.
  - intros [Hset Hlt]. destruct (j !! "next_retry_at") as [[|z|s]|] eqn:Hnr;
      cbn in *; try (by apply Qlt_not_le in Hlt).
    destruct (fromisoformat_timestamp s) as [t|] eqn:Ht; cbn in *;
      [|by apply Qlt_not_le in Hlt].
    exists s, t. repeat split; try done.
    intros ->. done.
  - intros (s & t & -> & Hs & Ht & Hlt). cbn. rewrite Ht. cbn.
    split; [|done]. by rewrite bool_decide_eq_false_2.
Qed.

(** The scan of [claim_next_job]: it goes through the stored jobs in storage order,
    passing over every job that is not pending or scheduled and every job
    whose [next_retry_at] is set and strictly later than the clock reading;
    on each remaining job in turn it attempts the transition from the job's
    state to [processing], moves on when the transition returns [False], and
    returns the job read back after the first transition that returns
    [True], or [None] when none does.  For a clock reading that is not before
    the epoch, the jobs passed over for their [next_retry_at] are exactly
    those where it holds a timestamp in the future. *)
Theorem claim_next_job_correct (clk : clock) (w : world) :
  QueueManager.claim_next_job clk w
  = claim_first clk (filter (claimable (timestamp clk)) (table w)) w ∧
  ((0 <= timestamp clk)%Q →
   ∀ j, claimable (timestamp clk) j ↔
        (py_get j "state" = VStr "pending" ∨ py_get j "state" = VStr "scheduled") ∧
        ¬ retry_in_future (timestamp clk) j).
Proof.
  split.
  - unfold QueueManager.claim_next_job.
    rewrite (bind_returned _ _ _ _ _ (list_jobs_run None None w)).
    apply claim_loop_first.
  - intros Hnow j. unfold claimable. by rewrite retry_pending_in_future.
Qed.

End Claim.

(** * The effect of each call on the file *)

Section Effects.

Context `{PyLib}.
Variable config : gmap string value.

Implicit Types (w : world) (j : gmap string value) (c : clock * op).

Lemma update_then_load_effect c w i j payload :
  table w !! i = Some j →
  (write_succeeds 3 (faults w) = true →
   rewrites config c w i j (Storage.merge j payload)) →
  effect config c w (snd (update_then_load c.1 (disk w) (faults w) i j payload)).
Proof.
  intros Hi Hrw. unfold update_then_load, write_succeeds in *.
  destruct (attempt_writes 3 (faults w)) as [[] fs']; cbn [snd fst] in *.
  - eapply effect_rewrite; [exact Hi|by apply Hrw|reflexivity].
  - by apply effect_none.
Qed.

Lemma complete_job_effect clk job_id w :
  effect config (clk, Complete job_id) w (snd (QueueManager.complete_job clk job_id w)).
Proof.
  destruct w as [d fs]. rewrite complete_job_run.
  destruct (list_find _ _) as [[i j]|] eqn:Hfind; [|by apply effect_none].
  apply list_find_has_id in Hfind as [Hi _]. cbn zeta.
  destruct (attempt_writes 3 fs) as [[] fs']; cbn [snd]; [|by apply effect_none].
  eapply effect_rewrite; [exact Hi|by eapply rewrites_complete|reflexivity].
Qed.

Lemma retry_dlq_job_effect clk job_id w :
  effect config (clk, RetryFromDlq job_id) w
    (snd (QueueManager.retry_dlq_job clk job_id w)).
Proof.
  destruct w as [d fs]. rewrite retry_dlq_job_run.
  destruct (list_find _ _) as [[i j]|] eqn:Hfind; [|by apply effect_none].
  apply list_find_has_id in Hfind as [Hi _].
  case_bool_decide as Hst; [by apply effect_none|].
  apply (update_then_load_effect (clk, RetryFromDlq job_id) (World d fs));
    [exact Hi|]. intros _.
  eapply rewrites_replay; [reflexivity|].
  destruct (decide (py_get j "state" = VStr "dead")); [done|contradiction].
Qed.

Lemma fail_job_unfold clk job_id em out err d fs :
  QueueManager.fail_job config clk job_id em out err (World d fs) =
  match list_find (Storage.has_id (VStr job_id)) (rows d) with
  | None => (Raised (KeyError (VStr job_id)), World d fs)
  | Some (idx, j) =>
      match py_int (py_get_default j "attempts" (VInt 0)) with
      | Raised e => (Raised e, World d fs)
      | Returned a =>
          match py_int (py_get_default j "max_retries"
                          (Config.get config "max_retries" (VInt 3))) with
          | Raised e => (Raised e, World d fs)
          | Returned m =>
              match py_int (Config.get config "backoff_base" (VInt 2)) with
              | Raised e => (Raised e, World d fs)
              | Returned b =>
                  if m <? a + 1
                  then update_then_load clk d fs idx j
                         (dead_payload clk (a + 1) em out err)
                  else
                    match py_pow b (a + 1 - 1) with
                    | Raised e => (Raised e, World d fs)
                    | Returned delay =>
                        match utc_isoformat (Qplus (timestamp clk) delay) with
                        | None =>
                            (Raised (fromtimestamp_error (Qplus (timestamp clk) delay)),
                             World d fs)
                        | Some iso =>
                            update_then_load clk d fs idx j
                              (retry_payload clk (a + 1) iso em out err)
                        end
                    end
              end
          end
      end
  end.
Proof.
  destruct (list_find _ _) as [[idx j]|] eqn:Hfind.
  - destruct (py_int (py_get_default j "attempts" _)) as [e|a] eqn:Ha;
      [|destruct (py_int (py_get_default j "max_retries" _)) as [e|m] eqn:Hm;
        [|destruct (py_int (Config.get config "backoff_base" _)) as [e|b] eqn:Hb;
          [|by apply fail_job_run]]].
    all: unfold QueueManager.fail_job;
      rewrite (bind_returned _ _ _ _ _ (get_job_found _ d fs _ _ Hfind));
      pose proof (list_find_has_id _ _ _ _ Hfind) as [_ Hid];
      cbn [QueueManager.falsy_dict default from_option id];
      rewrite bool_decide_eq_false_2 by (by apply (has_id_nonempty job_id)).
    + by rewrite bind_lift, Ha.
    + by rewrite bind_lift, Ha, bind_lift, Hm.
    + by rewrite bind_lift, Ha, bind_lift, Hm, bind_lift, Hb.
  - unfold QueueManager.fail_job.
    rewrite (bind_returned _ _ _ _ _ (get_job_run _ (World d fs))).
    unfold table; cbn [disk]. by rewrite Hfind.
Qed.

(** A [fail_job] call that hands over captured output never returns a job:
    when it gets as far as its update, the stored dict holds [stdout] or
    [stderr] and [Job.from_dict] raises. *)
Lemma fail_job_with_output_never_returns clk job_id em out err w job :
  is_Some out ∨ is_Some err →
  fst (QueueManager.fail_job config clk job_id em out err w) ≠ Returned job.
Proof.
  intros Hout. destruct w as [d fs]. rewrite fail_job_unfold.
  assert (Hload : ∀ idx j payload,
             (∃ k, is_Some (payload !! k) ∧ k ∉ Models.fields) →
             fst (update_then_load clk d fs idx j payload) ≠ Returned job).
  { intros idx j payload (k & [v Hk] & Hnot). unfold update_then_load.
    destruct (attempt_writes 3 fs) as [[] fs']; cbn [fst]; [|done].
    rewrite (from_dict_unexpected_key _ _ k); [done| |done].
    exists v. unfold Storage.merge. by apply lookup_union_Some_l. }
  assert (Hkey : ∀ base : gmap string value,
             ∃ k, is_Some (QueueManager.set_if_given "stderr" err
                             (QueueManager.set_if_given "stdout" out base) !! k)
                  ∧ k ∉ Models.fields).
  { intros base. destruct Hout as [[o ->]|[e ->]].
    - exists "stdout". split.
      + rewrite lookup_set_if_given by done. cbn. rewrite lookup_insert_eq. eauto.
      + apply (proj1 (bool_decide_eq_false _)). vm_compute. reflexivity.
    - exists "stderr". split.
      + cbn. rewrite lookup_insert_eq. eauto.
      + apply (proj1 (bool_decide_eq_false _)). vm_compute. reflexivity. }
  destruct (list_find _ _) as [[i j]|]; [|done].
  destruct (py_int (py_get_default j "attempts" _)); [done|].
  destruct (py_int (py_get_default j "max_retries" _)); [done|].
  destruct (py_int (Config.get config "backoff_base" _)); [done|].
  destruct (_ <? _).
  - apply Hload, Hkey.
  - destruct (py_pow _ _); [done|].
    destruct (utc_isoformat _); [|done].
    apply Hload, Hkey.
Qed.

Lemma fail_job_effect clk job_id em out err w :
  effect config (clk, Fail job_id em out err) w
    (snd (QueueManager.fail_job config clk job_id em out err w)).
Proof.
  destruct w as [d fs]. rewrite fail_job_unfold.
  destruct (list_find _ _) as [[i j]|] eqn:Hfind; [|by apply effect_none].
  pose proof (list_find_has_id _ _ _ _ Hfind) as [Hi _].
  destruct (py_int (py_get_default j "attempts" _)) as [e|a] eqn:Ha;
    [by apply effect_none|].
  destruct (py_int (py_get_default j "max_retries" _)) as [e|m] eqn:Hm;
    [by apply effect_none|].
  destruct (py_int (Config.get config "backoff_base" _)) as [e|b] eqn:Hb;
    [by apply effect_none|].
  destruct (Z.ltb_spec m (a + 1)) as [Hlt|Hle].
  - apply (update_then_load_effect (clk, Fail job_id em out err) (World d fs));
      [exact Hi|]. intros Hok.
    exact (rewrites_fail_dead config (clk, Fail job_id em out err) (World d fs) i j
             job_id em out err a m b eq_refl Hfind Ha Hm Hb Hlt Hok).
  - destruct (py_pow _ _) as [e|delay]; [by apply effect_none|].
    destruct (utc_isoformat _) as [iso|]; [|by apply effect_none].
    apply (update_then_load_effect (clk, Fail job_id em out err) (World d fs));
      [exact Hi|]. intros _.
    exact (rewrites_fail_retry config (clk, Fail job_id em out err) (World d fs) i j
             job_id em out err a m iso eq_refl Ha Hm Hle).
Qed.

Lemma enqueue_tail_effect c job_id command max_retries run_at m w :
  c.2 = Enqueue job_id command max_retries run_at →
  (max_retries = Some m ∨
   max_retries = None ∧
   py_int (Config.get config "max_retries" (VInt 3)) = Returned m) →
  let state := match run_at with None => "pending" | Some _ => "scheduled" end in
  let job :=
    Models.post_init (utcnow_iso c.1)
      (Models.mkJob (VStr job_id) (VStr command) (VStr state) (VInt 0)
                    (VInt m) VNone VNone VNone VNone) in
  effect config c w
    (snd ((match run_at with
           | None => mret job
           | Some t =>
               match utc_isoformat t with
               | Some iso =>
                   mret (Models.mkJob (Models.id job) (Models.command job)
                           (Models.state job) (Models.attempts job)
                           (Models.max_retries job) (Models.created_at job)
                           (Models.updated_at job) (Models.error_message job)
                           (VStr iso))
               | None => raise (fromtimestamp_error t)
               end
           end ≫= fun job =>
           Storage.create_job (Models.to_dict job) ≫= fun stored =>
           lift (Models.from_dict (utcnow_iso c.1) stored)) w)).
Proof.
  intros Hc Hm state job.
  assert (Hstore : ∀ job' : Models.Job,
             Models.attempts job' = VInt 0 → Models.max_retries job' = VInt m →
             Models.state job' = VStr state →
             effect config c w
               (snd ((Storage.create_job (Models.to_dict job') ≫= fun stored =>
                      lift (Models.from_dict (utcnow_iso c.1) stored)) w))).
  { intros job' Ha Hmr Hst. rewrite snd_bind_lift. destruct w as [d fs].
    unfold Storage.create_job. rewrite create_job_loop_run.
    destruct (attempt_writes 3 fs) as [[] fs']; cbn [snd]; [|by apply effect_none].
    eapply (effect_append config c _ _ job_id command max_retries run_at m
              (Models.to_dict job')); [exact Hc|exact Hm|..|reflexivity].
    - unfold Models.to_dict. rewrite <- Ha. lookup_literal.
    - unfold Models.to_dict. rewrite <- Hmr. lookup_literal.
    - unfold py_get, Models.to_dict.
      replace (_ !! "state") with (Some (Models.state job')) by (symmetry; lookup_literal).
      rewrite Hst. cbn. subst state. destruct run_at; [by right|by left]. }
  destruct run_at as [t|].
  - destruct (utc_isoformat t) as [iso|].
    + rewrite bind_ret. by apply Hstore.
    + rewrite bind_raise. by apply effect_none.
  - rewrite bind_ret. by apply Hstore.
Qed.

Lemma enqueue_effect clk job_id command max_retries run_at w :
  effect config (clk, Enqueue job_id command max_retries run_at) w
    (snd (QueueManager.enqueue config clk job_id command max_retries run_at w)).
Proof.
  unfold QueueManager.enqueue. destruct max_retries as [m|].
  - rewrite bind_ret.
    apply (enqueue_tail_effect (clk, Enqueue job_id command (Some m) run_at)
             job_id command (Some m) run_at m w); [reflexivity|by left].
  - rewrite bind_lift.
    destruct (py_int (Config.get config "max_retries" (VInt 3))) as [e|m] eqn:Hm;
      [by apply effect_none|].
    apply (enqueue_tail_effect (clk, Enqueue job_id command None run_at)
             job_id command None run_at m w); [reflexivity|by right].
Qed.

Lemma reload_world clk job_id w :
  snd ((Storage.get_job job_id ≫= fun updated =>
        QueueManager.from_dict_opt clk updated ≫= fun job => mret (Some job)) w) = w.
Proof.
  rewrite (bind_returned _ _ _ _ _ (get_job_run job_id w)).
  destruct (snd <$> list_find _ _) as [data|]; unfold QueueManager.from_dict_opt.
  - rewrite bind_lift. by destruct (Models.from_dict _ _).
  - by rewrite bind_raise.
Qed.

Lemma claim_loop_disk clk candidates d fs :
  let w' := snd (QueueManager.claim_loop clk candidates (World d fs)) in
  disk w' = d ∨
  ∃ i j, rows d !! i = Some j ∧
    (py_get j "state" = VStr "pending" ∨ py_get j "state" = VStr "scheduled") ∧
    disk w' = Table (<[i := transitioned (gmtime_iso clk) "processing" ∅ j]> (rows d)).
Proof.
  revert fs. induction candidates as [|cand rest IH]; intros fs; [by left|].
  cbn [QueueManager.claim_loop].
  destruct (negb _) eqn:Hstate; [apply IH|].
  destruct (truthy _ && _); [apply IH|].
  apply negb_false_iff, orb_true_iff in Hstate.
  assert (Hcand : py_get cand "state" = VStr "pending"
                  ∨ py_get cand "state" = VStr "scheduled").
  { destruct Hstate as [Hs|Hs]; apply bool_decide_eq_true in Hs; tauto. }
  clear Hstate.
  destruct (Storage.atomic_state_transition (gmtime_iso clk) (py_get cand "id")
              (py_get cand "state") "processing" (Some ∅) (World d fs))
    as [res w1] eqn:Hcas.
  pose proof Hcas as Hrun. rewrite atomic_state_transition_run in Hrun.
  destruct (list_find _ _) as [[i j]|] eqn:Hfind.
  - case_bool_decide as Hsame.
    + injection Hrun as <- <-. rewrite (bind_returned _ _ _ _ _ Hcas). apply IH.
    + destruct (attempt_writes 5 fs) as [[] fs'] eqn:Hw; injection Hrun as <- <-;
        rewrite (bind_returned _ _ _ _ _ Hcas); [|apply IH].
      rewrite reload_world. right. exists i, j.
      apply list_find_has_id in Hfind as [Hi _].
      split; [exact Hi|]. split; [|reflexivity].
      destruct (decide (py_get j "state" = py_get cand "state")) as [->|];
        [done|contradiction].
  - injection Hrun as <- <-. rewrite (bind_returned _ _ _ _ _ Hcas). apply IH.
Qed.

Lemma claim_next_job_effect clk w :
  effect config (clk, ClaimNext) w (snd (QueueManager.claim_next_job clk w)).
Proof.
  unfold QueueManager.claim_next_job.
  rewrite (bind_returned _ _ _ _ _ (list_jobs_run None None w)).
  destruct w as [d fs].
  destruct (claim_loop_disk clk (matching None (table (World d fs))) d fs)
    as [Hsame|(i & j & Hi & Hst & Hdisk)].
  - by apply effect_none.
  - eapply effect_rewrite; [exact Hi| |exact Hdisk].
    by apply (rewrites_claim config (clk, ClaimNext)).
Qed.

Lemma exec_effect c w : effect config c w (exec config c w).
Proof.
  destruct c as [clk o]. unfold exec. destruct o; cbn [snd].
  - apply enqueue_effect.
  - apply claim_next_job_effect.
  - apply complete_job_effect.
  - apply fail_job_effect.
  - apply retry_dlq_job_effect.
Qed.

End Effects.

(** * The retry budget *)

Section Budget.

Context `{PyLib}.
Variable config : gmap string value.

Implicit Types (w : world) (j : gmap string value) (c : clock * op).

Ltac payload_lookup :=
  unfold dead_payload, retry_payload, replay_payload;
  rewrite ?lookup_set_if_given by done; lookup_literal.

Lemma merge_lookup_l j p k v :
  p !! k = Some v → Storage.merge j p !! k = Some v.
Proof. intros Hp. unfold Storage.merge. by apply lookup_union_Some_l. Qed.

Lemma merge_lookup_r j p k : p !! k = None → Storage.merge j p !! k = j !! k.
Proof. intros Hp. unfold Storage.merge. by apply lookup_union_r. Qed.

Lemma py_int_field j k dflt z a :
  j !! k = Some (VInt z) → py_int (py_get_default j k dflt) = Returned a → a = z.
Proof. unfold py_get_default. intros ->. cbn. congruence. Qed.

Lemma py_int_field_eq j k dflt z :
  j !! k = Some (VInt z) → py_int (py_get_default j k dflt) = Returned z.
Proof. unfold py_get_default. by intros ->. Qed.

Lemma py_get_lookup j k v : j !! k = Some v → py_get j k = v.
Proof. unfold py_get. by intros ->. Qed.

(** The state a rewritten record ends in. *)
Lemma rewrites_state c w i j j' :
  rewrites config c w i j j' →
  match c.2 with
  | Enqueue _ _ _ _ => False
  | ClaimNext => py_get j' "state" = VStr "processing"
  | Complete _ => py_get j' "state" = VStr "completed"
  | Fail _ _ _ _ =>
      py_get j' "state" = VStr "dead" ∨ py_get j' "state" = VStr "scheduled"
  | RetryFromDlq _ => py_get j' "state" = VStr "pending"
  end.
Proof.
  intros [Hc Hst|job_id Hc|job_id em out err a m b Hc _ _ _ _ _ _
         |job_id em out err a m iso Hc _ _ _|job_id Hc Hst]; rewrite Hc.
  - apply py_get_lookup, transitioned_state, lookup_empty.
  - apply py_get_lookup, merge_lookup_l. lookup_literal.
  - left. apply py_get_lookup, merge_lookup_l. payload_lookup.
  - right. apply py_get_lookup, merge_lookup_l. payload_lookup.
  - apply py_get_lookup, merge_lookup_l. payload_lookup.
Qed.

Lemma rewrites_budget c w i j j' :
  budget_ok j → rewrites config c w i j j' → budget_ok j'.
Proof.
  intros (a0 & m0 & Ha0 & Hm0 & Hnn & Hbud) Hrw.
  pose proof (rewrites_state _ _ _ _ _ Hrw) as Hstate.
  destruct Hrw as [Hc Hst|job_id Hc|job_id em out err a m b Hc _ Ha Hm _ Hlt _
                  |job_id em out err a m iso Hc Ha Hm Hle|job_id Hc Hst];
    rewrite Hc in Hstate.
  - exists a0, m0. repeat split; try done.
    + rewrite transitioned_other by (done || apply lookup_empty). exact Ha0.
    + rewrite transitioned_other by (done || apply lookup_empty). exact Hm0.
    + right; right. destruct Hbud as [Hd|[Hd|Hd]]; [| |done];
        destruct Hst as [Hs|Hs]; congruence.
  - exists a0, m0. repeat split; try done.
    + rewrite merge_lookup_r by lookup_literal. exact Ha0.
    + rewrite merge_lookup_r by lookup_literal. exact Hm0.
    + by right; left.
  - exists (a + 1), m0. repeat split; try done.
    + apply merge_lookup_l. payload_lookup.
    + rewrite merge_lookup_r by payload_lookup. exact Hm0.
    + left. destruct Hstate as [Hs|Hs]; [done|].
      pose proof (merge_lookup_l j (dead_payload c.1 (a + 1) em out err) "state"
                    (VStr "dead")) as Hdead.
      rewrite (py_get_lookup _ _ _ (Hdead ltac:(payload_lookup))) in Hs. done.
  - exists (a + 1), m0. repeat split; try done.
    + apply merge_lookup_l. payload_lookup.
    + rewrite merge_lookup_r by payload_lookup. exact Hm0.
    + right; right. apply (py_int_field _ _ _ _ _ Ha0) in Ha.
      apply (py_int_field _ _ _ _ _ Hm0) in Hm. lia.
  - exists 0, m0. repeat split; try done.
    + apply merge_lookup_l. payload_lookup.
    + rewrite merge_lookup_r by payload_lookup. exact Hm0.
    + by right; right.
Qed.

Lemma exec_budget c w :
  enqueues_nonneg config c →
  Forall budget_ok (table w) → Forall budget_ok (table (exec config c w)).
Proof.
  intros Hnn Hall.
  destruct (exec_effect config c w)
    as [Hsame|job_id command mr ra m job Hc Hm Ha Hmr Hst Hdisk|i j j' Hi Hrw Hdisk];
    unfold table in *.
  - by rewrite Hsame.
  - rewrite Hdisk. cbn [rows]. apply Forall_app. split; [done|].
    apply Forall_singleton. exists 0, m. repeat split; try done.
    + unfold enqueues_nonneg in Hnn. rewrite Hc in Hnn.
      destruct Hm as [->|[-> Hm]]; [done|by apply Hnn].
    + right; right. unfold enqueues_nonneg in Hnn. rewrite Hc in Hnn.
      destruct Hm as [->|[-> Hm]]; [done|by apply Hnn].
  - rewrite Hdisk. cbn [rows]. apply Forall_insert; [done|].
    eapply rewrites_budget; [|exact Hrw].
    by apply (Forall_lookup_1 _ _ _ _ Hall Hi).
Qed.

Lemma run_ops_budget ops w :
  Forall (enqueues_nonneg config) ops →
  Forall budget_ok (table w) → Forall budget_ok (table (run_ops config ops w)).
Proof.
  revert w. induction ops as [|c ops IH]; intros w Hops Hw; [done|].
  apply Forall_cons in Hops as [Hc Hops].
  cbn [run_ops foldl]. apply IH; [done|]. by apply exec_budget.
Qed.

Lemma exec_lookup_same c w i j j' :
  table w !! i = Some j → table (exec config c w) !! i = Some j' →
  j' = j ∨ rewrites config c w i j j'.
Proof.
  intros Hi Hi'.
  destruct (exec_effect config c w)
    as [Hsame|job_id command mr ra m job Hc Hm Ha Hmr Hst Hdisk|i0 j0 j0' Hi0 Hrw Hdisk];
    unfold table in *.
  - rewrite Hsame in Hi'. left. congruence.
  - rewrite Hdisk in Hi'. cbn [rows] in Hi'.
    rewrite lookup_app_l in Hi' by (by eapply lookup_lt_Some). left. congruence.
  - rewrite Hdisk in Hi'. cbn [rows] in Hi'.
    destruct (decide (i0 = i)) as [->|Hne].
    + rewrite list_lookup_insert_eq in Hi' by (by eapply lookup_lt_Some).
      right. congruence.
    + rewrite list_lookup_insert_ne in Hi' by done. left. congruence.
Qed.

(** C2, as the code has it.  After any sequence of enqueue, claim, complete,
    fail and DLQ-replay calls on a fresh store, in which the jobs are
    enqueued with a non-negative [max_retries], every stored job that is
    neither dead nor completed has [attempts <= max_retries].  And, in any
    state so reached, a call turns a job that is not dead into a dead one
    exactly when it is a [fail_job] on that job whose update is written and
    whose incremented attempts exceed [max_retries]. *)
Theorem attempts_within_budget (ops : list (clock * op)) (fs : list bool) :
  Forall (enqueues_nonneg config) ops →
  let w := run_ops config ops (World (Table []) fs) in
  (∀ j, j ∈ table w →
        py_get j "state" ≠ VStr "dead" → py_get j "state" ≠ VStr "completed" →
        within_budget j) ∧
  (∀ c i j j',
     table w !! i = Some j → table (exec config c w) !! i = Some j' →
     py_get j "state" ≠ VStr "dead" →
     (py_get j' "state" = VStr "dead" ↔ fail_exceeds config c w i j)).
Proof.
  intros Hops w.
  assert (Hinv : Forall budget_ok (table w)).
  { apply run_ops_budget; [done|]. apply Forall_nil_2. }
  clearbody w. split.
  - intros j Hin Hnd Hnc.
    destruct (proj1 (Forall_forall _ _) Hinv j Hin) as (a & m & Ha & Hm & _ & Hbud).
    exists a, m. repeat split; try done.
    destruct Hbud as [Hd|[Hd|Hd]]; done.
  - intros c i j j' Hi Hi' Hnd.
    destruct (Forall_lookup_1 _ _ _ _ Hinv Hi) as (a0 & m0 & Ha0 & Hm0 & _ & _).
    split.
    + intros Hdead.
      destruct (exec_lookup_same _ _ _ _ _ Hi Hi') as [->|Hrw]; [done|].
      pose proof (rewrites_state _ _ _ _ _ Hrw) as Hstate.
      destruct Hrw as [Hc Hst|job_id Hc|job_id em out err a m b Hc Hfind Ha Hm Hb Hlt Hok
                      |job_id em out err a m iso Hc Ha Hm Hle|job_id Hc Hst];
        rewrite Hc in Hstate; try congruence.
      * exists job_id, em, out, err, a0, m0, b.
        apply (py_int_field _ _ _ _ _ Ha0) in Ha.
        apply (py_int_field _ _ _ _ _ Hm0) in Hm. subst a m.
        repeat split; done.
      * pose proof (merge_lookup_l j (retry_payload c.1 (a + 1) iso em out err)
                      "state" (VStr "scheduled") ltac:(payload_lookup)) as Hs.
        apply py_get_lookup in Hs. congruence.
    + intros (job_id & em & out & err & a & m & b & Hc & Hfind & Ha & Hm & Hlt & Hb & Hok).
      destruct c as [clk o]. cbn [snd] in Hc. subst o.
      unfold exec in Hi'. cbn [snd fst] in Hi'.
      destruct w as [d fs']. unfold table, write_succeeds in *; cbn [disk faults] in *.
      rewrite (fail_job_run config _ _ _ _ _ _ _ _ _ _ _ _ Hfind
                 (py_int_field_eq _ _ _ _ Ha) (py_int_field_eq _ _ _ _ Hm) Hb) in Hi'.
      destruct (Z.ltb_spec m (a + 1)) as [_|Hle]; [|lia].
      unfold update_then_load in Hi'.
      destruct (attempt_writes 3 fs') as [[] fs'']; [|done].
      cbn [snd disk rows] in Hi'.
      rewrite list_lookup_insert_eq in Hi' by (by eapply lookup_lt_Some).
      injection Hi' as <-. apply py_get_lookup, merge_lookup_l. payload_lookup.
Qed.

End Budget.

(** The run [completed_after_dead] ends with one job, completed, with one
    attempt made and a budget of zero retries. *)
Lemma completed_after_dead_table :
  (fun j => (py_get j "state", j !! "attempts", j !! "max_retries"))
    <$> table completed_after_dead
  = [(VStr "completed", Some (VInt 1), Some (VInt 0))].
Proof. vm_compute. exact eq_refl. Qed.

(** C2, counterexample: enqueue with [max_retries = 0], claim, fail (the job
    is now dead with one attempt), complete.  The job is stored as completed,
    not dead, with [attempts = 1 > 0 = max_retries]. *)
Lemma complete_after_dead_exceeds_budget :
  ¬ (∀ j, j ∈ table completed_after_dead →
          py_get j "state" ≠ VStr "dead" → within_budget j).
Proof.
  intros Hclaim. pose proof completed_after_dead_table as Htab.
  destruct (table completed_after_dead) as [|j [|j2 rest]]; try discriminate Htab.
  injection Htab as Hst Ha Hm.
  destruct (Hclaim j) as (a & m & Ha' & Hm' & Hle).
  - apply list_elem_of_here.
  - rewrite Hst. discriminate.
  - rewrite Ha in Ha'. rewrite Hm in Hm'. simplify_eq. lia.
Qed.

(** * The theorems at concrete inputs *)

(** A pending job is moved to [processing]. *)
Lemma atomic_state_transition_correct_witness :
  list_find (Storage.has_id (VStr "a")) (table (one_job (job_in_state "a" "pending")))
    = Some (0%nat, job_in_state "a" "pending") ∧
  fst (Storage.atomic_state_transition "1970-01-01T00:00:09Z" (VStr "a")
         (VStr "pending") "processing" None (one_job (job_in_state "a" "pending")))
    = Returned true.
Proof.
  assert (Hfind : list_find (Storage.has_id (VStr "a"))
                    (table (one_job (job_in_state "a" "pending")))
                  = Some (0%nat, job_in_state "a" "pending"))
    by (vm_compute; reflexivity).
  split; [exact Hfind|].
  destruct (atomic_state_transition_correct "1970-01-01T00:00:09Z" (VStr "a")
              (VStr "pending") "processing" None _ _ _ Hfind) as [_ Hmatch].
  assert (Hstate : py_get (job_in_state "a" "pending") "state" = VStr "pending")
    by (vm_compute; reflexivity).
  destruct (Hmatch Hstate) as [Hres _]. exact Hres.
Defined.

(** A processing job is completed. *)
Lemma complete_job_correct_witness :
  ∃ j', disk (snd (QueueManager.complete_job clock_11 "a"
                     (one_job (job_in_state "a" "processing"))))
          = Table [j'] ∧
        j' !! "state" = Some (VStr "completed").
Proof.
  assert (Hfind : list_find (Storage.has_id (VStr "a"))
                    (table (one_job (job_in_state "a" "processing")))
                  = Some (0%nat, job_in_state "a" "processing"))
    by (vm_compute; reflexivity).
  destruct (proj2 (complete_job_correct clock_11 "a"
                     (one_job (job_in_state "a" "processing")))
              _ _ Hfind eq_refl) as (j' & Hdisk & Hstate & _).
  exists j'. split; [exact Hdisk|exact Hstate].
Defined.

(** A dead job is replayed. *)
Lemma retry_dlq_job_correct_witness :
  ∃ j', disk (snd (QueueManager.retry_dlq_job clock_11 "a"
                     (one_job (job_in_state "a" "dead"))))
          = Table [j'] ∧
        j' !! "attempts" = Some (VInt 0) ∧ j' !! "state" = Some (VStr "pending").
Proof.
  assert (Hfind : list_find (Storage.has_id (VStr "a"))
                    (table (one_job (job_in_state "a" "dead")))
                  = Some (0%nat, job_in_state "a" "dead"))
    by (vm_compute; reflexivity).
  assert (Hstate : py_get (job_in_state "a" "dead") "state" = VStr "dead")
    by (vm_compute; reflexivity).
  destruct (proj2 (retry_dlq_job_correct clock_11 "a" _ _ _ Hfind) Hstate eq_refl)
    as (j' & Hdisk & Ha & _ & _ & Hs & _).
  exists j'. split; [exact Hdisk|]. split; [exact Ha|exact Hs].
Defined.

(** The first failure of scenario 2, at clock reading 9 with the default
    base: the retry is scheduled one second later. *)
Lemma fail_job_backoff_witness :
  ∃ j', disk (snd (@QueueManager.fail_job sample_lib ∅ clock_9 "t2" (Some "err1")
                     None None (one_job processing_t2)))
          = Table [j'] ∧
        j' !! "state" = Some (VStr "scheduled") ∧
        j' !! "attempts" = Some (VInt 1) ∧
        j' !! "next_retry_at" = Some (VStr "1970-01-01T00:00:10+00:00").
Proof.
  assert (Hfind : list_find (Storage.has_id (VStr "t2")) (table (one_job processing_t2))
                  = Some (0%nat, processing_t2))
    by (vm_compute; reflexivity).
  assert (Ha : @py_int sample_lib (py_get_default processing_t2 "attempts" (VInt 0))
               = Returned 0) by (vm_compute; reflexivity).
  assert (Hm : @py_int sample_lib
                 (py_get_default processing_t2 "max_retries"
                    (Config.get ∅ "max_retries" (VInt 3)))
               = Returned 1) by (vm_compute; reflexivity).
  assert (Hb : @py_int sample_lib (Config.get ∅ "backoff_base" (VInt 2)) = Returned 2)
    by (vm_compute; reflexivity).
  assert (Hk : 1 ≤ 0 + 1 ≤ 1) by lia.
  assert (Hiso : @utc_isoformat sample_lib
                   (Qplus (timestamp clock_9) (inject_Z (2 ^ (0 + 1 - 1))))
                 = Some "1970-01-01T00:00:10+00:00") by (vm_compute; reflexivity).
  destruct (@fail_job_backoff sample_lib ∅ clock_9 "t2" (Some "err1") None None
              (one_job processing_t2) 0%nat processing_t2 0 1 2
              "1970-01-01T00:00:10+00:00" Hfind Ha Hm Hb Hk Hiso eq_refl)
    as [(j' & Hdisk & Hs & Hatt & Hnext) _].
  exists j'. split; [exact Hdisk|]. split; [exact Hs|]. split; [exact Hatt|exact Hnext].
Defined.

(** A limit of 1 on two stored jobs returns the first. *)
Lemma list_jobs_correct_witness :
  Storage.list_jobs (Some 1) None
    (World (Table [job_in_state "a" "pending"; job_in_state "b" "dead"]) [])
  = (Returned [job_in_state "a" "pending"],
     World (Table [job_in_state "a" "pending"; job_in_state "b" "dead"]) []).
Proof.
  exact (proj1 (list_jobs_correct
                  (World (Table [job_in_state "a" "pending"; job_in_state "b" "dead"]) [])
                  None (Some 1)) 1 eq_refl ltac:(lia)).
Defined.

(** Enqueue then claim: the claimed job is within its budget. *)
Lemma attempts_within_budget_witness :
  Forall (@enqueues_nonneg sample_lib ∅)
    [(clock_9, Enqueue "t1" "false" (Some 1) None); (clock_9, ClaimNext)] ∧
  ∀ j, j ∈ table (@run_ops sample_lib ∅
                    [(clock_9, Enqueue "t1" "false" (Some 1) None); (clock_9, ClaimNext)]
                    fresh_store) →
       py_get j "state" ≠ VStr "dead" → py_get j "state" ≠ VStr "completed" →
       within_budget j.
Proof.
  assert (Hops : Forall (@enqueues_nonneg sample_lib ∅)
                   [(clock_9, Enqueue "t1" "false" (Some 1) None); (clock_9, ClaimNext)]).
  { apply Forall_cons. split; [cbv; discriminate|].
    apply Forall_cons. split; [exact I|apply Forall_nil_2]. }
  split; [exact Hops|].
  exact (proj1 (@attempts_within_budget sample_lib ∅ _ [] Hops)).
Defined.

(** * Storage: create, update and delete *)

Section StorageMore.

Implicit Types (w : world) (j u : gmap string value) (job_id : value).

Lemma list_find_insert_found job_id (l : list (gmap string value)) i j j' :
  list_find (Storage.has_id job_id) l = Some (i, j) →
  Storage.has_id job_id j' →
  list_find (Storage.has_id job_id) (<[i := j']> l) = Some (i, j').
Proof.
  intros (Hi & Hj & Hleast)%list_find_Some Hj'.
  apply list_find_insert_Some. right; left.
  split_and!; [done..|by eapply lookup_lt_Some|done|done].
Qed.

Lemma merge_has_id job_id j u :
  u !! "id" = None → Storage.has_id job_id j → Storage.has_id job_id (Storage.merge j u).
Proof.
  unfold Storage.has_id, Storage.merge, py_get. intros Hu <-.
  by rewrite lookup_union_r.
Qed.

Lemma write_succeeds_true n fs :
  write_succeeds n fs = true → ∃ fs', attempt_writes n fs = (true, fs').
Proof. unfold write_succeeds. destruct (attempt_writes n fs) as [[] fs']; naive_solver. Qed.

Lemma write_succeeds_false n fs :
  write_succeeds n fs = false → ∃ fs', attempt_writes n fs = (false, fs').
Proof. unfold write_succeeds. destruct (attempt_writes n fs) as [[] fs']; naive_solver. Qed.

(** X1.  [create_job] appends: once one of its three write attempts succeeds, the
    job is returned and stored after the records already there (a file that
    did not parse is replaced by a table holding the job alone).  Ids are not
    checked: [get_job] on the job's id then returns the new job only when no
    older record carries that id, and the oldest such record otherwise.  When
    every attempt fails, [RuntimeError] is raised and the file is as before. *)
Theorem create_job_appends (job : gmap string value) (w : world) :
  let r := Storage.create_job job w in
  (write_succeeds 3 (faults w) = true →
   fst r = Returned job ∧
   disk (snd r) = Table (table w ++ [job]) ∧
   Storage.get_job (py_get job "id") (snd r)
   = (Returned (Some (match list_find (Storage.has_id (py_get job "id")) (table w) with
                      | Some (_, older) => older
                      | None => job
                      end)), snd r)) ∧
  (write_succeeds 3 (faults w) = false →
   fst r = Raised (RuntimeError "Failed to create job after retries") ∧
   disk (snd r) = disk w).
Proof.
  destruct w as [d fs]. unfold Storage.create_job, table; cbn [disk faults].
  rewrite create_job_loop_run. split.
  - intros [fs' ->]%write_succeeds_true. cbn [fst snd disk].
    split; [done|]. split; [done|].
    rewrite get_job_run. unfold table; cbn [disk rows]. f_equal. f_equal.
    destruct (list_find _ (rows d)) as [[i older]|] eqn:Hfind.
    + by rewrite (list_find_app_l _ _ _ _ _ Hfind).
    + rewrite list_find_app_r by done. cbn.
      by rewrite decide_True by done.
  - by intros [fs' ->]%write_succeeds_false.
Qed.

Lemma length_filter_all {A} (P : A → Prop) `{!∀ x, Decision (P x)} (l : list A) :
  length (filter P l) = length l ↔ Forall P l.
Proof.
  induction l as [|x l IH]; [by split; [constructor|]|].
  destruct (decide (P x)) as [Hx|Hx].
  - rewrite filter_cons_True by done. cbn. rewrite Forall_cons.
    split; [intros Hl; split; [done|]; apply IH; lia|intros [_ Hl%IH]; lia].
  - rewrite filter_cons_False by done. cbn. split.
    + intros Hl. pose proof (length_filter P l). lia.
    + by intros [? _]%Forall_cons.
Qed.

Lemma delete_job_loop_S n job_id :
  Storage.delete_job_loop (S n) job_id =
  (jobs ← Storage._read;
   let new_jobs := filter (fun j => py_get j "id" ≠ job_id) jobs in
   if bool_decide (length new_jobs = length jobs) then raise (KeyError job_id)
   else try_except (Storage._write_atomic new_jobs)
                   (Storage.delete_job_loop n job_id)).
Proof. reflexivity. Qed.

Lemma delete_job_loop_run n job_id d fs :
  Storage.delete_job_loop (S n) job_id (World d fs) =
  let new_jobs := filter (fun j => py_get j "id" ≠ job_id) (rows d) in
  if bool_decide (length new_jobs = length (rows d))
  then (Raised (KeyError job_id), World d fs)
  else
    match attempt_writes (S n) fs with
    | (true, fs') => (Returned tt, World (Table new_jobs) fs')
    | (false, fs') =>
        (Raised (RuntimeError "Failed to delete job after retries"), World d fs')
    end.
Proof.
  revert fs. induction n as [|n IH]; intros fs;
    rewrite delete_job_loop_S; unfold_M; unfold table; cbn [disk]; cbn zeta;
    destruct (bool_decide _) eqn:Hlen; try reflexivity;
    unfold_M; destruct fs as [|[] fs]; try reflexivity.
  rewrite IH. cbn zeta. by rewrite Hlen.
Qed.

(** X3.  [delete_job] raises [KeyError], without touching the file, when no record
    carries the id.  Otherwise, once a write attempt succeeds, every record
    carrying the id is gone (not only the first), the others are kept in
    order, and [get_job] no longer finds the id; when every attempt fails,
    [RuntimeError] is raised and the file is as before. *)
Theorem delete_job_correct (job_id : value) (w : world) :
  let r := Storage.delete_job job_id w in
  ((∀ j, j ∈ table w → py_get j "id" ≠ job_id) →
   r = (Raised (KeyError job_id), w)) ∧
  ((∃ j, j ∈ table w ∧ py_get j "id" = job_id) →
   (write_succeeds 3 (faults w) = true →
    fst r = Returned tt ∧
    disk (snd r) = Table (filter (fun j => py_get j "id" ≠ job_id) (table w)) ∧
    Storage.get_job job_id (snd r) = (Returned None, snd r)) ∧
   (write_succeeds 3 (faults w) = false →
    fst r = Raised (RuntimeError "Failed to delete job after retries") ∧
    disk (snd r) = disk w)).
Proof.
  destruct w as [d fs]. unfold Storage.delete_job, table; cbn [disk faults].
  rewrite delete_job_loop_run. cbn zeta. split.
  - intros Hnone. rewrite bool_decide_eq_true_2; [done|].
    apply length_filter_all, Forall_forall. exact Hnone.
  - intros (j & Hin & Hid). rewrite bool_decide_eq_false_2.
    2:{ rewrite length_filter_all, Forall_forall. intros Hall. by apply (Hall j). }
    split.
    + intros [fs' ->]%write_succeeds_true. cbn [fst snd disk].
      split; [done|]. split; [done|].
      rewrite get_job_run. unfold table; cbn [disk rows].
      replace (list_find _ _) with (@None (nat * gmap string value)); [done|].
      symmetry. apply list_find_None, Forall_forall.
      intros x [Hx _]%list_elem_of_filter. exact Hx.
    + by intros [fs' ->]%write_succeeds_false.
Qed.

(** X2.  [update_job] raises [KeyError], without touching the file, when no record
    carries the id.  Otherwise it merges the updates into the first record
    carrying the id and leaves every other record, and the number of
    records, as they are; it returns the merged record, which [get_job] then
    returns too provided the updates do not set [id].  When every write
    attempt fails, [RuntimeError] is raised and the file is as before. *)
Theorem update_job_correct (job_id : value) (u : gmap string value) (w : world) :
  let r := Storage.update_job job_id u w in
  ((∀ j, j ∈ table w → py_get j "id" ≠ job_id) →
   r = (Raised (KeyError job_id), w)) ∧
  (∀ i j, list_find (Storage.has_id job_id) (table w) = Some (i, j) →
     (write_succeeds 3 (faults w) = true →
      fst r = Returned (Storage.merge j u) ∧
      disk (snd r) = Table (<[i := Storage.merge j u]> (table w)) ∧
      length (table (snd r)) = length (table w) ∧
      (u !! "id" = None →
       Storage.get_job job_id (snd r) = (Returned (Some (Storage.merge j u)), snd r))) ∧
     (write_succeeds 3 (faults w) = false →
      fst r = Raised (RuntimeError "Failed to update job after retries") ∧
      disk (snd r) = disk w)).
Proof.
  destruct w as [d fs]. unfold table; cbn [disk faults].
  rewrite update_job_run. split.
  - intros Hnone.
    replace (list_find _ _) with (@None (nat * gmap string value)); [done|].
    symmetry. apply list_find_None, Forall_forall. exact Hnone.
  - intros i j Hfind. rewrite Hfind. split.
    + intros [fs' ->]%write_succeeds_true. cbn [fst snd disk rows].
      split; [done|]. split; [done|]. split; [apply length_insert|].
      intros Hu. rewrite get_job_run. unfold table; cbn [disk rows].
      rewrite (list_find_insert_found _ _ _ _ _ Hfind); [done|].
      apply merge_has_id; [done|]. by apply list_find_Some in Hfind as (_ & ? & _).
    + by intros [fs' ->]%write_succeeds_false.
Qed.

End StorageMore.

(** * The job model: loading and dumping *)

Section ModelsMore.

Implicit Types (data : gmap string value) (job : Models.Job).

Lemma dom_defaults_fields : dom Models.defaults ⊆ Models.fields.
Proof.
  apply (bool_decide_unpack (dom Models.defaults ⊆ Models.fields)).
  vm_compute. exact I.
Qed.

Lemma dom_to_dict job : dom (Models.to_dict job) = Models.fields.
Proof.
  unfold Models.to_dict, Models.fields.
  rewrite !dom_insert_L, dom_singleton_L. reflexivity.
Qed.

Lemma dom_merged_fields data :
  dom (data ∪ Models.defaults) ⊆ Models.fields ↔ dom data ⊆ Models.fields.
Proof.
  rewrite dom_union_L. split.
  - intros Hsub. etrans; [apply union_subseteq_l|exact Hsub].
  - intros Hsub. apply union_least; [exact Hsub|apply dom_defaults_fields].
Qed.

Lemma merged_lookup data k :
  Models.defaults !! k = None → (data ∪ Models.defaults) !! k = data !! k.
Proof.
  intros Hk. destruct (data !! k) as [v|] eqn:Hd.
  - by apply lookup_union_Some_l.
  - by rewrite lookup_union_r.
Qed.

Lemma merged_get data k dflt :
  Models.defaults !! k = Some dflt →
  py_get (data ∪ Models.defaults) k = py_get_default data k dflt.
Proof.
  intros Hk. unfold py_get, py_get_default. destruct (data !! k) as [v|] eqn:Hd.
  - by rewrite (lookup_union_Some_l _ _ _ _ Hd).
  - by rewrite lookup_union_r, Hk.
Qed.

Lemma from_dict_accepted now data i c :
  dom data ⊆ Models.fields →
  data !! "id" = Some i → data !! "command" = Some c →
  Models.from_dict now data
  = Returned (Models.post_init now
      (Models.mkJob i c
         (py_get_default data "state" (VStr "pending"))
         (py_get_default data "attempts" (VInt 0))
         (py_get_default data "max_retries" (VInt 3))
         (py_get data "created_at") (py_get data "updated_at")
         (py_get data "error_message") (py_get data "next_retry_at"))).
Proof.
  intros Hdom Hi Hc. unfold Models.from_dict.
  rewrite bool_decide_eq_true_2 by (by apply dom_merged_fields).
  rewrite !merged_lookup, Hi, Hc by reflexivity.
  rewrite (merged_get data "state" (VStr "pending") eq_refl).
  rewrite (merged_get data "attempts" (VInt 0) eq_refl).
  rewrite (merged_get data "max_retries" (VInt 3) eq_refl).
  rewrite (merged_get data "created_at" VNone eq_refl).
  rewrite (merged_get data "updated_at" VNone eq_refl).
  rewrite (merged_get data "error_message" VNone eq_refl).
  rewrite (merged_get data "next_retry_at" VNone eq_refl).
  reflexivity.
Qed.

(** X4.  [Job.from_dict] builds a job exactly from the dicts whose keys are all
    fields of [Job] and that hold [id] and [command]; any other dict raises
    [TypeError].  A field the dict lacks takes its default ([pending], 0, 3,
    [None]), a field the dict sets to [None] stays [None], and a missing or
    [None] [created_at] or [updated_at] becomes the current time. *)
Theorem from_dict_correct (now : string) (data : gmap string value) :
  (∀ i c, dom data ⊆ Models.fields →
          data !! "id" = Some i → data !! "command" = Some c →
          Models.from_dict now data
          = Returned (Models.post_init now
              (Models.mkJob i c
                 (py_get_default data "state" (VStr "pending"))
                 (py_get_default data "attempts" (VInt 0))
                 (py_get_default data "max_retries" (VInt 3))
                 (py_get data "created_at") (py_get data "updated_at")
                 (py_get data "error_message") (py_get data "next_retry_at")))) ∧
  (¬ dom data ⊆ Models.fields ∨ data !! "id" = None ∨ data !! "command" = None →
   ∃ msg, Models.from_dict now data = Raised (TypeError msg)).
Proof.
  split; [intros i c; apply from_dict_accepted|].
  unfold Models.from_dict. intros Hbad. case_bool_decide as Hdom.
  - rewrite !merged_lookup by reflexivity.
    destruct Hbad as [Hbad|[->| ->]].
    + exfalso. by apply Hbad, dom_merged_fields.
    + eauto.
    + destruct (data !! "id"); eauto.
  - eauto.
Qed.

Lemma from_dict_dumped now job :
  Models.from_dict now (Models.to_dict job) = Returned (Models.post_init now job).
Proof.
  pose proof (dom_to_dict job) as Hdom.
  destruct job as [i c st a m ca ua em nr].
  rewrite (from_dict_accepted now _ i c);
    [|by rewrite Hdom|unfold Models.to_dict; lookup_literal..].
  unfold py_get, py_get_default, Models.to_dict;
    cbn [Models.id Models.command Models.state Models.attempts
         Models.max_retries Models.created_at Models.updated_at
         Models.error_message Models.next_retry_at].
  repeat match goal with
         | |- context [?d !! ?k] =>
             lazymatch d with
             | <[_ := _]> _ =>
                 let v := fresh "v" in
                 evar (v : value);
                 replace (d !! k) with (Some v) by (symmetry; subst v; lookup_literal);
                 subst v
             end
         end.
  reflexivity.
Qed.

Lemma post_init_set now job :
  Models.created_at job ≠ VNone → Models.updated_at job ≠ VNone →
  Models.post_init now job = job.
Proof.
  intros Hc Hu. destruct job as [i c st a m ca ua em nr].
  unfold Models.post_init; cbn in *. by rewrite !bool_decide_eq_false_2.
Qed.

(** X5.  Dumping a job and loading it back gives the job again, its [None]
    timestamps replaced by the current time; a job whose timestamps are set
    comes back unchanged. *)
Theorem from_dict_to_dict (now : string) (job : Models.Job) :
  Models.from_dict now (Models.to_dict job) = Returned (Models.post_init now job) ∧
  (Models.created_at job ≠ VNone → Models.updated_at job ≠ VNone →
   Models.from_dict now (Models.to_dict job) = Returned job).
Proof.
  split; [apply from_dict_dumped|].
  intros Hc Hu. by rewrite from_dict_dumped, post_init_set.
Qed.

End ModelsMore.

(** * The configuration store *)

Section ConfigMore.

Implicit Types (content : option (gmap string value)) (key : string).

Lemma get_all_lookup (file : gmap string value) k :
  Config.get_all file !! k
  = match file !! k with Some v => Some v | None => Config.DEFAULTS !! k end.
Proof.
  unfold Config.get_all. destruct (file !! k) as [v|] eqn:Hf.
  - by apply lookup_union_Some_l.
  - by rewrite lookup_union_r.
Qed.

Lemma read_lookup_unset content k :
  unset content k → Config._read content !! k = Config.DEFAULTS !! k ∨
                    Config._read content !! k = None.
Proof.
  intros Hun. destruct content as [file|]; cbn; [right; by apply Hun|by left].
Qed.

(** X6.  After a successful [set], [get] of the key returns the value set,
    whatever default the caller passes, and [get] of every other key returns
    what it returned before; a [set] whose write fails raises and leaves the
    file as it was. *)
Theorem config_set_then_get content key (v : value) :
  let r := Config.set content key v true in
  fst r = Returned tt ∧
  (∀ dflt, Config.get (Config._read (snd r)) key dflt = v) ∧
  (∀ k dflt, k ≠ key →
     Config.get (Config._read (snd r)) k dflt
     = Config.get (Config._read content) k dflt) ∧
  Config.set content key v false = (Raised OSError, content).
Proof.
  cbn. split; [done|]. split; [|split; [|done]].
  - intros dflt. unfold Config.get, py_get_default.
    by rewrite get_all_lookup, lookup_insert_eq.
  - intros k dflt Hk. unfold Config.get, py_get_default.
    rewrite get_all_lookup, lookup_insert_ne by done.
    rewrite !get_all_lookup.
    destruct (Config._read content !! k); [done|].
    by destruct (Config.DEFAULTS !! k).
Qed.

(** X7.  [get] of a recognised key that the file does not set, or of any key when
    the file cannot be read, is the built-in default (3 retries, base 2) and
    never the default the caller passes; the caller's default is returned
    only for other keys that the file does not set. *)
Theorem config_get_defaults content (dflt : value) :
  (unset content "max_retries" →
   Config.get (Config._read content) "max_retries" dflt = VInt 3) ∧
  (unset content "backoff_base" →
   Config.get (Config._read content) "backoff_base" dflt = VInt 2) ∧
  (∀ key, key ≠ "max_retries" → key ≠ "backoff_base" → unset content key →
          Config.get (Config._read content) key dflt = dflt).
Proof.
  unfold Config.get, py_get_default. split; [|split].
  - intros Hun. rewrite get_all_lookup.
    by destruct (read_lookup_unset _ _ Hun) as [-> | ->].
  - intros Hun. rewrite get_all_lookup.
    by destruct (read_lookup_unset _ _ Hun) as [-> | ->].
  - intros key Hk1 Hk2 Hun. rewrite get_all_lookup.
    assert (Hd : Config.DEFAULTS !! key = None).
    { unfold Config.DEFAULTS. rewrite lookup_insert_ne by done.
      by apply lookup_singleton_ne. }
    destruct (read_lookup_unset _ _ Hun) as [-> | ->]; by rewrite Hd.
Qed.

End ConfigMore.

(** * Enqueueing and claiming *)

Section EnqueueClaim.

Context `{PyLib}.
Variable config : gmap string value.

Implicit Types (w : world) (j : gmap string value) (clk : clock).

Lemma enqueue_resolved clk job_id command max_retries run_at m w :
  (max_retries = Some m ∨
   max_retries = None ∧
   py_int (Config.get config "max_retries" (VInt 3)) = Returned m) →
  QueueManager.enqueue config clk job_id command max_retries run_at w
  = match run_at with
    | None =>
        (Storage.create_job (Models.to_dict (enqueued_job clk job_id command m None))
           ≫= fun stored => lift (Models.from_dict (utcnow_iso clk) stored)) w
    | Some t =>
        match utc_isoformat t with
        | Some iso =>
            (Storage.create_job
               (Models.to_dict (enqueued_job clk job_id command m (Some iso)))
               ≫= fun stored => lift (Models.from_dict (utcnow_iso clk) stored)) w
        | None => (Raised (fromtimestamp_error t), w)
        end
    end.
Proof.
  intros Hm. unfold QueueManager.enqueue.
  assert (Hfirst : ∀ (k : Z → M Models.Job),
             (match max_retries with
              | None => lift (py_int (Config.get config "max_retries" (VInt 3)))
              | Some m => mret m
              end ≫= k) w = k m w).
  { intros k. destruct Hm as [->|[-> Hm]]; [reflexivity|].
    by rewrite bind_lift, Hm. }
  rewrite Hfirst. destruct run_at as [t|].
  - destruct (utc_isoformat t) as [iso|]; [|by rewrite bind_raise].
    rewrite bind_ret. reflexivity.
  - rewrite bind_ret. reflexivity.
Qed.

Lemma create_then_load clk job d fs :
  Models.created_at job ≠ VNone → Models.updated_at job ≠ VNone →
  (Storage.create_job (Models.to_dict job)
     ≫= fun stored => lift (Models.from_dict (utcnow_iso clk) stored)) (World d fs)
  = match attempt_writes 3 fs with
    | (true, fs') => (Returned job, World (Table (rows d ++ [Models.to_dict job])) fs')
    | (false, fs') =>
        (Raised (RuntimeError "Failed to create job after retries"), World d fs')
    end.
Proof.
  intros Hc Hu. unfold mbind, M_bind, Storage.create_job.
  rewrite create_job_loop_run.
  destruct (attempt_writes 3 fs) as [[] fs']; [|reflexivity].
  unfold lift. by rewrite from_dict_dumped, post_init_set.
Qed.

(** X8.  [enqueue], once [max_retries] is resolved to an integer [m] (given, or
    read from the configuration): the job built has attempts 0, state
    [pending] without [run_at] and [scheduled] with [next_retry_at] set
    with it, and both timestamps at the current time; once a write attempt
    succeeds, its dict is appended to the table and the same job is
    returned.  When every write fails [RuntimeError] is raised, and when
    [run_at] is outside the range of [datetime] the exception of
    [datetime.fromtimestamp] reaches the caller before anything is written;
    the file is then as before. *)
Theorem enqueue_correct clk (job_id command : string) (max_retries : option Z)
  (run_at : option Q) (m : Z) (w : world) :
  (max_retries = Some m ∨
   max_retries = None ∧
   py_int (Config.get config "max_retries" (VInt 3)) = Returned m) →
  let r := QueueManager.enqueue config clk job_id command max_retries run_at w in
  (∀ run_iso, rendered run_at run_iso →
     let job := enqueued_job clk job_id command m run_iso in
     (write_succeeds 3 (faults w) = true →
      fst r = Returned job ∧ disk (snd r) = Table (table w ++ [Models.to_dict job])) ∧
     (write_succeeds 3 (faults w) = false →
      fst r = Raised (RuntimeError "Failed to create job after retries") ∧
      disk (snd r) = disk w)) ∧
  (∀ t, run_at = Some t → utc_isoformat t = None →
        r = (Raised (fromtimestamp_error t), w)).
Proof.
  intros Hm. cbn zeta. rewrite (enqueue_resolved _ _ _ _ _ _ _ Hm).
  destruct w as [d fs]. unfold table; cbn [disk faults]. split.
  - intros run_iso Hren.
    assert (Hrun : match run_at with
                   | None =>
                       (Storage.create_job
                          (Models.to_dict (enqueued_job clk job_id command m None))
                          ≫= fun stored =>
                               lift (Models.from_dict (utcnow_iso clk) stored))
                         (World d fs)
                   | Some t =>
                       match utc_isoformat t with
                       | Some iso =>
                           (Storage.create_job
                              (Models.to_dict
                                 (enqueued_job clk job_id command m (Some iso)))
                              ≫= fun stored =>
                                   lift (Models.from_dict (utcnow_iso clk) stored))
                             (World d fs)
                       | None => (Raised (fromtimestamp_error t), World d fs)
                       end
                   end
                   = (Storage.create_job
                        (Models.to_dict (enqueued_job clk job_id command m run_iso))
                        ≫= fun stored =>
                             lift (Models.from_dict (utcnow_iso clk) stored))
                       (World d fs)).
    { destruct run_at as [t|]; cbn in Hren.
      - destruct Hren as [[iso ->] ->]. reflexivity.
      - by subst run_iso. }
    rewrite Hrun, create_then_load by done. split.
    + by intros [fs' ->]%write_succeeds_true.
    + by intros [fs' ->]%write_succeeds_false.
  - by intros t -> ->.
Qed.

Lemma ids_lookup (l : list (gmap string value)) i j :
  l !! i = Some j → ids l !! i = Some (py_get j "id").
Proof. intros Hi. unfold ids. by rewrite list_lookup_fmap, Hi. Qed.

Lemma NoDup_ids_find (l : list (gmap string value)) i j :
  NoDup (ids l) → l !! i = Some j →
  list_find (Storage.has_id (py_get j "id")) l = Some (i, j).
Proof.
  intros Hnd Hi. apply list_find_Some. split; [done|]. split; [done|].
  intros k y Hk Hlt Hid. unfold Storage.has_id in Hid.
  apply ids_lookup in Hi, Hk. rewrite Hid in Hk.
  pose proof (NoDup_lookup _ _ _ _ Hnd Hk Hi). lia.
Qed.

Lemma transitioned_has_id job_id stamp to_state j :
  Storage.has_id job_id j → Storage.has_id job_id (transitioned stamp to_state ∅ j).
Proof.
  unfold Storage.has_id, py_get. intros <-.
  by rewrite transitioned_other by (done || apply lookup_empty).
Qed.

Lemma ids_insert_same (l : list (gmap string value)) i j j' :
  l !! i = Some j → py_get j' "id" = py_get j "id" → ids (<[i := j']> l) = ids l.
Proof.
  intros Hi Hid. unfold ids. rewrite list_fmap_insert, Hid.
  apply list_insert_id. by rewrite list_lookup_fmap, Hi.
Qed.

Lemma from_dict_fields now data job :
  Models.from_dict now data = Returned job →
  Models.id job = py_get data "id" ∧
  Models.state job = py_get_default data "state" (VStr "pending").
Proof.
  unfold Models.from_dict. intros Hload.
  case_bool_decide; [|done].
  rewrite !merged_lookup in Hload by reflexivity.
  rewrite (merged_get data "state" (VStr "pending") eq_refl) in Hload.
  destruct (data !! "id") as [i|] eqn:Hi; [|done].
  destruct (data !! "command") as [c|]; [|done].
  injection Hload as <-. cbn. unfold py_get. by rewrite Hi.
Qed.

Lemma claim_first_head clk j rest d fs fs' i :
  list_find (Storage.has_id (py_get j "id")) (rows d) = Some (i, j) →
  attempt_writes 5 fs = (true, fs') →
  claim_first clk (j :: rest) (World d fs)
  = (claimed clk (transitioned (gmtime_iso clk) "processing" ∅ j),
     World (Table (<[i := transitioned (gmtime_iso clk) "processing" ∅ j]> (rows d))) fs').
Proof.
  intros Hfind Hw. cbn [claim_first].
  erewrite bind_returned.
  2:{ rewrite atomic_state_transition_run, Hfind, Hw.
      rewrite bool_decide_eq_false_2 by (intros Hne; by apply Hne). reflexivity. }
  cbn [default from_option id].
  erewrite bind_returned.
  2:{ rewrite get_job_run. unfold table; cbn [disk rows].
      rewrite (list_find_insert_found _ _ _ _ _ Hfind); [reflexivity|].
      by apply transitioned_has_id. }
  cbn [fmap option_fmap option_map snd QueueManager.from_dict_opt].
  rewrite bind_lift. unfold claimed. by destruct (Models.from_dict _ _).
Qed.

(** X10.  [claim_next_job] is first-in, first-out.  When no stored job is a
    candidate it returns [None] and leaves the world as it is.  Otherwise,
    when the stored ids are pairwise distinct and a write attempt of the
    transition succeeds, it is the first candidate in storage order that is
    moved to [processing] and read back; a job so returned carries that
    candidate's id and the state [processing]. *)
Theorem claim_next_job_fifo clk (w : world) :
  let r := QueueManager.claim_next_job clk w in
  (filter (claimable (timestamp clk)) (table w) = [] → r = (Returned None, w)) ∧
  (∀ j rest,
     filter (claimable (timestamp clk)) (table w) = j :: rest →
     NoDup (ids (table w)) →
     write_succeeds 5 (faults w) = true →
     let j' := transitioned (gmtime_iso clk) "processing" ∅ j in
     ∃ i, table w !! i = Some j ∧
          disk (snd r) = Table (<[i := j']> (table w)) ∧
          fst r = claimed clk j' ∧
          ∀ job, fst r = Returned (Some job) →
                 Models.id job = py_get j "id" ∧ Models.state job = VStr "processing").
Proof.
  cbn zeta. unfold QueueManager.claim_next_job.
  rewrite (bind_returned _ _ _ _ _ (list_jobs_run None None w)).
  cbn [matching]. rewrite claim_loop_first. split.
  - by intros ->.
  - intros j rest Hcands Hnd [fs' Hw]%write_succeeds_true. rewrite Hcands.
    assert (Hin : j ∈ table w).
    { apply (list_elem_of_filter (claimable (timestamp clk)) (table w) j).
      rewrite Hcands. apply list_elem_of_here. }
    apply list_elem_of_lookup in Hin as [i Hi]. exists i.
    destruct w as [d fs]. unfold table in *; cbn [disk faults] in *.
    rewrite (claim_first_head _ _ _ _ _ _ _ (NoDup_ids_find _ _ _ Hnd Hi) Hw).
    cbn [fst snd disk]. split; [done|]. split; [done|]. split; [done|].
    intros job Hjob. unfold claimed in Hjob.
    destruct (Models.from_dict _ _) as [e|job'] eqn:Hload; [done|].
    injection Hjob as ->. apply from_dict_fields in Hload as [-> ->].
    split.
    + unfold py_get. by rewrite transitioned_other by (done || apply lookup_empty).
    + unfold py_get_default. by rewrite transitioned_state by apply lookup_empty.
Qed.

Lemma claim_loop_returns clk candidates d fs job :
  fst (QueueManager.claim_loop clk candidates (World d fs)) = Returned (Some job) →
  ∃ i j, rows d !! i = Some j ∧
    (py_get j "state" = VStr "pending" ∨ py_get j "state" = VStr "scheduled") ∧
    disk (snd (QueueManager.claim_loop clk candidates (World d fs)))
    = Table (<[i := transitioned (gmtime_iso clk) "processing" ∅ j]> (rows d)) ∧
    Models.id job = py_get j "id".
Proof.
  revert fs. induction candidates as [|cand rest IH]; intros fs; [done|].
  cbn [QueueManager.claim_loop].
  destruct (negb _) eqn:Hstate; [apply IH|].
  destruct (truthy _ && _); [apply IH|].
  apply negb_false_iff, orb_true_iff in Hstate.
  assert (Hcand : py_get cand "state" = VStr "pending"
                  ∨ py_get cand "state" = VStr "scheduled").
  { destruct Hstate as [Hs|Hs]; apply bool_decide_eq_true in Hs; tauto. }
  clear Hstate.
  destruct (Storage.atomic_state_transition (gmtime_iso clk) (py_get cand "id")
              (py_get cand "state") "processing" (Some ∅) (World d fs))
    as [res w1] eqn:Hcas.
  pose proof Hcas as Hrun. rewrite atomic_state_transition_run in Hrun.
  destruct (list_find _ _) as [[i j]|] eqn:Hfind.
  - case_bool_decide as Hsame.
    + injection Hrun as <- <-. rewrite (bind_returned _ _ _ _ _ Hcas). apply IH.
    + destruct (attempt_writes 5 fs) as [[] fs'] eqn:Hw; injection Hrun as <- <-;
        rewrite (bind_returned _ _ _ _ _ Hcas); [|apply IH].
      cbn [default from_option id].
      erewrite bind_returned.
      2:{ rewrite get_job_run. unfold table; cbn [disk rows].
          rewrite (list_find_insert_found _ _ _ _ _ Hfind); [reflexivity|].
          apply transitioned_has_id. by apply list_find_Some in Hfind as (_ & ? & _). }
      cbn [fmap option_fmap option_map snd QueueManager.from_dict_opt].
      rewrite bind_lift.
      destruct (Models.from_dict _ _) as [e|job'] eqn:Hload; [done|].
      cbn. intros [= ->]. exists i, j.
      pose proof Hfind as (Hi & Hid & _)%list_find_Some.
      split; [exact Hi|]. split.
      { destruct (decide (py_get j "state" = py_get cand "state")) as [->|];
          [done|contradiction]. }
      split; [reflexivity|].
      apply from_dict_fields in Hload as [-> _].
      unfold py_get. by rewrite transitioned_other by (done || apply lookup_empty).
  - injection Hrun as <- <-. rewrite (bind_returned _ _ _ _ _ Hcas). apply IH.
Qed.

(** X11.  Two successive calls of [claim_next_job] never hand out the same job:
    when the stored ids are pairwise distinct and both calls return a job,
    the two jobs have different ids. *)
Theorem claim_next_job_twice_distinct (clk1 clk2 : clock) (w : world)
  (job1 job2 : Models.Job) :
  NoDup (ids (table w)) →
  fst (QueueManager.claim_next_job clk1 w) = Returned (Some job1) →
  fst (QueueManager.claim_next_job clk2 (snd (QueueManager.claim_next_job clk1 w)))
  = Returned (Some job2) →
  Models.id job1 ≠ Models.id job2.
Proof.
  intros Hnd H1 H2.
  unfold QueueManager.claim_next_job in H1, H2.
  rewrite (bind_returned _ _ _ _ _ (list_jobs_run None None w)) in H1, H2.
  cbn [matching] in H1, H2. destruct w as [d fs].
  apply claim_loop_returns in H1 as (i1 & j1 & Hi1 & Hst1 & Hdisk1 & Hid1).
  destruct (snd (QueueManager.claim_loop clk1 _ (World d fs))) as [d1 fs1].
  cbn [disk] in Hdisk1. subst d1.
  rewrite (bind_returned _ _ _ _ _ (list_jobs_run None None _)) in H2.
  cbn [matching] in H2.
  apply claim_loop_returns in H2 as (i2 & j2 & Hi2 & Hst2 & _ & Hid2).
  cbn [rows] in Hi2. rewrite Hid1, Hid2. intros Hsame.
  set (j1' := transitioned (gmtime_iso clk1) "processing" ∅ j1) in *.
  assert (Hid1' : py_get j1' "id" = py_get j1 "id").
  { unfold py_get, j1'. by rewrite transitioned_other by (done || apply lookup_empty). }
  assert (Hids : ids (<[i1 := j1']> (rows d)) = ids (rows d))
    by (by apply (ids_insert_same _ _ j1)).
  assert (Hi1' : <[i1 := j1']> (rows d) !! i1 = Some j1').
  { apply list_lookup_insert_eq. by eapply lookup_lt_Some. }
  pose proof (ids_lookup _ _ _ Hi1') as Hk1.
  pose proof (ids_lookup _ _ _ Hi2) as Hk2.
  rewrite Hids, Hid1', Hsame in Hk1. rewrite Hids in Hk2.
  pose proof (NoDup_lookup _ _ _ _ Hnd Hk1 Hk2) as ->.
  rewrite Hi1' in Hi2. injection Hi2 as <-.
  assert (Hproc : py_get j1' "state" = VStr "processing").
  { apply py_get_lookup, transitioned_state, lookup_empty. }
  rewrite Hproc in Hst2. by destruct Hst2.
Qed.

End EnqueueClaim.

(** * Failing, dead-lettering and replaying *)

Section FailMore.

Context `{PyLib}.
Variable config : gmap string value.

Implicit Types (w : world) (j : gmap string value) (clk : clock).

Ltac payload_key :=
  unfold dead_payload, retry_payload, replay_payload;
  rewrite ?lookup_set_if_given by done; lookup_literal.

Lemma lookup_set_if_given_eq key v (payload : gmap string value) :
  QueueManager.set_if_given key v payload !! key
  = match v with Some s => Some (VStr s) | None => payload !! key end.
Proof. destruct v; cbn; [apply lookup_insert_eq|done]. Qed.

(** X12.  [fail_job] on a job whose incremented attempts exceed [max_retries]:
    once a write attempt succeeds the record is [dead] with the incremented
    attempts, its [error_message] is the message given, or the empty string
    when none is given (never [None]), [stdout] and [stderr] are stored when
    given, and every other field, [next_retry_at] included, is kept.  When
    every write attempt fails the file is as before. *)
Theorem fail_job_dead clk (job_id : string) (error_message stdout stderr : option string)
  (w : world) (i : nat) (j : gmap string value) (a m b : Z) :
  list_find (Storage.has_id (VStr job_id)) (table w) = Some (i, j) →
  py_int (py_get_default j "attempts" (VInt 0)) = Returned a →
  py_int (py_get_default j "max_retries" (Config.get config "max_retries" (VInt 3)))
    = Returned m →
  py_int (Config.get config "backoff_base" (VInt 2)) = Returned b →
  m < a + 1 →
  let r := QueueManager.fail_job config clk job_id error_message stdout stderr w in
  (write_succeeds 3 (faults w) = true →
   ∃ j', disk (snd r) = Table (<[i := j']> (table w)) ∧
     j' !! "state" = Some (VStr "dead") ∧
     j' !! "attempts" = Some (VInt (a + 1)) ∧
     j' !! "error_message" = Some (VStr (default "" error_message)) ∧
     j' !! "updated_at" = Some (VStr (utcnow_iso clk)) ∧
     j' !! "stdout" = match stdout with Some s => Some (VStr s) | None => j !! "stdout" end ∧
     j' !! "stderr" = match stderr with Some s => Some (VStr s) | None => j !! "stderr" end ∧
     ∀ k, k ∉ ["state"; "attempts"; "error_message"; "updated_at"; "stdout"; "stderr"] →
          j' !! k = j !! k) ∧
  (write_succeeds 3 (faults w) = false →
   fst r = Raised (RuntimeError "Failed to update job after retries") ∧
   disk (snd r) = disk w).
Proof.
  destruct w as [d fs]. unfold table; cbn [disk faults].
  intros Hfind Ha Hm Hb Hlt. cbn zeta.
  rewrite (fail_job_run config _ _ _ _ _ _ _ _ _ _ _ _ Hfind Ha Hm Hb).
  destruct (Z.ltb_spec m (a + 1)) as [_|Hle]; [|lia].
  unfold update_then_load. split.
  - intros [fs' ->]%write_succeeds_true. cbn [snd disk].
    eexists. split; [reflexivity|].
    split; [apply merge_lookup_l; payload_key|].
    split; [apply merge_lookup_l; payload_key|].
    split; [apply merge_lookup_l; payload_key|].
    split; [apply merge_lookup_l; payload_key|].
    assert (Hout : dead_payload clk (a + 1) error_message stdout stderr !! "stdout"
                   = match stdout with Some s => Some (VStr s) | None => None end).
    { unfold dead_payload. rewrite lookup_set_if_given by done.
      rewrite lookup_set_if_given_eq. destruct stdout; [done|lookup_literal]. }
    assert (Herr : dead_payload clk (a + 1) error_message stdout stderr !! "stderr"
                   = match stderr with Some s => Some (VStr s) | None => None end).
    { unfold dead_payload. rewrite lookup_set_if_given_eq.
      destruct stderr; [done|]. rewrite lookup_set_if_given by done. lookup_literal. }
    split; [|split].
    + destruct stdout; [by apply merge_lookup_l|by apply merge_lookup_r].
    + destruct stderr; [by apply merge_lookup_l|by apply merge_lookup_r].
    + intros k Hk. apply merge_lookup_r.
      repeat (apply not_elem_of_cons in Hk as [? Hk]).
      unfold dead_payload. rewrite !lookup_set_if_given by done. lookup_literal.
  - by intros [fs' ->]%write_succeeds_false.
Qed.

Lemma exec_fail clk job_id em w :
  exec config (clk, Fail job_id em None None) w
  = snd (QueueManager.fail_job config clk job_id em None None w).
Proof. reflexivity. Qed.

Lemma retries_from (clks : list clock) : ∀ d (i : nat) j (a0 m b : Z) job_id em,
  list_find (Storage.has_id (VStr job_id)) (rows d) = Some (i, j) →
  j !! "attempts" = Some (VInt a0) →
  j !! "max_retries" = Some (VInt m) →
  py_int (Config.get config "backoff_base" (VInt 2)) = Returned b →
  0 ≤ a0 →
  a0 + Z.of_nat (length clks) ≤ m →
  (∀ k clk, clks !! k = Some clk →
            is_Some (utc_isoformat
                       (Qplus (timestamp clk) (inject_Z (b ^ (a0 + Z.of_nat k)))))) →
  ∃ d' j',
    run_ops config (failures job_id em clks) (World d []) = World d' [] ∧
    list_find (Storage.has_id (VStr job_id)) (rows d') = Some (i, j') ∧
    j' !! "attempts" = Some (VInt (a0 + Z.of_nat (length clks))) ∧
    j' !! "max_retries" = Some (VInt m) ∧
    (clks = [] → j' = j) ∧
    (clks ≠ [] → j' !! "state" = Some (VStr "scheduled")).
Proof.
  induction clks as [|clk clks IH]; intros d i j a0 m b job_id em Hfind Ha Hm Hb Ha0 Hle Hren.
  - exists d, j. cbn. rewrite Z.add_0_r. done.
  - cbn [length] in Hle. cbn [failures fmap list_fmap run_ops foldl].
    rewrite exec_fail.
    rewrite (fail_job_run config _ _ _ _ _ _ _ _ _ _ _ _ Hfind
               (py_int_field_eq _ _ _ _ Ha) (py_int_field_eq _ _ _ _ Hm) Hb).
    destruct (Z.ltb_spec m (a0 + 1)) as [Hlt|_]; [lia|].
    unfold py_pow. destruct (Z.leb_spec 0 (a0 + 1 - 1)) as [_|Hneg]; [|lia].
    destruct (Hren 0%nat clk eq_refl) as [iso Hiso].
    replace (a0 + Z.of_nat 0) with (a0 + 1 - 1) in Hiso by lia.
    rewrite Hiso. unfold update_then_load.
    change (attempt_writes 3 []) with (true, @nil bool). cbn [snd].
    set (j1 := Storage.merge j (retry_payload clk (a0 + 1) iso em None None)).
    assert (Hfind1 : list_find (Storage.has_id (VStr job_id)) (<[i := j1]> (rows d))
                     = Some (i, j1)).
    { apply (list_find_insert_found _ _ _ j); [done|].
      apply merge_has_id; [payload_key|]. by apply list_find_Some in Hfind as (_ & ? & _). }
    destruct (IH (Table (<[i := j1]> (rows d))) i j1 (a0 + 1) m b job_id em)
      as (d' & j' & Hrun & Hfind' & Ha' & Hm' & Hnil' & Hst'); try done.
    + apply merge_lookup_l. payload_key.
    + unfold j1. rewrite merge_lookup_r by payload_key. done.
    + lia.
    + lia.
    + intros k clk' Hk. specialize (Hren (S k) clk' Hk).
      by replace (a0 + 1 + Z.of_nat k) with (a0 + Z.of_nat (S k)) by lia.
    + exists d', j'. split; [exact Hrun|]. split; [exact Hfind'|].
      split; [rewrite Ha'; cbn [length]; f_equal; f_equal; lia|]. split; [exact Hm'|].
      split; [done|].
      intros _. destruct clks as [|clk' clks'].
      * rewrite (Hnil' eq_refl). apply merge_lookup_l. payload_key.
      * by apply Hst'.
Qed.

(** X13.  The retry budget, call after call.  On a stored job with no attempt made
    and [max_retries = m], with every write succeeding and every retry
    instant renderable, [n <= m] successive [fail_job] calls leave the job
    [scheduled] (for [n >= 1]) with [attempts = n]; and after [m] of them,
    one more call makes it [dead] with [attempts = m + 1]. *)
Theorem fail_job_retries_then_dead (clks : list clock) (clk_last : clock)
  (job_id : string) (error_message : option string)
  (d : file) (i : nat) (j : gmap string value) (m b : Z) :
  list_find (Storage.has_id (VStr job_id)) (rows d) = Some (i, j) →
  j !! "attempts" = Some (VInt 0) →
  j !! "max_retries" = Some (VInt m) →
  py_int (Config.get config "backoff_base" (VInt 2)) = Returned b →
  Z.of_nat (length clks) ≤ m →
  (∀ k clk, clks !! k = Some clk →
            is_Some (utc_isoformat
                       (Qplus (timestamp clk) (inject_Z (b ^ Z.of_nat k))))) →
  let w := run_ops config (failures job_id error_message clks) (World d []) in
  (∃ j', table w !! i = Some j' ∧
     j' !! "attempts" = Some (VInt (Z.of_nat (length clks))) ∧
     (clks ≠ [] → j' !! "state" = Some (VStr "scheduled"))) ∧
  (Z.of_nat (length clks) = m →
   ∃ j', table (exec config (clk_last, Fail job_id error_message None None) w) !! i
         = Some j' ∧
     j' !! "state" = Some (VStr "dead") ∧
     j' !! "attempts" = Some (VInt (m + 1))).
Proof.
  intros Hfind Ha Hm Hb Hle Hren. cbn zeta.
  destruct (retries_from clks d i j 0 m b job_id error_message)
    as (d' & j' & -> & Hfind' & Ha' & Hm' & _ & Hst'); try done.
  rewrite Z.add_0_l in Ha'. split.
  - exists j'. unfold table; cbn [disk].
    split; [by apply list_find_Some in Hfind' as (? & _)|]. by split.
  - intros Hlast. rewrite exec_fail.
    rewrite (fail_job_run config _ _ _ _ _ _ _ _ _ _ _ _ Hfind'
               (py_int_field_eq _ _ _ _ Ha') (py_int_field_eq _ _ _ _ Hm') Hb).
    destruct (Z.ltb_spec m (Z.of_nat (length clks) + 1)) as [_|Hge]; [|lia].
    unfold update_then_load. change (attempt_writes 3 []) with (true, @nil bool).
    unfold table; cbn [snd disk rows]. eexists. split.
    + apply list_lookup_insert_eq.
      apply list_find_Some in Hfind' as (Hi & _). by eapply lookup_lt_Some.
    + split; apply merge_lookup_l; [payload_key|].
      rewrite Hlast. payload_key.
Qed.

Lemma move_to_dead_letter_run clk job_id reason d fs :
  QueueManager.move_to_dead_letter clk job_id reason (World d fs) =
  match list_find (Storage.has_id (VStr job_id)) (rows d) with
  | None => (Raised (KeyError (VStr job_id)), World d fs)
  | Some (i, j) =>
      update_then_load clk d fs i j
        {[ "state" := VStr "dead"; "error_message" := VStr (default "" reason);
           "updated_at" := VStr (utcnow_iso clk) ]}
  end.
Proof.
  unfold QueueManager.move_to_dead_letter.
  destruct (list_find _ _) as [[i j]|] eqn:Hfind.
  - by apply update_then_load_run.
  - erewrite bind_raised; [reflexivity|]. by rewrite update_job_run, Hfind.
Qed.

(** X14.  [move_to_dead_letter] raises [KeyError] and changes nothing when the id
    is not stored.  On a stored job, with every write succeeding, the job
    becomes [dead] with its attempts kept and the reason as [error_message];
    a [retry_dlq_job] that follows then succeeds in replaying it: the job is
    [pending] with attempts 0 and no error message. *)
Theorem move_to_dead_letter_then_replay (clk1 clk2 : clock) (job_id : string)
  (reason : option string) (d : file) :
  (list_find (Storage.has_id (VStr job_id)) (rows d) = None →
   ∀ fs, QueueManager.move_to_dead_letter clk1 job_id reason (World d fs)
         = (Raised (KeyError (VStr job_id)), World d fs)) ∧
  (∀ i j, list_find (Storage.has_id (VStr job_id)) (rows d) = Some (i, j) →
     let w1 := snd (QueueManager.move_to_dead_letter clk1 job_id reason (World d [])) in
     let w2 := snd (QueueManager.retry_dlq_job clk2 job_id w1) in
     (∃ j1, table w1 !! i = Some j1 ∧
        j1 !! "state" = Some (VStr "dead") ∧
        j1 !! "attempts" = j !! "attempts" ∧
        j1 !! "error_message" = Some (VStr (default "" reason))) ∧
     (∃ j2, table w2 !! i = Some j2 ∧
        j2 !! "state" = Some (VStr "pending") ∧
        j2 !! "attempts" = Some (VInt 0) ∧
        j2 !! "error_message" = Some VNone ∧
        j2 !! "command" = j !! "command")).
Proof.
  split.
  - intros Hnone fs. by rewrite move_to_dead_letter_run, Hnone.
  - intros i j Hfind. cbn zeta.
    rewrite move_to_dead_letter_run, Hfind. unfold update_then_load.
    change (attempt_writes 3 []) with (true, @nil bool). cbn [snd].
    set (j1 := Storage.merge j _).
    pose proof Hfind as (Hi & Hid & _)%list_find_Some.
    assert (Hlt : (i < length (rows d))%nat) by (by eapply lookup_lt_Some).
    assert (Hfind1 : list_find (Storage.has_id (VStr job_id)) (<[i := j1]> (rows d))
                     = Some (i, j1)).
    { apply (list_find_insert_found _ _ _ j); [done|].
      apply merge_has_id; [lookup_literal|done]. }
    assert (Hdead : j1 !! "state" = Some (VStr "dead")).
    { apply merge_lookup_l. lookup_literal. }
    split.
    + exists j1. unfold table; cbn [disk rows].
      split; [by apply list_lookup_insert_eq|]. split; [done|]. split.
      * apply merge_lookup_r. lookup_literal.
      * apply merge_lookup_l. lookup_literal.
    + rewrite retry_dlq_job_run. cbn [rows]. rewrite Hfind1.
      rewrite bool_decide_eq_false_2
        by (intros Hne; apply Hne; by apply py_get_lookup).
      unfold update_then_load. change (attempt_writes 3 []) with (true, @nil bool).
      unfold table; cbn [snd disk rows]. eexists. split.
      * apply list_lookup_insert_eq. by rewrite length_insert.
      * repeat split; try (apply merge_lookup_l; payload_key).
        rewrite merge_lookup_r by payload_key.
        apply merge_lookup_r. lookup_literal.
Qed.

End FailMore.

(** * Listing the dead-letter queue *)

Section Listing.

Implicit Types (w : world) (clk : clock).

Lemma from_dicts_Forall2 clk (l : list (gmap string value)) jobs :
  QueueManager.from_dicts clk l = Returned jobs →
  Forall2 (fun d job => Models.from_dict (utcnow_iso clk) d = Returned job) l jobs.
Proof.
  revert jobs. induction l as [|d l IH]; intros jobs; cbn.
  - intros [= <-]. constructor.
  - destruct (Models.from_dict _ d) as [e|job] eqn:Hd; [done|].
    destruct (QueueManager.from_dicts clk l) as [e|jobs'] eqn:Hl; [done|].
    intros [= <-]. constructor; [done|]. by apply IH.
Qed.

Lemma py_slice_to_Forall {A} (P : A → Prop) (l : list A) n :
  Forall P l → Forall P (py_slice_to l n).
Proof. intros Hl. unfold py_slice_to. destruct (0 <=? n); by apply Forall_take. Qed.

(** X15.  Every job [list_dlq_jobs] returns is in state [dead]; for a limit
    [n > 0] it returns at most [n] jobs, and never more than are stored.
    The call leaves the world as it is. *)
Theorem list_dlq_jobs_dead clk (limit : Z) (w w' : world) (jobs : list Models.Job) :
  QueueManager.list_dlq_jobs clk limit w = (Returned jobs, w') →
  w' = w ∧
  Forall (fun job => Models.state job = VStr "dead") jobs ∧
  (0 < limit → (length jobs ≤ Z.to_nat limit)%nat) ∧
  (length jobs ≤ length (table w))%nat.
Proof.
  unfold QueueManager.list_dlq_jobs, QueueManager.list_jobs.
  rewrite (bind_returned _ _ _ _ _ (list_jobs_run (Some limit) (Some "dead") w)).
  unfold lift. intros [= Hload <-]. split; [done|].
  apply from_dicts_Forall2 in Hload.
  set (dead := matching (Some "dead") (table w)) in *.
  assert (Hdead : Forall (fun d => py_get d "state" = VStr "dead") dead).
  { unfold dead, matching. rewrite bool_decide_eq_false_2 by done.
    apply Forall_forall. by intros d [Hd _]%list_elem_of_filter. }
  assert (Hlen : (length dead ≤ length (table w))%nat).
  { unfold dead, matching. rewrite bool_decide_eq_false_2 by done.
    apply length_filter. }
  assert (Hstate : ∀ l loaded, Forall (fun d => py_get d "state" = VStr "dead") l →
             Forall2 (fun d job => Models.from_dict (utcnow_iso clk) d = Returned job)
               l loaded →
             Forall (fun job => Models.state job = VStr "dead") loaded).
  { intros l loaded Hl Hl2. revert Hl.
    induction Hl2 as [|d job l jobs' Hd _ IH]; intros Hl; [constructor|].
    apply Forall_cons in Hl as [Hst Hl]. constructor; [|by apply IH].
    apply from_dict_fields in Hd as [_ ->]. unfold py_get, py_get_default in *.
    by destruct (d !! "state"); simplify_eq/=. }
  destruct (Z.eqb_spec limit 0) as [->|Hne].
  - split; [by apply (Hstate dead)|]. split; [lia|].
    by rewrite <- (Forall2_length _ _ _ Hload).
  - split; [apply (Hstate _ _ (py_slice_to_Forall _ _ _ Hdead) Hload)|].
    rewrite <- (Forall2_length _ _ _ Hload). unfold py_slice_to. split.
    + intros Hpos. destruct (Z.leb_spec 0 limit); [|lia].
      rewrite length_take. lia.
    + destruct (0 <=? limit); rewrite length_take;
        (etrans; [apply Nat.le_min_r|exact Hlen]).
Qed.

End Listing.

(** * The worker: registry and reporting *)

Section WorkerMore.

Context `{PyLib}.
Variable config : gmap string value.
Variable str_of_exn : exn → string.

Implicit Types (w : world) (j : gmap string value) (clk : clock).

Lemma try_except_raised {A} (body handler : M A) w e w' :
  body w = (Raised e, w') → try_except body handler w = handler w'.
Proof. intros Hb. unfold try_except. by rewrite Hb. Qed.

Lemma try_except_returned {A} (body handler : M A) w a w' :
  body w = (Returned a, w') → try_except body handler w = (Returned a, w').
Proof. intros Hb. unfold try_except. by rewrite Hb. Qed.

Lemma try_except_as_returned {A} (body : M A) handler w a w' :
  body w = (Returned a, w') → Worker.try_except_as body handler w = (Returned a, w').
Proof. intros Hb. unfold Worker.try_except_as. by rewrite Hb. Qed.

Lemma call_returned {A} (m : M A) w a w' :
  m w = (Returned a, w') → Worker.call m w = (Returned tt, w').
Proof. intros Hm. unfold Worker.call. by rewrite (bind_returned _ _ _ _ _ Hm). Qed.

Lemma call_raised {A} (m : M A) w e w' :
  m w = (Raised e, w') → Worker.call m w = (Raised e, w').
Proof. intros Hm. unfold Worker.call. by rewrite (bind_raised _ _ _ _ _ Hm). Qed.

Lemma update_job_written job_id u d i j :
  list_find (Storage.has_id job_id) (rows d) = Some (i, j) →
  Storage.update_job job_id u (World d [])
  = (Returned (Storage.merge j u), World (Table (<[i := Storage.merge j u]> (rows d))) []).
Proof. intros Hfind. by rewrite update_job_run, Hfind. Qed.

(** With captured output handed over, [fail_job] raises; the job is still
    the first record carrying its id, updated or not. *)
Lemma fail_job_output_raises clk job_id em (out err : string) d i j :
  list_find (Storage.has_id (VStr job_id)) (rows d) = Some (i, j) →
  ∃ e d1 j1,
    QueueManager.fail_job config clk job_id em (Some out) (Some err) (World d [])
    = (Raised e, World d1 []) ∧
    list_find (Storage.has_id (VStr job_id)) (rows d1) = Some (i, j1).
Proof.
  intros Hfind. rewrite fail_job_unfold, Hfind.
  pose proof Hfind as (_ & Hid & _)%list_find_Some.
  assert (Hload : ∀ payload,
             payload !! "id" = None → is_Some (payload !! "stdout") →
             ∃ e d1 j1,
               update_then_load clk d [] i j payload = (Raised e, World d1 []) ∧
               list_find (Storage.has_id (VStr job_id)) (rows d1) = Some (i, j1)).
  { intros payload Hnoid [v Hv]. unfold update_then_load.
    change (attempt_writes 3 []) with (true, @nil bool).
    rewrite (from_dict_unexpected_key _ _ "stdout").
    - eexists _, _, _. split; [reflexivity|]. cbn [rows].
      apply (list_find_insert_found _ _ _ j); [done|]. by apply merge_has_id.
    - exists v. by apply merge_lookup_l.
    - apply (proj1 (bool_decide_eq_false _)). vm_compute. reflexivity. }
  assert (Hstdout : ∀ base : gmap string value,
             is_Some (QueueManager.set_if_given "stderr" (Some err)
                        (QueueManager.set_if_given "stdout" (Some out) base) !! "stdout")).
  { intros base. cbn. rewrite lookup_insert_ne by done. rewrite lookup_insert_eq. eauto. }
  destruct (py_int (py_get_default j "attempts" _)); [by eexists _, d, j|].
  destruct (py_int (py_get_default j "max_retries" _)); [by eexists _, d, j|].
  destruct (py_int (Config.get config "backoff_base" _)); [by eexists _, d, j|].
  destruct (_ <? _).
  - apply Hload; [|apply Hstdout].
    unfold dead_payload. rewrite !lookup_set_if_given by done. lookup_literal.
  - destruct (py_pow _ _); [by eexists _, d, j|].
    destruct (utc_isoformat _) as [iso|]; [|by eexists _, d, j].
    apply Hload; [|apply Hstdout].
    unfold retry_payload. rewrite !lookup_set_if_given by done. lookup_literal.
Qed.

(** X17.  The worker never leaves a failed job dead.  When the command of a stored
    job exits with a non-zero code and every write succeeds, [fail_job]
    raises on the captured output it was handed, and the fallback update
    stores the job as [scheduled], whatever its attempts and [max_retries],
    with the error text and the captured output. *)
Theorem report_failure_schedules clk (job_id : string) (returncode : Z)
  (stdout stderr : string) (d : file) (i : nat) (j : gmap string value) :
  returncode ≠ 0 →
  list_find (Storage.has_id (VStr job_id)) (rows d) = Some (i, j) →
  let r := Worker.report config str_of_exn clk job_id
             (Worker.Finished returncode stdout stderr) (World d []) in
  fst r = Returned tt ∧
  ∃ j', table (snd r) !! i = Some j' ∧
    j' !! "state" = Some (VStr "scheduled") ∧
    j' !! "error_message"
    = Some (VStr (if bool_decide (stderr = "")
                  then if bool_decide (stdout = "")
                       then "exit:" +:+ pretty returncode else stdout
                  else stderr)) ∧
    j' !! "stdout" = Some (VStr stdout) ∧
    j' !! "stderr" = Some (VStr stderr).
Proof.
  intros Hrc Hfind. cbn zeta. unfold Worker.report.
  destruct (Z.eqb_spec returncode 0) as [?|_]; [done|].
  set (err := if truthy (VStr stderr) then stderr
              else if truthy (VStr stdout) then stdout
              else "exit:" +:+ pretty returncode).
  destruct (fail_job_output_raises clk job_id (Some err) stdout stderr d i j Hfind)
    as (e & d1 & j1 & Hfail & Hfind1).
  erewrite try_except_as_returned.
  2:{ erewrite try_except_raised; [|by apply call_raised].
      eapply call_returned. by apply update_job_written. }
  cbn [fst snd]. split; [done|].
  pose proof Hfind1 as (Hi1 & _)%list_find_Some.
  eexists. unfold table; cbn [disk rows]. split.
  { apply list_lookup_insert_eq. by eapply lookup_lt_Some. }
  split; [apply merge_lookup_l; lookup_literal|].
  split; [|split; apply merge_lookup_l; lookup_literal].
  replace (if bool_decide (stderr = "") then _ else _) with err.
  - apply merge_lookup_l. lookup_literal.
  - unfold err. cbn [truthy]. by repeat case_bool_decide.
Qed.

(** X18.  When the command of a stored job exits with code 0 and every write
    succeeds, the job is stored as [completed], also when [complete_job]
    raises on loading the record; captured output that is not empty is
    stored with it. *)
Theorem report_success_completes clk (job_id : string) (stdout stderr : string)
  (d : file) (i : nat) (j : gmap string value) :
  list_find (Storage.has_id (VStr job_id)) (rows d) = Some (i, j) →
  let r := Worker.report config str_of_exn clk job_id
             (Worker.Finished 0 stdout stderr) (World d []) in
  fst r = Returned tt ∧
  ∃ j', table (snd r) !! i = Some j' ∧
    j' !! "state" = Some (VStr "completed") ∧
    (stdout ≠ "" ∨ stderr ≠ "" →
     j' !! "stdout" = Some (VStr stdout) ∧ j' !! "stderr" = Some (VStr stderr)).
Proof.
  intros Hfind. cbn zeta. unfold Worker.report. cbn [Z.eqb].
  pose proof Hfind as (Hi & Hid & _)%list_find_Some.
  assert (Hlt : (i < length (rows d))%nat) by (by eapply lookup_lt_Some).
  set (jc := Storage.merge j {[ "state" := VStr "completed";
                                "updated_at" := VStr (utcnow_iso clk) ]}).
  assert (Hfindc : list_find (Storage.has_id (VStr job_id)) (<[i := jc]> (rows d))
                   = Some (i, jc)).
  { apply (list_find_insert_found _ _ _ j); [done|].
    apply merge_has_id; [lookup_literal|done]. }
  assert (Hcomplete : QueueManager.complete_job clk job_id (World d [])
                      = (Models.from_dict (utcnow_iso clk) jc,
                         World (Table (<[i := jc]> (rows d))) [])).
  { by rewrite complete_job_run, Hfind. }
  assert (Hjc : jc !! "state" = Some (VStr "completed")).
  { apply merge_lookup_l. lookup_literal. }
  destruct (Models.from_dict (utcnow_iso clk) jc) as [e|job] eqn:Hload.
  - erewrite try_except_as_returned.
    2:{ erewrite try_except_raised;
          [|erewrite bind_raised; [reflexivity|]; eapply call_raised, Hcomplete].
        eapply call_returned. apply update_job_written, Hfindc. }
    cbn [fst snd]. split; [done|]. eexists. unfold table; cbn [disk rows]. split.
    { apply list_lookup_insert_eq. by rewrite length_insert. }
    split; [apply merge_lookup_l; lookup_literal|].
    intros _. split; apply merge_lookup_l; lookup_literal.
  - destruct (truthy (VStr stdout) || truthy (VStr stderr)) eqn:Hout.
    + erewrite try_except_as_returned.
      2:{ erewrite try_except_returned; [reflexivity|].
          erewrite bind_returned; [|eapply call_returned, Hcomplete].
          eapply call_returned. apply update_job_written, Hfindc. }
      cbn [fst snd]. split; [done|]. eexists. unfold table; cbn [disk rows]. split.
      { apply list_lookup_insert_eq. by rewrite length_insert. }
      split; [by rewrite merge_lookup_r by lookup_literal|].
      intros _. split; apply merge_lookup_l; lookup_literal.
    + erewrite try_except_as_returned.
      2:{ erewrite try_except_returned; [reflexivity|].
          erewrite bind_returned; [|eapply call_returned, Hcomplete].
          reflexivity. }
      cbn [fst snd]. split; [done|]. exists jc. unfold table; cbn [disk rows]. split.
      { by apply list_lookup_insert_eq. }
      split; [done|].
      apply orb_false_iff in Hout as [Ho He]. cbn [truthy] in Ho, He.
      apply negb_false_iff, bool_decide_eq_true in Ho, He. intros [?|?]; done.
Qed.

Lemma filter_all {A} (P : A → Prop) `{!∀ x, Decision (P x)} (l : list A) :
  Forall P l → filter P l = l.
Proof.
  induction 1 as [|x l' Hx _ IH]; [done|].
  rewrite filter_cons_True by done. by rewrite IH.
Qed.

Lemma filter_none {A} (P : A → Prop) `{!∀ x, Decision (P x)} (l : list A) :
  Forall (fun x => ¬ P x) l → filter P l = [].
Proof.
  induction 1 as [|x l' Hx _ IH]; [done|].
  by rewrite filter_cons_False.
Qed.

(** X19.  The worker registry.  After [_add_registry_entry] the registry holds
    exactly one entry for the pid, the new one, placed last, and the entries
    of other pids as before, in order; [_remove_registry_entry] leaves no
    entry for the pid and keeps the others, so adding a pid that was not
    registered and removing it restores the registry.  A write that fails
    raises and leaves the file as it was. *)
Theorem registry_add_remove (content : option (list Worker.entry)) (p : Z) (started : Q) :
  let others := filter (fun e => Worker.pid e ≠ p) (Worker._read_registry content) in
  Worker._add_registry_entry content p started true
  = (Returned tt, Some (others ++ [Worker.Entry p started])) ∧
  filter (fun e => Worker.pid e = p) (others ++ [Worker.Entry p started])
  = [Worker.Entry p started] ∧
  Worker._remove_registry_entry (Some (others ++ [Worker.Entry p started])) p true
  = (Returned tt, Some others) ∧
  Forall (fun e => Worker.pid e ≠ p) others ∧
  (Forall (fun e => Worker.pid e ≠ p) (Worker._read_registry content) →
   others = Worker._read_registry content) ∧
  Worker._add_registry_entry content p started false = (Raised OSError, content) ∧
  Worker._remove_registry_entry content p false = (Raised OSError, content).
Proof.
  cbn zeta. set (l := Worker._read_registry content).
  assert (Hothers : Forall (fun e => Worker.pid e ≠ p) (filter (fun e => Worker.pid e ≠ p) l)).
  { apply Forall_forall. by intros e [He _]%list_elem_of_filter. }
  split; [done|]. split; [|split; [|split; [done|split; [|done]]]].
  - rewrite filter_app, (filter_none _ _ Hothers).
    by rewrite filter_cons_True.
  - unfold Worker._remove_registry_entry.
    cbn [Worker._read_registry default from_option id].
    rewrite filter_app, (filter_all _ _ Hothers).
    rewrite (filter_cons_False _ (Worker.Entry p started)) by (cbn; tauto).
    by rewrite filter_nil, app_nil_r.
  - apply filter_all.
Qed.

End WorkerMore.

(** * Claiming a record that cannot be loaded *)

Section ClaimRejected.

Context `{PyLib}.

Implicit Types (w : world) (j : gmap string value) (clk : clock).

Lemma field_keys :
  "state" ∈ Models.fields ∧ "updated_at" ∈ Models.fields.
Proof.
  split.
  - apply (bool_decide_unpack ("state" ∈ Models.fields)). vm_compute. exact I.
  - apply (bool_decide_unpack ("updated_at" ∈ Models.fields)). vm_compute. exact I.
Qed.

(** C1.  [claim_next_job] does not always return the job it claims.  When
    the first candidate in storage order holds a key that is not a field of
    [Job] (the worker stores [stdout] and [stderr] in the record), the stored
    ids are pairwise distinct and a write attempt succeeds, the transition to
    [processing] is written and the call then raises [TypeError] on loading
    the record read back: it returns neither that job nor [None].  The
    record is left in [processing], where no later call takes it as a
    candidate. *)
Theorem claim_next_job_raises_after_commit clk (w : world) (j : gmap string value)
  (rest : list (gmap string value)) (k : string) :
  filter (claimable (timestamp clk)) (table w) = j :: rest →
  NoDup (ids (table w)) →
  write_succeeds 5 (faults w) = true →
  is_Some (j !! k) → k ∉ Models.fields →
  let r := QueueManager.claim_next_job clk w in
  let j' := transitioned (gmtime_iso clk) "processing" ∅ j in
  fst r = Raised (TypeError "__init__() got an unexpected keyword argument") ∧
  (∃ i, table w !! i = Some j ∧ disk (snd r) = Table (<[i := j']> (table w))) ∧
  j' !! "state" = Some (VStr "processing") ∧
  ∀ now, ¬ claimable now j'.
Proof.
  intros Hcands Hnd [fs' Hw]%write_succeeds_true Hk Hnot. cbn zeta.
  unfold QueueManager.claim_next_job.
  rewrite (bind_returned _ _ _ _ _ (list_jobs_run None None w)).
  cbn [matching]. rewrite claim_loop_first, Hcands.
  assert (Hin : j ∈ table w).
  { apply (list_elem_of_filter (claimable (timestamp clk)) (table w) j).
    rewrite Hcands. apply list_elem_of_here. }
  apply list_elem_of_lookup in Hin as [i Hi].
  destruct w as [d fs]. unfold table in *; cbn [disk faults] in *.
  rewrite (claim_first_head _ _ _ _ _ _ _ (NoDup_ids_find _ _ _ Hnd Hi) Hw).
  cbn [fst snd disk].
  assert (Hstate : transitioned (gmtime_iso clk) "processing" ∅ j !! "state"
                   = Some (VStr "processing"))
    by apply transitioned_state, lookup_empty.
  split; [|split; [by exists i|split; [exact Hstate|]]].
  - unfold claimed. rewrite (from_dict_unexpected_key _ _ k); [done| |done].
    destruct field_keys as [Hs Hu].
    rewrite transitioned_other; [done|..|apply lookup_empty];
      intros ->; contradiction.
  - intros now [Hst _]. rewrite (py_get_lookup _ _ _ Hstate) in Hst.
    by destruct Hst.
Qed.

End ClaimRejected.

(** * The retry instant and the local zone *)

Section BackoffZone.

Context `{PyLib}.
Variable config : gmap string value.

Implicit Types (w : world) (j : gmap string value).

(** C3.  The retry instant is off by the local UTC offset.  [fail_job] takes
    its reading of the clock with [datetime.utcnow().timestamp()], which at
    the instant [now] in a zone [utcoffset] seconds east of UTC is
    [now - utcoffset].  For an incremented attempts value [k] within
    [max_retries], once a write attempt succeeds, the record is [scheduled]
    with [attempts = k] and [next_retry_at] the rendering of
    [now - utcoffset + backoff_base ^ (k - 1)], the base being read from the
    configuration; that is [now] plus the delay only when the offset is 0.
    When the stored text reads back as that instant, [claim_next_job], which
    compares with [now], takes the job as a candidate already at the instant
    of the failure exactly when the delay is at most the offset. *)
Theorem fail_job_backoff_local_zone (now utcoffset : Q) (iso_now gm : string)
  (job_id : string) (error_message stdout stderr : option string) (w : world)
  (idx : nat) (j : gmap string value) (a m b : Z) (iso : string) :
  let clk := Clock (utcnow_timestamp now utcoffset) iso_now gm in
  let delay := inject_Z (b ^ (a + 1 - 1)) in
  list_find (Storage.has_id (VStr job_id)) (table w) = Some (idx, j) →
  py_int (py_get_default j "attempts" (VInt 0)) = Returned a →
  py_int (py_get_default j "max_retries" (Config.get config "max_retries" (VInt 3)))
    = Returned m →
  py_int (Config.get config "backoff_base" (VInt 2)) = Returned b →
  1 ≤ a + 1 ≤ m →
  utc_isoformat (Qplus (utcnow_timestamp now utcoffset) delay) = Some iso →
  write_succeeds 3 (faults w) = true →
  ∃ j', disk (snd (QueueManager.fail_job config clk job_id error_message stdout
                     stderr w))
        = Table (<[idx := j']> (table w)) ∧
    j' !! "state" = Some (VStr "scheduled") ∧
    j' !! "attempts" = Some (VInt (a + 1)) ∧
    j' !! "next_retry_at" = Some (VStr iso) ∧
    (¬ (utcoffset == 0)%Q →
     ¬ (utcnow_timestamp now utcoffset + delay == now + delay)%Q) ∧
    (∀ t, iso ≠ "" → fromisoformat_timestamp iso = Some t →
          (t == utcnow_timestamp now utcoffset + delay)%Q →
          (claimable now j' ↔ (delay <= utcoffset)%Q)).
Proof.
  cbn zeta. destruct w as [d fs]. unfold table, write_succeeds; cbn [disk faults].
  intros Hfind Ha Hm Hb Hk Hiso Hok.
  rewrite (fail_job_run _ _ _ _ _ _ _ _ _ _ _ _ _ Hfind Ha Hm Hb).
  destruct (Z.ltb_spec m (a + 1)) as [Hlt|_]; [lia|].
  unfold py_pow. destruct (Z.leb_spec 0 (a + 1 - 1)) as [_|Hneg]; [|lia].
  cbn [timestamp]. rewrite Hiso. unfold update_then_load.
  destruct (attempt_writes 3 fs) as [[] fs']; [|done]. cbn [snd disk].
  set (j' := Storage.merge j (retry_payload _ _ _ _ _ _)).
  assert (Hstate : j' !! "state" = Some (VStr "scheduled")).
  { apply merge_lookup_l. unfold retry_payload.
    rewrite !lookup_set_if_given by done. lookup_literal. }
  assert (Hnext : j' !! "next_retry_at" = Some (VStr iso)).
  { apply merge_lookup_l. unfold retry_payload.
    rewrite !lookup_set_if_given by done. lookup_literal. }
  exists j'. split; [reflexivity|]. split; [exact Hstate|]. split.
  { apply merge_lookup_l. unfold retry_payload.
    rewrite !lookup_set_if_given by done. lookup_literal. }
  split; [exact Hnext|]. split.
  - unfold utcnow_timestamp. intros Hoff Heq. apply Hoff. lra.
  - intros t Hne Ht Hround. unfold claimable, retry_pending.
    rewrite (py_get_lookup _ _ _ Hstate), (py_get_lookup _ _ _ Hnext).
    cbn [truthy QueueManager.retry_instant]. rewrite Ht. cbn [default from_option id].
    rewrite bool_decide_eq_false_2 by done. cbn [negb].
    unfold utcnow_timestamp in Hround. split.
    + intros [_ Hnot]. apply Qnot_lt_le. intros Hlt. apply Hnot. split; [done|]. lra.
    + intros Hle. split; [by right|]. intros [_ Hlt]. lra.
Qed.

End BackoffZone.

(** * Enqueue, then claim *)

Section EnqueueThenClaim.

Context `{PyLib}.
Variable config : gmap string value.

Implicit Types (w : world) (j : gmap string value) (clk : clock).

Lemma enqueued_job_candidate clk job_id command m run_iso now :
  claimable now (Models.to_dict (enqueued_job clk job_id command m run_iso))
  ↔ match run_iso with
    | None => True
    | Some iso => ¬ (iso ≠ "" ∧ (now < QueueManager.retry_instant (VStr iso))%Q)
    end.
Proof.
  assert (Hstate : py_get (Models.to_dict (enqueued_job clk job_id command m run_iso))
                     "state"
                   = VStr (match run_iso with None => "pending" | Some _ => "scheduled" end)).
  { apply py_get_lookup. unfold Models.to_dict. lookup_literal. }
  assert (Hnext : py_get (Models.to_dict (enqueued_job clk job_id command m run_iso))
                    "next_retry_at"
                  = match run_iso with None => VNone | Some iso => VStr iso end).
  { apply py_get_lookup. unfold Models.to_dict. lookup_literal. }
  unfold claimable, retry_pending. rewrite Hstate, Hnext.
  destruct run_iso as [iso|].
  - cbn [truthy]. rewrite negb_true_iff, bool_decide_eq_false. split.
    + by intros [_ Hnot].
    + intros Hnot. split; [by right|done].
  - split; [done|]. intros _. split; [by left|]. by intros [? _].
Qed.

Lemma transitioned_to_dict stamp (job : Models.Job) :
  transitioned stamp "processing" ∅ (Models.to_dict job)
  = Models.to_dict (claimed_job job stamp).
Proof.
  destruct job as [i c st a m ca ua em nr].
  unfold transitioned, Storage.merge, Models.to_dict, claimed_job.
  cbn [Models.id Models.command Models.state Models.attempts Models.max_retries
       Models.created_at Models.updated_at Models.error_message Models.next_retry_at].
  vm_compute. reflexivity.
Qed.

(** X9.  [enqueue] followed by [claim_next_job].  On a store with pairwise
    distinct ids that does not hold the new id and has no candidate at the
    time of the claim, with every write succeeding: a job enqueued without
    [run_at], or with a [run_at] whose stored rendering reads back as an
    instant not after the clock reading of the claim, is the job claimed,
    returned in state [processing] with [updated_at] refreshed and stored so
    after the older records; a job whose [run_at] reads back as a later
    instant is not claimed, the call returns [None] and the store is as
    [enqueue] left it. *)
Theorem enqueue_then_claim (clk1 clk2 : clock) (job_id command : string)
  (max_retries : option Z) (run_at : option Q) (m : Z)
  (jobs : list (gmap string value)) :
  (max_retries = Some m ∨
   max_retries = None ∧
   py_int (Config.get config "max_retries" (VInt 3)) = Returned m) →
  NoDup (ids jobs) →
  VStr job_id ∉ ids jobs →
  filter (claimable (timestamp clk2)) jobs = [] →
  let w1 := snd (QueueManager.enqueue config clk1 job_id command max_retries run_at
                   (World (Table jobs) [])) in
  let r := QueueManager.claim_next_job clk2 w1 in
  ∀ run_iso, rendered run_at run_iso →
    let job := enqueued_job clk1 job_id command m run_iso in
    let job' := claimed_job job (gmtime_iso clk2) in
    (run_iso = None ∨
     (∃ iso, run_iso = Some iso ∧
             (QueueManager.retry_instant (VStr iso) <= timestamp clk2)%Q) →
     r = (Returned (Some job'), World (Table (jobs ++ [Models.to_dict job'])) [])) ∧
    (∀ iso, run_iso = Some iso → iso ≠ "" →
            (timestamp clk2 < QueueManager.retry_instant (VStr iso))%Q →
            r = (Returned None, World (Table (jobs ++ [Models.to_dict job])) [])).
Proof.
  intros Hm Hnd Hfresh Hnone. cbn zeta. intros run_iso Hren.
  set (job := enqueued_job clk1 job_id command m run_iso).
  assert (Hw1 : snd (QueueManager.enqueue config clk1 job_id command max_retries run_at
                       (World (Table jobs) []))
                = World (Table (jobs ++ [Models.to_dict job])) []).
  { rewrite (enqueue_resolved _ _ _ _ _ _ _ _ Hm).
    destruct run_at as [t|]; cbn in Hren.
    - destruct Hren as [[iso ->] ->]. by rewrite create_then_load.
    - subst run_iso. by rewrite create_then_load. }
  rewrite Hw1. unfold QueueManager.claim_next_job.
  rewrite (bind_returned _ _ _ _ _ (list_jobs_run None None _)).
  cbn [matching]. rewrite claim_loop_first.
  unfold table; cbn [disk rows]. rewrite filter_app, Hnone, app_nil_l.
  assert (Hid : py_get (Models.to_dict job) "id" = VStr job_id).
  { apply py_get_lookup. unfold Models.to_dict. lookup_literal. }
  assert (Hclaim : claimable (timestamp clk2) (Models.to_dict job) →
            claim_first clk2 (filter (claimable (timestamp clk2)) [Models.to_dict job])
              (World (Table (jobs ++ [Models.to_dict job])) [])
            = (Returned (Some (claimed_job job (gmtime_iso clk2))),
               World (Table (jobs ++ [Models.to_dict (claimed_job job (gmtime_iso clk2))]))
                 [])).
  { intros Hc. rewrite filter_cons_True by done. rewrite filter_nil.
    assert (Hi : (jobs ++ [Models.to_dict job]) !! length jobs
                 = Some (Models.to_dict job)).
    { rewrite lookup_app_r by lia. by rewrite Nat.sub_diag. }
    assert (Hnd' : NoDup (ids (jobs ++ [Models.to_dict job]))).
    { unfold ids. rewrite fmap_app. apply NoDup_app. split; [exact Hnd|]. split.
      - intros x Hx Hx'. cbn in Hx'. apply list_elem_of_singleton in Hx' as ->.
        fold (ids jobs) in Hx. rewrite Hid in Hx. contradiction.
      - cbn. apply NoDup_singleton. }
    pose proof (NoDup_ids_find _ _ _ Hnd' Hi) as Hfind.
    rewrite (claim_first_head clk2 _ [] (Table (jobs ++ [Models.to_dict job])) [] []
               (length jobs) Hfind eq_refl).
    rewrite transitioned_to_dict. cbn [rows].
    rewrite insert_app_r_alt by lia. rewrite Nat.sub_diag. cbn [insert list_insert].
    unfold claimed. rewrite from_dict_dumped, post_init_set; [reflexivity|done..]. }
  split.
  - intros Hdue. apply Hclaim, enqueued_job_candidate.
    destruct Hdue as [->|(iso & -> & Hle)]; [done|].
    intros [_ Hlt]. by apply Qle_not_lt in Hle.
  - intros iso -> Hne Hlt. rewrite filter_cons_False; [reflexivity|].
    intros Hc. apply enqueued_job_candidate in Hc. tauto.
Qed.

End EnqueueThenClaim.

(** * Instances of the further properties *)

(** A job enqueued with [max_retries] 1 into an empty store. *)
Lemma enqueue_correct_witness :
  (Some 1 = Some 1 ∨
   @None Z = None ∧ @py_int sample_lib (Config.get ∅ "max_retries" (VInt 3)) = Returned 1) ∧
  fst (@QueueManager.enqueue sample_lib ∅ clock_9 "t1" "false" (Some 1) None fresh_store)
  = Returned (enqueued_job clock_9 "t1" "false" 1 None) ∧
  disk (snd (@QueueManager.enqueue sample_lib ∅ clock_9 "t1" "false" (Some 1) None
               fresh_store))
  = Table [Models.to_dict (enqueued_job clock_9 "t1" "false" 1 None)].
Proof.
  split; [left; reflexivity|].
  destruct (proj1 (@enqueue_correct sample_lib ∅ clock_9 "t1" "false" (Some 1) None 1
                     fresh_store (or_introl eq_refl)) None eq_refl) as [Hok _].
  exact (Hok eq_refl).
Defined.

(** Of two pending jobs the older one is claimed. *)
Lemma claim_next_job_fifo_witness :
  ∃ j', disk (snd (@QueueManager.claim_next_job sample_lib clock_9
                     (World (Table [job_in_state "a" "pending";
                                    job_in_state "b" "pending"]) [])))
        = Table [j'; job_in_state "b" "pending"] ∧
        j' = transitioned (gmtime_iso clock_9) "processing" ∅ (job_in_state "a" "pending").
Proof.
  set (w := World (Table [job_in_state "a" "pending"; job_in_state "b" "pending"]) []).
  assert (Hfilter : filter (@claimable sample_lib (timestamp clock_9)) (table w)
                    = [job_in_state "a" "pending"; job_in_state "b" "pending"]).
  { vm_compute. reflexivity. }
  assert (Hids : NoDup (ids (table w))).
  { apply (bool_decide_unpack (NoDup (ids (table w)))). vm_compute. exact I. }
  destruct (proj2 (@claim_next_job_fifo sample_lib clock_9 w) _ _ Hfilter Hids eq_refl)
    as (i & Hi & Hdisk & _).
  destruct i as [|[|i]]; [|discriminate Hi..].
  eexists. split; [exact Hdisk|reflexivity].
Defined.

(** Two pending jobs are claimed one after the other. *)
Lemma claim_next_job_twice_distinct_witness :
  ∃ job1 job2,
    fst (@QueueManager.claim_next_job sample_lib clock_9
           (World (Table [job_in_state "a" "pending"; job_in_state "b" "pending"]) []))
    = Returned (Some job1) ∧
    fst (@QueueManager.claim_next_job sample_lib clock_11
           (snd (@QueueManager.claim_next_job sample_lib clock_9
                   (World (Table [job_in_state "a" "pending";
                                  job_in_state "b" "pending"]) []))))
    = Returned (Some job2) ∧
    Models.id job1 ≠ Models.id job2.
Proof.
  set (w := World (Table [job_in_state "a" "pending"; job_in_state "b" "pending"]) []).
  assert (Hids : NoDup (ids (table w))).
  { apply (bool_decide_unpack (NoDup (ids (table w)))). vm_compute. exact I. }
  assert (H1 : ∃ job1, fst (@QueueManager.claim_next_job sample_lib clock_9 w)
                       = Returned (Some job1)) by (vm_compute; eexists; reflexivity).
  assert (H2 : ∃ job2, fst (@QueueManager.claim_next_job sample_lib clock_11
                              (snd (@QueueManager.claim_next_job sample_lib clock_9 w)))
                       = Returned (Some job2)) by (vm_compute; eexists; reflexivity).
  destruct H1 as [job1 H1], H2 as [job2 H2]. exists job1, job2.
  split; [exact H1|]. split; [exact H2|].
  exact (@claim_next_job_twice_distinct sample_lib clock_9 clock_11 w job1 job2
           Hids H1 H2).
Defined.

(** The second failure of scenario 2: the job is dead with two attempts. *)
Lemma fail_job_dead_witness :
  ∃ j', disk (snd (@QueueManager.fail_job sample_lib ∅ clock_11 "t2" (Some "err2")
                     None None (one_job (<["attempts" := VInt 1]> processing_t2))))
        = Table [j'] ∧
        j' !! "state" = Some (VStr "dead") ∧
        j' !! "attempts" = Some (VInt 2) ∧
        j' !! "error_message" = Some (VStr "err2").
Proof.
  set (j := <["attempts" := VInt 1]> processing_t2).
  assert (Hfind : list_find (Storage.has_id (VStr "t2")) (table (one_job j))
                  = Some (0%nat, j)) by (vm_compute; reflexivity).
  assert (Ha : @py_int sample_lib (py_get_default j "attempts" (VInt 0)) = Returned 1)
    by (vm_compute; reflexivity).
  assert (Hm : @py_int sample_lib
                 (py_get_default j "max_retries" (Config.get ∅ "max_retries" (VInt 3)))
               = Returned 1) by (vm_compute; reflexivity).
  assert (Hb : @py_int sample_lib (Config.get ∅ "backoff_base" (VInt 2)) = Returned 2)
    by (vm_compute; reflexivity).
  assert (Hlt : 1 < 1 + 1) by lia.
  destruct (proj1 (@fail_job_dead sample_lib ∅ clock_11 "t2" (Some "err2") None None
                     (one_job j) 0%nat j 1 1 2 Hfind Ha Hm Hb Hlt) eq_refl)
    as (j' & Hdisk & Hs & Hatt & Hem & _).
  exists j'. split; [exact Hdisk|]. split; [exact Hs|]. split; [exact Hatt|exact Hem].
Defined.

(** Scenario 2 with [max_retries] 1: one failure at clock reading 9 leaves
    the job scheduled, the next one leaves it dead with two attempts. *)
Lemma fail_job_retries_then_dead_witness :
  ∃ j', table (@exec sample_lib ∅ (clock_11, Fail "t2" (Some "err1") None None)
                 (@run_ops sample_lib ∅ (failures "t2" (Some "err1") [clock_9])
                    (World (Table [processing_t2]) []))) !! 0%nat
        = Some j' ∧
        j' !! "state" = Some (VStr "dead") ∧
        j' !! "attempts" = Some (VInt 2).
Proof.
  assert (Hfind : list_find (Storage.has_id (VStr "t2")) (rows (Table [processing_t2]))
                  = Some (0%nat, processing_t2)) by (vm_compute; reflexivity).
  assert (Ha : processing_t2 !! "attempts" = Some (VInt 0)) by (vm_compute; reflexivity).
  assert (Hm : processing_t2 !! "max_retries" = Some (VInt 1))
    by (vm_compute; reflexivity).
  assert (Hb : @py_int sample_lib (Config.get ∅ "backoff_base" (VInt 2)) = Returned 2)
    by (vm_compute; reflexivity).
  assert (Hlen : Z.of_nat (length [clock_9]) ≤ 1) by (cbn; lia).
  assert (Hiso : ∀ k clk, [clock_9] !! k = Some clk →
                 is_Some (@utc_isoformat sample_lib
                            (Qplus (timestamp clk) (inject_Z (2 ^ Z.of_nat k))))).
  { intros [|k] clk Hk; [|by destruct k].
    injection Hk as <-. vm_compute. eauto. }
  exact (proj2 (@fail_job_retries_then_dead sample_lib ∅ [clock_9] clock_11 "t2"
                  (Some "err1") (Table [processing_t2]) 0%nat processing_t2 1 2
                  Hfind Ha Hm Hb Hlen Hiso) eq_refl).
Defined.

(** A dead job is listed, a pending one is not. *)
Lemma list_dlq_jobs_dead_witness :
  ∃ job,
    QueueManager.list_dlq_jobs clock_9 5
      (World (Table [job_in_state "a" "pending"; job_in_state "b" "dead"]) [])
    = (Returned [job],
       World (Table [job_in_state "a" "pending"; job_in_state "b" "dead"]) []) ∧
    Models.state job = VStr "dead".
Proof.
  assert (Hrun : ∃ job,
             QueueManager.list_dlq_jobs clock_9 5
               (World (Table [job_in_state "a" "pending"; job_in_state "b" "dead"]) [])
             = (Returned [job],
                World (Table [job_in_state "a" "pending"; job_in_state "b" "dead"]) []))
    by (vm_compute; eexists; reflexivity).
  destruct Hrun as [job Hrun]. exists job. split; [exact Hrun|].
  destruct (list_dlq_jobs_dead _ _ _ _ _ Hrun) as (_ & Hall & _).
  exact (Forall_inv Hall).
Defined.

(** A job that has used up its retries and fails again with output on
    stdout is left scheduled by the worker. *)
Lemma report_failure_schedules_witness :
  ∃ j', table (snd (@Worker.report sample_lib ∅ (fun _ => "error") clock_11 "t2"
                      (Worker.Finished 1 "out" "")
                      (World (Table [<["attempts" := VInt 1]> processing_t2]) [])))
          !! 0%nat = Some j' ∧
        j' !! "state" = Some (VStr "scheduled") ∧
        j' !! "error_message" = Some (VStr "out").
Proof.
  set (j := <["attempts" := VInt 1]> processing_t2).
  assert (Hrc : 1 ≠ 0) by lia.
  assert (Hfind : list_find (Storage.has_id (VStr "t2")) (rows (Table [j]))
                  = Some (0%nat, j)) by (vm_compute; reflexivity).
  destruct (@report_failure_schedules sample_lib ∅ (fun _ => "error") clock_11 "t2" 1
              "out" "" (Table [j]) 0%nat j Hrc Hfind)
    as (_ & j' & Hj' & Hs & Hem & _).
  exists j'. split; [exact Hj'|]. split; [exact Hs|exact Hem].
Defined.

(** A job whose command succeeds with output is completed and keeps the
    output. *)
Lemma report_success_completes_witness :
  ∃ j', table (snd (@Worker.report sample_lib ∅ (fun _ => "error") clock_11 "t2"
                      (Worker.Finished 0 "out" "")
                      (World (Table [processing_t2]) [])))
          !! 0%nat = Some j' ∧
        j' !! "state" = Some (VStr "completed") ∧
        j' !! "stdout" = Some (VStr "out").
Proof.
  assert (Hfind : list_find (Storage.has_id (VStr "t2")) (rows (Table [processing_t2]))
                  = Some (0%nat, processing_t2)) by (vm_compute; reflexivity).
  assert (Hout : "out" ≠ "" ∨ "" ≠ "") by (left; discriminate).
  destruct (@report_success_completes sample_lib ∅ (fun _ => "error") clock_11 "t2"
              "out" "" (Table [processing_t2]) 0%nat processing_t2 Hfind)
    as (_ & j' & Hj' & Hs & Hstore).
  exists j'. split; [exact Hj'|]. split; [exact Hs|exact (proj1 (Hstore Hout))].
Defined.

(** One dead job among two: the dead counter is 1. *)
Lemma get_stats_counts_witness :
  "dead" ∈ stat_keys ∧
  ∃ stats,
    QueueManager.get_stats
      (World (Table [job_in_state "a" "pending"; job_in_state "b" "dead"]) [])
    = (Returned stats,
       World (Table [job_in_state "a" "pending"; job_in_state "b" "dead"]) []) ∧
    stats !! "dead" = Some 1.
Proof.
  assert (Hk : "dead" ∈ stat_keys).
  { apply (bool_decide_unpack ("dead" ∈ stat_keys)). vm_compute. exact I. }
  split; [exact Hk|].
  destruct (get_stats_counts [job_in_state "a" "pending"; job_in_state "b" "dead"] []
              "dead" Hk) as (stats & Hrun & Hdead).
  exists stats. split; [exact Hrun|]. rewrite Hdead. vm_compute. reflexivity.
Defined.

(** A processing job is moved to the dead-letter queue by hand and replayed. *)
Lemma move_to_dead_letter_then_replay_witness :
  ∃ j2, table (snd (QueueManager.retry_dlq_job clock_11 "a"
                      (snd (QueueManager.move_to_dead_letter clock_9 "a" (Some "manual")
                              (World (Table [job_in_state "a" "processing"]) [])))))
          !! 0%nat = Some j2 ∧
        j2 !! "state" = Some (VStr "pending") ∧
        j2 !! "attempts" = Some (VInt 0).
Proof.
  assert (Hfind : list_find (Storage.has_id (VStr "a"))
                    (rows (Table [job_in_state "a" "processing"]))
                  = Some (0%nat, job_in_state "a" "processing"))
    by (vm_compute; reflexivity).
  destruct (proj2 (move_to_dead_letter_then_replay clock_9 clock_11 "a" (Some "manual")
                     (Table [job_in_state "a" "processing"])) _ _ Hfind)
    as (_ & j2 & Hj2 & Hs & Ha & _).
  exists j2. split; [exact Hj2|]. split; [exact Hs|exact Ha].
Defined.

(** Scenario 2 run by the worker: after the failure is reported the job is
    due at instant 10; the claim at instant 11 raises and leaves it in
    [processing]. *)
Lemma claim_next_job_raises_after_commit_witness :
  fst (@QueueManager.claim_next_job sample_lib clock_11 reported_t2)
  = Raised (TypeError "__init__() got an unexpected keyword argument") ∧
  ∃ j', disk (snd (@QueueManager.claim_next_job sample_lib clock_11 reported_t2))
        = Table [j'] ∧
        j' !! "state" = Some (VStr "processing").
Proof.
  pose (j := hd (∅ : gmap string value) (table reported_t2)).
  assert (Hw : reported_t2 = World (Table [j]) []) by (vm_compute; reflexivity).
  assert (Hout : j !! "stdout" = Some (VStr "out")) by (vm_compute; reflexivity).
  assert (Hcands : filter (@claimable sample_lib (timestamp clock_11))
                     (table (World (Table [j]) [])) = [j])
    by (vm_compute; reflexivity).
  assert (Hids : NoDup (ids (table (World (Table [j]) [])))) by apply NoDup_singleton.
  assert (Hnot : "stdout" ∉ Models.fields).
  { apply (proj1 (bool_decide_eq_false _)). vm_compute. reflexivity. }
  rewrite Hw.
  destruct (@claim_next_job_raises_after_commit sample_lib clock_11
              (World (Table [j]) []) j [] "stdout" Hcands Hids eq_refl
              (ex_intro _ _ Hout) Hnot) as (Hraise & (i & Hi & Hdisk) & Hstate & _).
  split; [exact Hraise|].
  destruct i as [|i]; [|destruct i; discriminate Hi].
  eexists. split; [exact Hdisk|exact Hstate].
Defined.

(** A second failure with base 3 at the instant 3607, in a zone one hour
    east of UTC: the retry instant stored is 10, not 3610, and the job is a
    candidate at once. *)
Lemma fail_job_backoff_local_zone_witness :
  ∃ j', disk (snd (@QueueManager.fail_job sample_lib {[ "backoff_base" := VInt 3 ]}
                     (Clock (utcnow_timestamp (inject_Z 3607) (inject_Z 3600))
                        "1970-01-01T01:00:07Z" "1970-01-01T01:00:07Z")
                     "t2" (Some "err2") None None (one_job failed_once_t2)))
        = Table [j'] ∧
        j' !! "attempts" = Some (VInt 2) ∧
        j' !! "next_retry_at" = Some (VStr "1970-01-01T00:00:10+00:00") ∧
        @claimable sample_lib (inject_Z 3607) j'.
Proof.
  assert (Hfind : list_find (Storage.has_id (VStr "t2")) (table (one_job failed_once_t2))
                  = Some (0%nat, failed_once_t2)) by (vm_compute; reflexivity).
  assert (Ha : @py_int sample_lib (py_get_default failed_once_t2 "attempts" (VInt 0))
               = Returned 1) by (vm_compute; reflexivity).
  assert (Hm : @py_int sample_lib
                 (py_get_default failed_once_t2 "max_retries"
                    (Config.get {[ "backoff_base" := VInt 3 ]} "max_retries" (VInt 3)))
               = Returned 2) by (vm_compute; reflexivity).
  assert (Hb : @py_int sample_lib
                 (Config.get {[ "backoff_base" := VInt 3 ]} "backoff_base" (VInt 2))
               = Returned 3) by (vm_compute; reflexivity).
  assert (Hk : 1 ≤ 1 + 1 ≤ 2) by lia.
  assert (Hiso : @utc_isoformat sample_lib
                   (Qplus (utcnow_timestamp (inject_Z 3607) (inject_Z 3600))
                      (inject_Z (3 ^ (1 + 1 - 1))))
                 = Some "1970-01-01T00:00:10+00:00") by (vm_compute; reflexivity).
  destruct (@fail_job_backoff_local_zone sample_lib {[ "backoff_base" := VInt 3 ]}
              (inject_Z 3607) (inject_Z 3600)
              "1970-01-01T01:00:07Z" "1970-01-01T01:00:07Z" "t2" (Some "err2") None None
              (one_job failed_once_t2) 0%nat failed_once_t2 1 2 3
              "1970-01-01T00:00:10+00:00" Hfind Ha Hm Hb Hk Hiso eq_refl)
    as (j' & Hdisk & _ & Hatt & Hnext & _ & Hclaim).
  exists j'. split; [exact Hdisk|]. split; [exact Hatt|]. split; [exact Hnext|].
  apply (Hclaim (inject_Z 10)).
  - discriminate.
  - vm_compute. reflexivity.
  - vm_compute. reflexivity.
  - vm_compute. discriminate.
Defined.

(** A job enqueued to run at instant 10 is not claimed at instant 9 and is
    claimed at instant 11. *)
Lemma enqueue_then_claim_witness :
  @QueueManager.claim_next_job sample_lib clock_9
    (snd (@QueueManager.enqueue sample_lib ∅ clock_9 "t1" "false" (Some 1)
            (Some (inject_Z 10)) (World (Table []) [])))
  = (Returned None,
     World (Table [Models.to_dict
                     (enqueued_job clock_9 "t1" "false" 1
                        (Some "1970-01-01T00:00:10+00:00"))]) []) ∧
  @QueueManager.claim_next_job sample_lib clock_11
    (snd (@QueueManager.enqueue sample_lib ∅ clock_9 "t1" "false" (Some 1)
            (Some (inject_Z 10)) (World (Table []) [])))
  = (Returned (Some (claimed_job
                       (enqueued_job clock_9 "t1" "false" 1
                          (Some "1970-01-01T00:00:10+00:00"))
                       (gmtime_iso clock_11))),
     World (Table [Models.to_dict
                     (claimed_job
                        (enqueued_job clock_9 "t1" "false" 1
                           (Some "1970-01-01T00:00:10+00:00"))
                        (gmtime_iso clock_11))]) []).
Proof.
  assert (Hren : @rendered sample_lib (Some (inject_Z 10))
                   (Some "1970-01-01T00:00:10+00:00")).
  { split; [eauto|]. vm_compute. reflexivity. }
  assert (Hfresh : VStr "t1" ∉ ids []) by apply not_elem_of_nil.
  split.
  - apply (proj2 (@enqueue_then_claim sample_lib ∅ clock_9 clock_9 "t1" "false" (Some 1)
                    (Some (inject_Z 10)) 1 [] (or_introl eq_refl) (NoDup_nil_2 : NoDup (ids []))
                    Hfresh eq_refl _ Hren) "1970-01-01T00:00:10+00:00" eq_refl).
    + discriminate.
    + vm_compute. reflexivity.
  - apply (proj1 (@enqueue_then_claim sample_lib ∅ clock_9 clock_11 "t1" "false" (Some 1)
                    (Some (inject_Z 10)) 1 [] (or_introl eq_refl) (NoDup_nil_2 : NoDup (ids []))
                    Hfresh eq_refl _ Hren)).
    right. exists "1970-01-01T00:00:10+00:00". split; [reflexivity|].
    vm_compute. discriminate.
Defined.
